(** * Upgrade-analysis scripts: a shallow embedding and its properties

  The development follows the Python scripts of the repository.

  - [PyStr]: the [str] methods the scripts call ([strip], [startswith],
    [find], slicing), on [string].
  - [CategorizeChanges]: [.upgrade-analysis/scripts/categorize-changes.py],
    with [parse_file_changes], [categorize_files] and the bucket lists,
    counts and validation of [main].
  - [Py]: exceptions, the values [json.loads] returns, and dictionaries
    with their insertion order.
  - [DiffPatch]: [parse_diff_patch] and [extract_integration_points] of
    categorize-changes.py.
  - [AnalyzeJsonDiff]: [analyze_settings_schema] and [analyze_locale] of
    [.upgrade-analysis/scripts/analyze-json-diff.py].
  - [ExtractDawnFiles]: [main] of [scripts/extract-dawn-files.py] with the
    files it writes.
  - [GenerateFilePatches]: the two loops of [main] of
    generate-file-patches.py and the files they leave.
  - [VersionValue]: [get_version_value] of [scripts/version_config.py].
  - [DiffDocumentation]: [format_removed_files] of
    [scripts/generate-diff-documentation.py].
  - [Loader]: [load_json] of both analysis scripts.
  - [VersionConfig] and [Scripts]: [scripts/version_config.py] and the
    entry points of generate-all-diffs.py and extract-dawn-files.py.
  - [AnalyzeAllJsonDiffs]: [analyze_settings_schema], [analyze_locale],
    [analyze_settings_data] and [main] of
    [.upgrade-analysis/scripts/analyze-all-json-diffs.py].

  A Python [str] is a [string]; characters are the code points below 256.
  A Python [list] is a [list]; a [dict] is the list of its items in
  insertion order, because the scripts iterate over dictionaries and the
  order of the output lists follows that iteration.  A function that can
  raise returns a [result].  What the scripts take from outside
  ([json.loads], [DeepDiff], the iteration order of a [set], the work done
  with [git]) is a parameter of the functions that use it. *)

From Stdlib Require Import String Ascii List Bool Arith ZArith Lia Permutation.
Import ListNotations.

Open Scope string_scope.
Open Scope list_scope.

(** ** Python strings *)

Module PyStr.

(** [c.isspace()] for a code point below 256. *)
Definition isspace (c : ascii) : bool :=
  let n := nat_of_ascii c in
  (((9 <=? n) && (n <=? 13)) || ((28 <=? n) && (n <=? 32))
   || (n =? 133) || (n =? 160))%nat.

Fixpoint lstrip (s : string) : string :=
  match s with
  | EmptyString => EmptyString
  | String c s' => if isspace c then lstrip s' else s
  end.

Fixpoint rstrip (s : string) : string :=
  match s with
  | EmptyString => EmptyString
  | String c s' =>
      match rstrip s' with
      | EmptyString => if isspace c then EmptyString else String c EmptyString
      | r => String c r
      end
  end.

(** [s.strip()] *)
Definition strip (s : string) : string := rstrip (lstrip s).

(** [s.startswith(p)] *)
Definition startswith (s p : string) : bool := String.prefix p s.

Fixpoint drop (n : nat) (s : string) : string :=
  match n, s with
  | O, _ => s
  | S n', String _ s' => drop n' s'
  | S _, EmptyString => EmptyString
  end.

(** [s[i:]]; a negative [i] counts from the end, as Python slices do. *)
Definition slice_from (i : Z) (s : string) : string :=
  if (0 <=? i)%Z then drop (Z.to_nat i) s
  else drop (Z.to_nat (Z.of_nat (String.length s) + i)) s.

(** [s.find(sub)]: lowest index where [sub] occurs, [-1] when it does not. *)
Fixpoint find (s sub : string) : Z :=
  if String.prefix sub s then 0%Z
  else match s with
       | EmptyString => (-1)%Z
       | String _ s' =>
           let r := find s' sub in
           if (r =? -1)%Z then (-1)%Z else (r + 1)%Z
       end.

Definition newline : ascii := ascii_of_nat 10.

(** The text made of the given lines, each followed by a line end. *)
Fixpoint unlines (l : list string) : string :=
  match l with
  | [] => EmptyString
  | line :: l' => (line ++ String newline (unlines l'))%string
  end.

End PyStr.

(** ** categorize-changes.py *)

Module CategorizeChanges.
Import PyStr.

(** The dictionary [{"added": [], "modified": [], "deleted": []}]. *)
Record file_changes := mkChanges {
  added : list string;
  modified : list string;
  deleted : list string
}.

Definition no_changes : file_changes := mkChanges [] [] [].

(** One iteration of the loop of [parse_file_changes]. *)
Definition parse_line (result : file_changes) (line : string) : file_changes :=
  let line := strip line in
  match line with
  | EmptyString => result
  | String status _ =>
      let filepath_str := strip (slice_from 2 line) in
      if Ascii.eqb status "A"%char then
        mkChanges (added result ++ [filepath_str]) (modified result) (deleted result)
      else if Ascii.eqb status "M"%char then
        mkChanges (added result) (modified result ++ [filepath_str]) (deleted result)
      else if Ascii.eqb status "D"%char then
        mkChanges (added result) (modified result) (deleted result ++ [filepath_str])
      else result
  end.

(** [parse_file_changes]; [f] is the sequence of lines that iterating over
    the opened file yields. *)
Definition parse_file_changes (f : list string) : file_changes :=
  fold_left parse_line f no_changes.

(** The lines of a text, each with its line end, as file iteration gives them. *)
Fixpoint readlines_aux (cur : string) (s : string) : list string :=
  match s with
  | EmptyString => match cur with EmptyString => [] | _ => [cur] end
  | String c s' =>
      if Ascii.eqb c newline then (cur ++ String c EmptyString)%string :: readlines_aux EmptyString s'
      else readlines_aux (cur ++ String c EmptyString)%string s'
  end.

Definition readlines (content : string) : list string :=
  readlines_aux EmptyString content.

(** The status character of a line and the path it names, when the stripped
    line is not empty. *)
Definition status_of (line : string) : option ascii :=
  match strip line with
  | EmptyString => None
  | String status _ => Some status
  end.

Definition path_of (line : string) : string :=
  strip (slice_from 2 (strip line)).

Definition has_status (status : ascii) (line : string) : bool :=
  match status_of line with
  | Some c => Ascii.eqb c status
  | None => false
  end.

(** The paths of the lines with the given status, in the order of the lines. *)
Definition lines_with (status : ascii) (f : list string) : list string :=
  map path_of (filter (has_status status) f).

(** *** categorize_files *)

(** [modified_dawn_files[filepath] = info]: a Python [dict] keeps the
    position of a key that is already present and replaces its value. *)
Fixpoint dict_set {V : Type} (d : list (string * V)) (k : string) (v : V)
  : list (string * V) :=
  match d with
  | [] => [(k, v)]
  | (k', v') :: d' =>
      if String.eqb k' k then (k', v) :: d' else (k', v') :: dict_set d' k v
  end.

(** [diff_set and filepath in diff_set.get(kind, [])]; an absent or empty
    diff set ([{}] in [main]) is [None]. *)
Definition in_diff_set (diff_set : option file_changes)
    (kind : file_changes -> list string) (filepath : string) : bool :=
  match diff_set with
  | Some d => existsb (String.eqb filepath) (kind d)
  | None => false
  end.

Definition comparisons_of (kind : file_changes -> list string)
    (diff_set_1 diff_set_2 diff_set_3 : option file_changes)
    (filepath : string) : list string :=
  let comparisons :=
    (if in_diff_set diff_set_1 kind filepath
     then ["v10_upstream_vs_v10_custom"] else [])
    ++ (if in_diff_set diff_set_2 kind filepath
        then ["v10_custom_vs_v15_upstream"] else [])
    ++ (if in_diff_set diff_set_3 kind filepath
        then ["v10_upstream_vs_v15_upstream"] else []) in
  match comparisons with
  | [] => ["v10_upstream_vs_v10_custom"]
  | _ => comparisons
  end.

(** The entry of an added file.  Its ["type"] and ["description"] come from
    [pathlib] and are not part of the model. *)
Record file_info := mkFileInfo {
  fi_path : string;
  fi_comparisons : list string
}.

Record custom_files := mkCustom {
  assets : list file_info;
  snippets : list file_info;
  templates : list file_info;
  sections : list file_info;
  layout : list file_info;
  other : list file_info
}.

Definition add_custom (c : custom_files) (filepath : string) (i : file_info)
  : custom_files :=
  if startswith filepath "assets/" then
    mkCustom (assets c ++ [i]) (snippets c) (templates c) (sections c) (layout c) (other c)
  else if startswith filepath "snippets/" then
    mkCustom (assets c) (snippets c ++ [i]) (templates c) (sections c) (layout c) (other c)
  else if startswith filepath "templates/" then
    mkCustom (assets c) (snippets c) (templates c ++ [i]) (sections c) (layout c) (other c)
  else if startswith filepath "sections/" then
    mkCustom (assets c) (snippets c) (templates c) (sections c ++ [i]) (layout c) (other c)
  else if startswith filepath "layout/" then
    mkCustom (assets c) (snippets c) (templates c) (sections c) (layout c ++ [i]) (other c)
  else
    mkCustom (assets c) (snippets c) (templates c) (sections c) (layout c) (other c ++ [i]).

(** The entry of a modified file; ["changes"] and ["integration_points"]
    start empty and are filled by [main] from the parsed patch, which
    touches no other field. *)
Record modified_info := mkModified {
  m_path : string;
  revert_to_clean : bool;
  reason : option string;
  m_comparisons : list string
}.

(** Lines 149-153: the decision for one modified path. *)
Definition revert_decision (filepath : string) : bool :=
  if startswith filepath "locales/" && negb (startswith filepath "locales/en.")
  then true
  else if String.eqb filepath "README.md" then true
  else false.

Definition revert_reason (filepath : string) (revert : bool) : option string :=
  if revert then
    if String.eqb filepath "README.md"
    then Some "Accept Dawn 15.4.0 version (revert our customizations)"
    else Some "Non-English locale - custom features only support English"
  else None.

Definition modified_entry (d1 d2 d3 : option file_changes) (filepath : string)
  : modified_info :=
  let revert := revert_decision filepath in
  mkModified filepath revert (revert_reason filepath revert)
             (comparisons_of modified d1 d2 d3 filepath).

Definition dev_config_files : list string :=
  [".github/"; ".gitignore"; ".prettierrc.json"; ".theme-check.yml";
   ".vscode/"; "LICENSE.md"; "release-notes.md"; "translation.yml"].

Definition is_dev_config (filepath : string) : bool :=
  existsb (fun pattern => startswith filepath pattern || String.eqb filepath pattern)
          dev_config_files.

(** **** The three regular-expression searches of lines 208-214 *)

(** [.*lit] at the head of [s], where [.] is any character but a newline. *)
Fixpoint dot_star_then (lit s : string) : bool :=
  String.prefix lit s
  || match s with
     | EmptyString => false
     | String c s' => if Ascii.eqb c newline then false else dot_star_then lit s'
     end.

(** [re.search(rf'diff --git.*{path}|^--- a/{path}|^\+\+\+ b/{path}',
    content, re.MULTILINE)] finds a match; [bol] says that the current
    position starts a line. *)
Fixpoint search_entry (filepath : string) (bol : bool) (s : string) : bool :=
  (String.prefix "diff --git" s && dot_star_then filepath (drop 10 s))
  || (bol && String.prefix ("--- a/" ++ filepath)%string s)
  || (bol && String.prefix ("+++ b/" ++ filepath)%string s)
  || match s with
     | EmptyString => false
     | String c s' => search_entry filepath (Ascii.eqb c newline) s'
     end.

(** The lazy [.*?] before the literal [lit], with [re.DOTALL]: the text up
    to and including the first occurrence of [lit], and what follows it. *)
Fixpoint lazy_through (lit s : string) : option (string * string) :=
  if String.prefix lit s then Some (lit, drop (String.length lit) s)
  else match s with
       | EmptyString => None
       | String c s' =>
           match lazy_through lit s' with
           | Some (m, rest) => Some (String c m, rest)
           | None => None
           end
       end.

(** The lazy [.*?] before the lookahead [(?=diff --git|\Z)]. *)
Fixpoint lazy_until_diff (s : string) : string :=
  if String.prefix "diff --git" s then EmptyString
  else match s with
       | EmptyString => EmptyString
       | String c s' => String c (lazy_until_diff s')
       end.

(** [re.search(rf'(diff --git.*?{path}.*?)(?=diff --git|\Z)', content,
    re.DOTALL)]: the leftmost start that matches, and its group 1. *)
Fixpoint diff_section (filepath : string) (s : string) : option string :=
  let here :=
    if String.prefix "diff --git" s then
      match lazy_through filepath (drop 10 s) with
      | Some (m, rest) => Some ("diff --git" ++ m ++ lazy_until_diff rest)%string
      | None => None
      end
    else None in
  match here with
  | Some sec => Some sec
  | None =>
      match s with
      | EmptyString => None
      | String _ s' => diff_section filepath s'
      end
  end.

(** [re.search(r'^\+[^+]', section, re.MULTILINE)] finds a match. *)
Fixpoint has_added_line (bol : bool) (s : string) : bool :=
  match s with
  | EmptyString => false
  | String c s' =>
      (bol && Ascii.eqb c "+"%char
       && match s' with
          | String d _ => negb (Ascii.eqb d "+"%char)
          | EmptyString => false
          end)
      || has_added_line (Ascii.eqb c newline) s'
  end.

(** Lines 203-215. *)
Definition detect_customizations (filepath full_diff_content : string) : bool :=
  if is_dev_config filepath && negb (String.eqb full_diff_content EmptyString) then
    if search_entry filepath true full_diff_content then
      match diff_section filepath full_diff_content with
      | Some section => has_added_line true section
      | None => false
      end
    else false
  else false.

Record removed_info := mkRemoved {
  r_path : string;
  should_restore : bool;
  accept_dawn_15_4 : bool;
  has_customizations : bool;
  r_description : string;
  r_comparisons : list string
}.

Definition removed_entry (full_diff_content : string)
    (d1 d2 d3 : option file_changes) (filepath : string) : removed_info :=
  let dev := is_dev_config filepath in
  let custom := detect_customizations filepath full_diff_content in
  mkRemoved filepath (negb dev) dev (if dev then custom else false)
    ((if dev
      then "Accept Dawn 15.4.0 version"
           ++ (if custom then " (patch with customizations)" else EmptyString)
      else "Should restore") ++ " Dawn file: " ++ filepath)%string
    (comparisons_of deleted d1 d2 d3 filepath).

Record categorized := mkCategorized {
  cat_custom_files : custom_files;
  modified_dawn_files : list (string * modified_info);
  removed_dawn_files : list removed_info
}.

(** [categorize_files]; [full_diff] is the text of the file at
    [full_diff_path], [None] when there is no such file. *)
Definition categorize_files (changes : file_changes) (full_diff : option string)
    (diff_set_1 diff_set_2 diff_set_3 : option file_changes) : categorized :=
  let custom :=
    fold_left
      (fun c filepath =>
         add_custom c filepath
           (mkFileInfo filepath
              (comparisons_of added diff_set_1 diff_set_2 diff_set_3 filepath)))
      (added changes) (mkCustom [] [] [] [] [] []) in
  let modified_files :=
    fold_left
      (fun d filepath =>
         dict_set d filepath (modified_entry diff_set_1 diff_set_2 diff_set_3 filepath))
      (modified changes) [] in
  let full_diff_content :=
    match full_diff with Some c => c | None => EmptyString end in
  let removed :=
    map (removed_entry full_diff_content diff_set_1 diff_set_2 diff_set_3)
        (deleted changes) in
  mkCategorized custom modified_files removed.

(** *** main: bucket lists, counts and validation (lines 321-360) *)

(** What [main] prints when the modified counts do not add up. *)
Inductive warning :=
| ModifiedDontAddUp (total revert patch : nat).

Record report := mkReport {
  files_to_revert_to_clean : list string;
  files_to_patch_modified : list string;
  files_to_restore_from_dawn : list string;
  files_to_accept_dawn_15_4 : list string;
  files_to_patch_with_customizations : list string;
  modified_dawn_files_count : nat;
  removed_dawn_files_count : nat;
  modified_equals_revert_plus_patch : bool;
  removed_equals_restore_plus_accept : bool;
  printed_warnings : list warning
}.

Definition combine_results (c : categorized) : report :=
  let files_to_revert :=
    map fst (filter (fun kv => revert_to_clean (snd kv)) (modified_dawn_files c)) in
  let files_to_patch_modified :=
    map fst (filter (fun kv => negb (revert_to_clean (snd kv))) (modified_dawn_files c)) in
  let files_to_restore :=
    map r_path (filter should_restore (removed_dawn_files c)) in
  let files_to_accept :=
    map r_path (filter accept_dawn_15_4 (removed_dawn_files c)) in
  let files_to_patch_deleted :=
    map r_path (filter (fun f => accept_dawn_15_4 f && has_customizations f)
                       (removed_dawn_files c)) in
  let total_modified := length (modified_dawn_files c) in
  let total_to_revert := length files_to_revert in
  let total_to_patch_modified := length files_to_patch_modified in
  mkReport files_to_revert files_to_patch_modified files_to_restore
    files_to_accept files_to_patch_deleted
    total_modified (length (removed_dawn_files c))
    (total_modified =? total_to_revert + total_to_patch_modified)%nat
    (length (removed_dawn_files c) =? length files_to_restore + length files_to_accept)%nat
    (if negb (total_modified =? total_to_revert + total_to_patch_modified)%nat
     then [ModifiedDontAddUp total_modified total_to_revert total_to_patch_modified]
     else []).

(** [main], from the lines of the file-changes lists and the text of the
    full diff to the report. *)
Definition main (file_changes_lines : list string) (full_diff : option string)
    (diff_set_1 diff_set_2 diff_set_3 : option (list string)) : report :=
  let changes := parse_file_changes file_changes_lines in
  combine_results
    (categorize_files changes full_diff
       (option_map parse_file_changes diff_set_1)
       (option_map parse_file_changes diff_set_2)
       (option_map parse_file_changes diff_set_3)).

(** The last component of a path, [Path(filepath).name] for a path without
    a trailing separator. *)
Fixpoint filename (filepath : string) : string :=
  match filepath with
  | EmptyString => EmptyString
  | String c rest =>
      if existsb (Ascii.eqb "/"%char) (list_ascii_of_string rest)
      then filename rest
      else if Ascii.eqb c "/"%char then rest else filepath
  end.

(** The revert rule in the words of the specification: under [locales/]
    with a file name that does not start with [en.], or exactly
    [README.md]. *)
Definition spec_revert_rule (filepath : string) : bool :=
  (startswith filepath "locales/" && negb (startswith (filename filepath) "en."))
  || String.eqb filepath "README.md".

(** The section of a path in the text of a diff, in the words of the
    specification: from the first [diff --git] header whose line names the
    path up to the next header. *)
Fixpoint spec_path_section (filepath : string) (s : string) : option string :=
  if String.prefix "diff --git" s && dot_star_then filepath (drop 10 s)
  then Some ("diff --git" ++ lazy_until_diff (drop 10 s))%string
  else match s with
       | EmptyString => None
       | String _ s' => spec_path_section filepath s'
       end.

(** An added line: it starts with [+] and is not a [+++] header. *)
Definition is_added_line (line : string) : bool :=
  String.prefix "+" line && negb (String.prefix "+++" line).

Definition spec_has_customizations (filepath content : string) : bool :=
  match spec_path_section filepath content with
  | Some section => existsb is_added_line (readlines section)
  | None => false
  end.

(** *** Further readings of the result *)

(** Line 347: [sum(len(files) for files in custom_files.values())]. *)
Definition custom_files_count (c : custom_files) : nat :=
  length (assets c) + length (snippets c) + length (templates c)
  + length (sections c) + length (layout c) + length (other c).

(** A path that starts with none of the five content directories. *)
Definition is_other (filepath : string) : bool :=
  negb (startswith filepath "assets/" || startswith filepath "snippets/"
        || startswith filepath "templates/" || startswith filepath "sections/"
        || startswith filepath "layout/").

(** The three labels, in the order [comparisons] lists them. *)
Definition comparison_labels : list string :=
  ["v10_upstream_vs_v10_custom"; "v10_custom_vs_v15_upstream";
   "v10_upstream_vs_v15_upstream"].

(** [sub] occurs in [s]. *)
Definition occurs (sub s : string) : Prop :=
  exists a b, s = (a ++ sub ++ b)%string.

(** A line of [git diff --name-status]: the status letter, a tab, the path
    and the line end. *)
Definition name_status_line (status : ascii) (path : string) : string :=
  String status (String (ascii_of_nat 9) (path ++ String newline EmptyString)).

(** The paths of the entries with the given status. *)
Definition paths_with (status : ascii) (entries : list (ascii * string))
  : list string :=
  map snd (filter (fun e => Ascii.eqb (fst e) status) entries).

(** What the labels [l] of a path say about the three diff sets: there is
    at least one, they are labels of the script without repetition, the
    second and third are there exactly for a path in the list of its kind
    in that diff set, the first also for a path in neither of those. *)
Definition labels_follow (diff_set_1 diff_set_2 diff_set_3 : option file_changes)
    (kind : file_changes -> list string) (p : string) (l : list string) : Prop :=
  l <> []
  /\ NoDup l
  /\ incl l comparison_labels
  /\ (In "v10_custom_vs_v15_upstream" l <-> in_diff_set diff_set_2 kind p = true)
  /\ (In "v10_upstream_vs_v15_upstream" l <-> in_diff_set diff_set_3 kind p = true)
  /\ (In "v10_upstream_vs_v10_custom" l
      <-> in_diff_set diff_set_1 kind p = true
          \/ (in_diff_set diff_set_2 kind p = false
              /\ in_diff_set diff_set_3 kind p = false)).

End CategorizeChanges.

(** ** Exceptions and JSON values *)

Module Py.

(** The exceptions the modelled code can raise. *)
Inductive exn :=
| TypeError | AttributeError | KeyError | JSONDecodeError | FileNotFoundError.

(** A computation that returns a value or raises. *)
Inductive result (A : Type) :=
| Ok (a : A)
| Raise (e : exn).
Arguments Ok {A} a.
Arguments Raise {A} e.

Definition bind {A B : Type} (c : result A) (k : A -> result B) : result B :=
  match c with
  | Ok a => k a
  | Raise e => Raise e
  end.

(** A loop that collects one value per element and stops at the first
    exception. *)
Fixpoint mapM {A B : Type} (f : A -> result B) (l : list A) : result (list B) :=
  match l with
  | [] => Ok []
  | x :: l' =>
      bind (f x) (fun y => bind (mapM f l') (fun ys => Ok (y :: ys)))
  end.

(** What [json.loads] returns.  Numbers are the integers: a number with
    a fraction or an exponent is a Python [float], which this model leaves
    out.  An object is the list of its items in insertion order. *)
#[warnings="-register-all"]
Inductive json :=
| JNull
| JBool (b : bool)
| JInt (z : Z)
| JStr (s : string)
| JList (l : list json)
| JDict (d : list (string * json)).

Fixpoint lookup {V : Type} (k : string) (d : list (string * V)) : option V :=
  match d with
  | [] => None
  | (k', v) :: d' => if String.eqb k' k then Some v else lookup k d'
  end.

(** [a == b] on values loaded from JSON. *)
Fixpoint py_eq (a b : json) {struct a} : bool :=
  match a, b with
  | JNull, JNull => true
  | JBool x, JBool y => Bool.eqb x y
  | JBool x, JInt z => Z.eqb (if x then 1 else 0) z
  | JInt z, JBool y => Z.eqb z (if y then 1 else 0)
  | JInt x, JInt y => Z.eqb x y
  | JStr x, JStr y => String.eqb x y
  | JList l1, JList l2 =>
      (fix all2 (l1 l2 : list json) : bool :=
         match l1, l2 with
         | [], [] => true
         | x :: xs, y :: ys => py_eq x y && all2 xs ys
         | _, _ => false
         end) l1 l2
  | JDict d1, JDict d2 =>
      Nat.eqb (length d1) (length d2)
      && (fix all (d : list (string * json)) : bool :=
            match d with
            | [] => true
            | (k, v) :: d' =>
                match lookup k d2 with
                | Some w => py_eq v w
                | None => false
                end && all d'
            end) d1
  | _, _ => false
  end.

(** [bool(v)] *)
Definition truthy (v : json) : bool :=
  match v with
  | JNull => false
  | JBool b => b
  | JInt z => negb (Z.eqb z 0)
  | JStr s => negb (String.eqb s EmptyString)
  | JList l => match l with [] => false | _ => true end
  | JDict d => match d with [] => false | _ => true end
  end.

(** Lists and dictionaries cannot be dictionary keys. *)
Definition hashable (v : json) : bool :=
  match v with
  | JList _ | JDict _ => false
  | _ => true
  end.

(** [item.get(key, default)]; only a dictionary has [get]. *)
Definition py_get (item : json) (key : string) (default : json) : result json :=
  match item with
  | JDict d => Ok (match lookup key d with Some v => v | None => default end)
  | _ => Raise AttributeError
  end.

(** The elements a [for] loop over [v] visits. *)
Definition py_iter (v : json) : result (list json) :=
  match v with
  | JList l => Ok l
  | JStr s => Ok (map (fun c => JStr (String c EmptyString)) (list_ascii_of_string s))
  | JDict d => Ok (map (fun kv => JStr (fst kv)) d)
  | _ => Raise TypeError
  end.

(** A dictionary whose keys are JSON scalars, as the list of its items in
    insertion order; keys are compared with [==]. *)
Definition pydict (V : Type) : Type := list (json * V).

Definition dict_keys {V : Type} (d : pydict V) : list json := map fst d.

Fixpoint dict_get {V : Type} (d : pydict V) (k : json) : option V :=
  match d with
  | [] => None
  | (k', v) :: d' => if py_eq k' k then Some v else dict_get d' k
  end.

(** [k in d] *)
Definition dict_mem {V : Type} (k : json) (d : pydict V) : bool :=
  match dict_get d k with Some _ => true | None => false end.

(** [d[k] = v] *)
Fixpoint dict_put {V : Type} (d : pydict V) (k : json) (v : V) : pydict V :=
  match d with
  | [] => [(k, v)]
  | (k', v') :: d' =>
      if py_eq k' k then (k', v) :: d' else (k', v') :: dict_put d' k v
  end.

(** [d[k]] *)
Definition dict_index {V : Type} (d : pydict V) (k : json) : result V :=
  match dict_get d k with
  | Some v => Ok v
  | None => Raise KeyError
  end.

(** The dictionary with [f] applied to every value. *)
Definition dict_map {V W : Type} (f : V -> W) (d : pydict V) : pydict W :=
  map (fun kv => (fst kv, f (snd kv))) d.

(** [c] returns, and what it returns satisfies [P]. *)
Definition returns {A : Type} (c : result A) (P : A -> Prop) : Prop :=
  exists a, c = Ok a /\ P a.

(** Every key of [d] can be hashed and every value satisfies [P]. *)
Definition dict_inv {V : Type} (P : V -> Prop) (d : pydict V) : Prop :=
  Forall (fun kv => hashable (fst kv) = true /\ P (snd kv)) d.

End Py.

Module PyNotations.
Notation "x <- c ;; k" := (Py.bind c (fun x => k))
  (at level 61, c at next level, right associativity).
End PyNotations.

(** ** load_json (analyze-all-json-diffs.py, analyze-json-diff.py) *)

Module Loader.
Import PyStr Py.

Section WithParser.
(** [json.loads]; [None] stands for its [JSONDecodeError]. *)
Variable json_loads : string -> option json.

(** Lines 22-25: what is left of the text of the file after the leading
    comment block is skipped. *)
Definition skip_comment (content : string) : string :=
  if startswith (strip content) "/*" then
    let end_comment := find content "*/" in
    if negb (end_comment =? -1)%Z
    then strip (slice_from (end_comment + 2) content)
    else content
  else content.

(** [load_json], on the text of the file. *)
Definition load_json (content : string) : result json :=
  match json_loads (skip_comment content) with
  | Some v => Ok v
  | None => Raise JSONDecodeError
  end.
End WithParser.

(** A parser that knows the two empty documents, to run [load_json] on
    examples. *)
Definition loads_empty (s : string) : option json :=
  if String.eqb s "{}" then Some (JDict [])
  else if String.eqb s "[]" then Some (JList [])
  else None.

End Loader.

(** ** version_config.py and the entry points of the command-line scripts *)

Module VersionConfig.
Import PyStr Py PyNotations.

Section WithParser.
Variable json_loads : string -> option json.

(** [load_version_config]; [config_file] is the text of the file at the
    configuration path, [None] when that path does not exist. *)
Definition load_version_config (config_file : option string) : result json :=
  match config_file with
  | None => Raise FileNotFoundError
  | Some text =>
      match json_loads text with
      | Some config => Ok config
      | None => Raise JSONDecodeError
      end
  end.

Record git_refs := mkRefs {
  current : json;
  comparison : json;
  destination : json;
  upstream_remote : json
}.

Definition get_git_refs (config_file : option string) : result git_refs :=
  config <- load_version_config config_file ;;
  git_config <- py_get config "git_config" (JDict []) ;;
  c <- py_get git_config "current_branch" (JStr "HEAD") ;;
  k <- py_get git_config "comparison_ref" (JStr "v10.0.0") ;;
  d <- py_get git_config "destination_ref" (JStr "upstream/main") ;;
  u <- py_get git_config "upstream_remote" (JStr "upstream") ;;
  Ok (mkRefs c k d u).

Record version_info := mkInfo {
  vi_current : json;
  vi_comparison : json;
  vi_destination : json
}.

Definition get_version_info (config_file : option string) : result version_info :=
  config <- load_version_config config_file ;;
  c <- py_get config "current_version" (JDict []) ;;
  k <- py_get config "comparison_version" (JDict []) ;;
  d <- py_get config "destination_version" (JDict []) ;;
  Ok (mkInfo c k d).
End WithParser.

End VersionConfig.

Module Scripts.
Import Py PyNotations VersionConfig.

(** The exit status of the interpreter when the module body ends with the
    statement [main()]: the value [main] returns is dropped; an exception
    that nothing catches ends the process with status 1. *)
Definition status_of_call (r : result Z) : Z :=
  match r with
  | Ok _ => 0%Z
  | Raise _ => 1%Z
  end.

(** The exit status when the module body ends with [exit(main())]. *)
Definition status_of_exit_call (r : result Z) : Z :=
  match r with
  | Ok n => (n mod 256)%Z
  | Raise _ => 1%Z
  end.

Section WithEnvironment.
Variable json_loads : string -> option json.
(** What a script does once the configuration is loaded (it runs [git]
    and writes files); it may raise. *)
Variable work : git_refs -> version_info -> result unit.

(** The [main] shared by generate-all-diffs.py and extract-dawn-files.py:
    the configuration is loaded inside [try], [FileNotFoundError] makes
    it return 1, and the end of the function returns 0. *)
Definition main (config_file : option string) : result Z :=
  match (refs <- get_git_refs json_loads config_file ;;
         info <- get_version_info json_loads config_file ;;
         Ok (refs, info)) with
  | Raise FileNotFoundError => Ok 1%Z
  | Raise e => Raise e
  | Ok (refs, info) => _ <- work refs info ;; Ok 0%Z
  end.

(** generate-all-diffs.py, lines 273-274. *)
Definition generate_all_diffs (config_file : option string) : Z :=
  status_of_call (main config_file).

(** extract-dawn-files.py, lines 99-100. *)
Definition extract_dawn_files (config_file : option string) : Z :=
  status_of_exit_call (main config_file).
End WithEnvironment.

End Scripts.

(** ** analyze-all-json-diffs.py *)

Module AnalyzeAllJsonDiffs.
Import PyStr Py PyNotations.

(** An f-string, as its literal pieces and the values it interpolates;
    the interpreter renders the values when it builds the text. *)
Inductive fpart :=
| Lit (s : string)
| Val (v : json).

Definition fstring := list fpart.

(** The dictionaries appended to the lists of the result: one kind names a
    whole section, the other a setting of a section.  [changes] is the
    ["changes"] key, which only modification records have. *)
Inductive change_record :=
| SectionRecord (name : json) (comparison : string) (description : fstring)
| SettingRecord (id section : json) (comparison : string) (type label : json)
                (changes : option string) (description : fstring).

Record theme_change := mkThemeChange {
  tc_old : json;
  tc_new : json;
  tc_comparison : string
}.

Record schema_result := mkSchemaResult {
  custom_additions : list change_record;
  modifications : list change_record;
  removals : list change_record;
  custom_sections : list change_record;
  dawn_additions : list change_record;
  dawn_modifications : list change_record;
  dawn_removals : list change_record;
  conflict_additions : list change_record;
  conflict_modifications : list change_record;
  conflict_removals : list change_record;
  theme_info_changes : list (string * theme_change)
}.

(** [next((item for item in snapshot if item.get('name') == 'theme_info'), {})] *)
Fixpoint find_theme_info (snapshot : list json) : result json :=
  match snapshot with
  | [] => Ok (JDict [])
  | item :: rest =>
      name <- py_get item "name" JNull ;;
      if py_eq name (JStr "theme_info") then Ok item else find_theme_info rest
  end.

(** [{item.get('name'): item for item in snapshot
      if item.get('name') != 'theme_info'}], from the dictionary built so far. *)
Fixpoint sections_by_name (snapshot : list json) (d : pydict json)
  : result (pydict json) :=
  match snapshot with
  | [] => Ok d
  | item :: rest =>
      name <- py_get item "name" JNull ;;
      if negb (py_eq name (JStr "theme_info")) then
        if hashable name then sections_by_name rest (dict_put d name item)
        else Raise TypeError
      else sections_by_name rest d
  end.

(** [{s.get('id'): s for s in entries if s.get('id')}] *)
Fixpoint settings_by_id (entries : list json) (d : pydict json)
  : result (pydict json) :=
  match entries with
  | [] => Ok d
  | s :: rest =>
      id <- py_get s "id" JNull ;;
      if truthy id then
        if hashable id then settings_by_id rest (dict_put d id s)
        else Raise TypeError
      else settings_by_id rest d
  end.

(** The entries [section.get('settings', [])] iterates over. *)
Definition settings_of (section : json) : result (list json) :=
  v <- py_get section "settings" (JList []) ;;
  py_iter v.

Definition settings_map (section : json) : result (pydict json) :=
  entries <- settings_of section ;;
  settings_by_id entries [].

Definition concat_pairs {A B : Type} (l : list (list A * list B))
  : list A * list B :=
  (concat (map fst l), concat (map snd l)).

Section WithPrimitives.
(** [DeepDiff(a, b, ignore_order=True, verbose_level=2)]: [None] when the
    difference is empty, else [str(diff)]. *)
Variable DeepDiff : json -> json -> option string.
(** The order in which a [set] with the given elements is iterated; it
    depends on the hashes of the elements. *)
Variable set_order : list json -> list json.

(** The iteration over [a.keys() & b.keys()]. *)
Definition keys_and {V W : Type} (a : pydict V) (b : pydict W) : list json :=
  set_order (filter (fun k => dict_mem k b) (dict_keys a)).

(** *** Comparison 1: v10 upstream vs v10 custom *)

(** Lines 84-93: the settings of a section that only the custom
    snapshot has. *)
Definition custom_section_settings (section_name section : json)
  : result (list change_record) :=
  entries <- settings_of section ;;
  rs <- mapM (fun setting =>
          id <- py_get setting "id" JNull ;;
          if truthy id then
            ty <- py_get setting "type" JNull ;;
            label <- py_get setting "label" (JStr EmptyString) ;;
            shown <- py_get setting "label" id ;;
            Ok [SettingRecord id section_name "v10_upstream_vs_v10_custom"
                  ty label None
                  [Lit "Custom setting in "; Val section_name; Lit ": "; Val shown]]
          else Ok []) entries ;;
  Ok (concat rs).

(** Lines 77-93: custom sections and custom additions. *)
Definition custom_sections_loop (v10_sections current_sections : pydict json)
  : result (list change_record * list change_record) :=
  rs <- mapM (fun kv : json * json =>
          let section_name := fst kv in
          if negb (dict_mem section_name v10_sections) then
            section <- dict_index current_sections section_name ;;
            adds <- custom_section_settings section_name section ;;
            Ok ([SectionRecord section_name "v10_upstream_vs_v10_custom"
                   [Lit "Custom section: "; Val section_name]], adds)
          else Ok ([], [])) current_sections ;;
  Ok (concat_pairs rs).

(** Lines 104-113, 146-155 and 188-197: settings the compared section
    has and the base section lacks; [describe] builds the description
    from the section name, the setting id and the shown label. *)
Definition added_settings (comparison : string)
    (describe : json -> json -> json -> fstring)
    (section_name : json) (base_settings compare_settings : pydict json)
  : result (list change_record) :=
  rs <- mapM (fun kv : json * json =>
          let (setting_id, setting) := kv in
          if negb (dict_mem setting_id base_settings) then
            ty <- py_get setting "type" JNull ;;
            label <- py_get setting "label" (JStr EmptyString) ;;
            shown <- py_get setting "label" setting_id ;;
            Ok [SettingRecord setting_id section_name comparison ty label None
                  (describe section_name setting_id shown)]
          else Ok []) compare_settings ;;
  Ok (concat rs).

(** Lines 116-127, 158-169 and 200-211: settings of both sections whose
    [DeepDiff] is not empty; [labelled] is the side the record takes
    ["type"] and ["label"] from. *)
Definition modified_settings (comparison : string)
    (describe : json -> json -> json -> fstring)
    (section_name : json) (base_settings compare_settings labelled : pydict json)
  : result (list change_record) :=
  rs <- mapM (fun setting_id =>
          old <- dict_index base_settings setting_id ;;
          new <- dict_index compare_settings setting_id ;;
          match DeepDiff old new with
          | Some text =>
              shownin <- dict_index labelled setting_id ;;
              ty <- py_get shownin "type" JNull ;;
              label <- py_get shownin "label" (JStr EmptyString) ;;
              shown <- py_get shownin "label" setting_id ;;
              Ok [SettingRecord setting_id section_name comparison ty label
                    (Some text) (describe section_name setting_id shown)]
          | None => Ok []
          end) (keys_and base_settings compare_settings) ;;
  Ok (concat rs).

(** The body of the loops over [base.keys() & compare.keys()] (lines
    96-127, 138-169, 180-211): additions and modifications of one
    section present on both sides. *)
Definition common_section (comparison : string)
    (describe_added describe_modified : json -> json -> json -> fstring)
    (labelled_is_compare : bool)
    (base_sections compare_sections : pydict json) (section_name : json)
  : result (list change_record * list change_record) :=
  base_section <- dict_index base_sections section_name ;;
  compare_section <- dict_index compare_sections section_name ;;
  base_settings <- settings_map base_section ;;
  compare_settings <- settings_map compare_section ;;
  adds <- added_settings comparison describe_added section_name
            base_settings compare_settings ;;
  mods <- modified_settings comparison describe_modified section_name
            base_settings compare_settings
            (if labelled_is_compare then compare_settings else base_settings) ;;
  Ok (adds, mods).

Definition common_sections_loop (comparison : string)
    (describe_added describe_modified : json -> json -> json -> fstring)
    (labelled_is_compare : bool)
    (base_sections compare_sections : pydict json)
  : result (list change_record * list change_record) :=
  rs <- mapM (common_section comparison describe_added describe_modified
                labelled_is_compare base_sections compare_sections)
             (keys_and base_sections compare_sections) ;;
  Ok (concat_pairs rs).

(** Lines 130-136 and 172-178: sections only the compared snapshot has. *)
Definition added_sections (comparison : string) (describe : json -> fstring)
    (base_sections compare_sections : pydict json) : list change_record :=
  concat (map (fun section_name =>
            if negb (dict_mem section_name base_sections)
            then [SectionRecord section_name comparison (describe section_name)]
            else [])
         (dict_keys compare_sections)).

Definition theme_version (theme_info : json) : result json :=
  py_get theme_info "theme_version" JNull.

(** [analyze_settings_schema] *)
Definition analyze_settings_schema (dawn_v10 current dawn_v15 : list json)
  : result schema_result :=
  v10_theme_info <- find_theme_info dawn_v10 ;;
  current_theme_info <- find_theme_info current ;;
  v15_theme_info <- find_theme_info dawn_v15 ;;
  v10_version <- theme_version v10_theme_info ;;
  current_version <- theme_version current_theme_info ;;
  v15_version <- theme_version v15_theme_info ;;
  let theme_changes :=
    (if negb (py_eq v10_version current_version)
     then [("v10_custom",
            mkThemeChange v10_version current_version "v10_upstream_vs_v10_custom")]
     else [])
    ++ (if negb (py_eq v10_version v15_version)
        then [("v15_upstream",
               mkThemeChange v10_version v15_version "v10_upstream_vs_v15_upstream")]
        else []) in
  v10_sections <- sections_by_name dawn_v10 [] ;;
  current_sections <- sections_by_name current [] ;;
  v15_sections <- sections_by_name dawn_v15 [] ;;
  new1 <- custom_sections_loop v10_sections current_sections ;;
  common1 <- common_sections_loop "v10_upstream_vs_v10_custom"
               (fun section_name _ shown =>
                  [Lit "Custom setting in "; Val section_name; Lit ": "; Val shown])
               (fun section_name _ shown =>
                  [Lit "Modified Dawn setting in "; Val section_name; Lit ": "; Val shown])
               true v10_sections current_sections ;;
  let new2 := added_sections "v10_upstream_vs_v15_upstream"
                (fun section_name => [Lit "Dawn 15.4.0 added section: "; Val section_name])
                v10_sections v15_sections in
  common2 <- common_sections_loop "v10_upstream_vs_v15_upstream"
               (fun section_name _ shown =>
                  [Lit "Dawn 15.4.0 added setting in "; Val section_name; Lit ": "; Val shown])
               (fun section_name _ shown =>
                  [Lit "Dawn 15.4.0 modified setting in "; Val section_name; Lit ": "; Val shown])
               true v10_sections v15_sections ;;
  let new3 := added_sections "v10_custom_vs_v15_upstream"
                (fun section_name =>
                   [Lit "Conflict: Dawn 15.4.0 has section "; Val section_name;
                    Lit " that we don't have"])
                current_sections v15_sections in
  common3 <- common_sections_loop "v10_custom_vs_v15_upstream"
               (fun section_name setting_id _ =>
                  [Lit "Conflict: Dawn 15.4.0 added setting "; Val setting_id;
                   Lit " in "; Val section_name])
               (fun section_name setting_id _ =>
                  [Lit "Conflict: Both we and Dawn 15.4.0 modified setting ";
                   Val setting_id; Lit " in "; Val section_name])
               false current_sections v15_sections ;;
  Ok (mkSchemaResult
        (snd new1 ++ fst common1) (snd common1) [] (fst new1)
        (new2 ++ fst common2) (snd common2) []
        (new3 ++ fst common3) (snd common3) []
        theme_changes).
End WithPrimitives.

(** A set order is one of the orders of the elements it is given. *)
Definition valid_order (set_order : list json -> list json) : Prop :=
  forall l, Permutation (set_order l) l.

(** Stands for [DeepDiff] on inputs where no setting id is on both sides
    of a pair, so that [DeepDiff] is not called. *)
Definition unused_diff (a b : json) : option string := None.

(** *** Shapes of snapshots *)

Definition is_dict (v : json) : bool :=
  match v with
  | JDict _ => true
  | _ => false
  end.

(** A setting entry: an object whose ["id"], when it is there and truthy,
    can be a dictionary key. *)
Definition entry_shaped (s : json) : bool :=
  match s with
  | JDict d =>
      match lookup "id" d with
      | Some id => negb (truthy id) || hashable id
      | None => true
      end
  | _ => false
  end.

(** A section: an object whose ["name"], when it is there, can be a
    dictionary key and whose ["settings"], when it is there, is a list of
    setting entries. *)
Definition section_shaped (item : json) : bool :=
  match item with
  | JDict d =>
      match lookup "name" d with
      | Some name => hashable name
      | None => true
      end
      && match lookup "settings" d with
         | Some (JList entries) => forallb entry_shaped entries
         | Some _ => false
         | None => true
         end
  | _ => false
  end.

Definition snapshot_shaped (snapshot : list json) : bool :=
  forallb section_shaped snapshot.

(** The dictionaries the comparator builds from shaped snapshots. *)
Definition sections_inv : pydict json -> Prop :=
  dict_inv (fun item => section_shaped item = true).

Definition settings_inv : pydict json -> Prop :=
  dict_inv (fun s => is_dict s = true).

(** An entry that is an object without an ["id"] key. *)
Definition lacks_id (s : json) : bool :=
  match s with
  | JDict d => match lookup "id" d with None => true | Some _ => false end
  | _ => false
  end.

(** An entry that is kept: anything but an object without an ["id"] key. *)
Definition has_id_key (s : json) : bool := negb (lacks_id s).

Definition strip_settings (kv : string * json) : string * json :=
  if String.eqb (fst kv) "settings" then
    match snd kv with
    | JList entries => (fst kv, JList (filter has_id_key entries))
    | _ => kv
    end
  else kv.

(** The section without the entries of its ["settings"] list that lack
    an ["id"]. *)
Definition without_unidentified (item : json) : json :=
  match item with
  | JDict d => JDict (map strip_settings d)
  | _ => item
  end.

(** Two results with the same records: the lists filled from dictionary
    iteration alone are equal, those filled inside a loop over a set hold
    the same records in some order. *)
Definition same_records (r1 r2 : schema_result) : Prop :=
  custom_sections r1 = custom_sections r2
  /\ theme_info_changes r1 = theme_info_changes r2
  /\ removals r1 = removals r2
  /\ dawn_removals r1 = dawn_removals r2
  /\ conflict_removals r1 = conflict_removals r2
  /\ Permutation (custom_additions r1) (custom_additions r2)
  /\ Permutation (modifications r1) (modifications r2)
  /\ Permutation (dawn_additions r1) (dawn_additions r2)
  /\ Permutation (dawn_modifications r1) (dawn_modifications r2)
  /\ Permutation (conflict_additions r1) (conflict_additions r2)
  /\ Permutation (conflict_modifications r1) (conflict_modifications r2).

(** The ["id"] of a setting record, the ["name"] of a section record. *)
Definition record_id (r : change_record) : json :=
  match r with
  | SectionRecord name _ _ => name
  | SettingRecord id _ _ _ _ _ _ => id
  end.

(** A section with the given name and one setting per id, for examples. *)
Definition section_of (name : string) (ids : list string) : json :=
  JDict [("name", JStr name);
         ("settings", JList (map (fun i => JDict [("id", JStr i)]) ids))].

(** *** analyze_locale and analyze_settings_data *)

(** The dictionaries these two functions append: an added key, a modified
    key (["old_value"], ["new_value"]) and a conflicting key
    (["our_value"], ["dawn_value"]). *)
Inductive key_record :=
| KeyAdded (key : string) (value : json) (comparison description : string)
| KeyModified (key : string) (old_value new_value : json)
              (comparison description : string)
| KeyConflict (key : string) (our_value dawn_value : json)
              (comparison description : string).

Definition record_key (r : key_record) : string :=
  match r with
  | KeyAdded k _ _ _ => k
  | KeyModified k _ _ _ _ => k
  | KeyConflict k _ _ _ _ => k
  end.

Record flat_result := mkFlatResult {
  flat_custom_additions : list key_record;
  flat_modifications : list key_record;
  flat_dawn_additions : list key_record;
  flat_dawn_modifications : list key_record;
  flat_conflict_additions : list key_record;
  flat_conflict_modifications : list key_record
}.

(** A flat document: the items of a JSON object. *)
Definition document := list (string * json).

(** [isinstance(value, (dict, list))] *)
Definition is_container (v : json) : bool :=
  match v with
  | JList _ | JDict _ => true
  | _ => false
  end.

(** The two lists one loop over [compare.items()] fills; [keep_added] and
    [keep_modified] are the inner conditions of comparison 1. *)
Definition compare_items
    (keep_added : string -> bool) (keep_modified : string -> json -> bool)
    (added_record : string -> json -> key_record)
    (modified_record : string -> json -> json -> key_record)
    (base compare : document) : list key_record * list key_record :=
  concat_pairs
    (map (fun kv : string * json =>
            let (key, value) := kv in
            match lookup key base with
            | None =>
                if keep_added key then ([added_record key value], [])
                else ([], [])
            | Some old =>
                if negb (py_eq old value) then
                  if keep_modified key value
                  then ([], [modified_record key old value])
                  else ([], [])
                else ([], [])
            end) compare).

(** [analyze_locale] *)
Definition analyze_locale (dawn_v10 current dawn_v15 : document) : flat_result :=
  let c1 := compare_items
              (fun key => startswith key "custom_") (fun _ _ => true)
              (fun key value =>
                 KeyAdded key value "v10_upstream_vs_v10_custom"
                   ("Custom translation key: " ++ key)%string)
              (fun key old value =>
                 KeyModified key old value "v10_upstream_vs_v10_custom"
                   ("Modified translation: " ++ key)%string)
              dawn_v10 current in
  let c2 := compare_items
              (fun _ => true) (fun _ _ => true)
              (fun key value =>
                 KeyAdded key value "v10_upstream_vs_v15_upstream"
                   ("Dawn 15.4.0 added translation key: " ++ key)%string)
              (fun key old value =>
                 KeyModified key old value "v10_upstream_vs_v15_upstream"
                   ("Dawn 15.4.0 modified translation: " ++ key)%string)
              dawn_v10 dawn_v15 in
  let c3 := compare_items
              (fun _ => true) (fun _ _ => true)
              (fun key value =>
                 KeyAdded key value "v10_custom_vs_v15_upstream"
                   ("Conflict: Dawn 15.4.0 has translation key " ++ key
                    ++ " that we don't have")%string)
              (fun key ours value =>
                 KeyConflict key ours value "v10_custom_vs_v15_upstream"
                   ("Conflict: Both we and Dawn 15.4.0 modified translation " ++ key)%string)
              current dawn_v15 in
  mkFlatResult (fst c1) (snd c1) (fst c2) (snd c2) (fst c3) (snd c3).

(** [analyze_settings_data] *)
Definition analyze_settings_data (dawn_v10 current dawn_v15 : document)
  : flat_result :=
  let c1 := compare_items
              (fun key => startswith key "custom_")
              (fun key value => startswith key "custom_" || is_container value)
              (fun key value =>
                 KeyAdded key value "v10_upstream_vs_v10_custom"
                   ("Custom setting value: " ++ key)%string)
              (fun key old value =>
                 KeyModified key old value "v10_upstream_vs_v10_custom"
                   ("Modified setting value: " ++ key)%string)
              dawn_v10 current in
  let c2 := compare_items
              (fun _ => true) (fun _ _ => true)
              (fun key value =>
                 KeyAdded key value "v10_upstream_vs_v15_upstream"
                   ("Dawn 15.4.0 added setting value: " ++ key)%string)
              (fun key old value =>
                 KeyModified key old value "v10_upstream_vs_v15_upstream"
                   ("Dawn 15.4.0 modified setting value: " ++ key)%string)
              dawn_v10 dawn_v15 in
  let c3 := compare_items
              (fun _ => true) (fun _ _ => true)
              (fun key value =>
                 KeyAdded key value "v10_custom_vs_v15_upstream"
                   ("Conflict: Dawn 15.4.0 has setting value " ++ key
                    ++ " that we don't have")%string)
              (fun key ours value =>
                 KeyConflict key ours value "v10_custom_vs_v15_upstream"
                   ("Conflict: Both we and Dawn 15.4.0 modified setting value " ++ key)%string)
              current dawn_v15 in
  mkFlatResult (fst c1) (snd c1) (fst c2) (snd c2) (fst c3) (snd c3).

(** The object [main] writes to the output file; its ["comparison_sets"]
    key holds three fixed texts. *)
Record analysis := mkAnalysis {
  settings_schema : schema_result;
  settings_data : flat_result;
  locale_en : flat_result;
  locale_en_schema : flat_result
}.

(** [main], from the twelve loaded documents to the combined result. *)
Definition main (DeepDiff : json -> json -> option string)
    (set_order : list json -> list json)
    (v10_settings current_settings v15_settings : list json)
    (v10_locale current_locale v15_locale : document)
    (v10_locale_schema current_locale_schema v15_locale_schema : document)
    (v10_settings_data current_settings_data v15_settings_data : document)
  : result analysis :=
  settings_analysis <- analyze_settings_schema DeepDiff set_order
                         v10_settings current_settings v15_settings ;;
  let settings_data_analysis :=
    analyze_settings_data v10_settings_data current_settings_data v15_settings_data in
  let locale_analysis := analyze_locale v10_locale current_locale v15_locale in
  let locale_schema_analysis :=
    analyze_locale v10_locale_schema current_locale_schema v15_locale_schema in
  Ok (mkAnalysis settings_analysis settings_data_analysis locale_analysis
        locale_schema_analysis).

(** Whether a list of records has one for [key]. *)
Definition reports (l : list key_record) (key : string) : Prop :=
  exists r, In r l /\ record_key r = key.

(** [key in d] for a flat document. *)
Definition has_key (d : document) (key : string) : Prop :=
  exists v, lookup key d = Some v.

(** The rule of the [custom_] prefix for a comparator of flat documents:
    in the first pair a new key is reported exactly when it has the
    prefix, and a new key without it is in neither list of that pair; in
    the other two pairs every new key is reported. *)
Definition custom_prefix_rule
    (analyze : document -> document -> document -> flat_result) : Prop :=
  forall (dawn_v10 current dawn_v15 : document) (key : string),
    let r := analyze dawn_v10 current dawn_v15 in
    (reports (flat_custom_additions r) key
     <-> has_key current key /\ ~ has_key dawn_v10 key
         /\ startswith key "custom_" = true)
    /\ (has_key current key -> ~ has_key dawn_v10 key ->
        startswith key "custom_" = false ->
        ~ reports (flat_custom_additions r) key
        /\ ~ reports (flat_modifications r) key)
    /\ (reports (flat_dawn_additions r) key
        <-> has_key dawn_v15 key /\ ~ has_key dawn_v10 key)
    /\ (reports (flat_conflict_additions r) key
        <-> has_key dawn_v15 key /\ ~ has_key current key).

End AnalyzeAllJsonDiffs.

(** ** Reading the results of the comparator *)

Module Reading.
Import PyStr Py AnalyzeAllJsonDiffs.

(** The ["comparison"] key of a record. *)
Definition change_comparison (r : change_record) : string :=
  match r with
  | SectionRecord _ comparison _ => comparison
  | SettingRecord _ _ comparison _ _ _ _ => comparison
  end.

Definition key_comparison (r : key_record) : string :=
  match r with
  | KeyAdded _ _ comparison _ => comparison
  | KeyModified _ _ _ comparison _ => comparison
  | KeyConflict _ _ _ comparison _ => comparison
  end.

(** Every record of a list has the given ["comparison"]. *)
Definition all_labelled {R : Type} (label_of : R -> string) (label : string)
    (l : list R) : Prop :=
  Forall (fun r => label_of r = label) l.

(** Every record of the result for the settings schema has the label of the
    pair whose list holds it. *)
Definition schema_labelled (r : schema_result) : Prop :=
  all_labelled change_comparison "v10_upstream_vs_v10_custom"
    (custom_additions r ++ modifications r ++ removals r ++ custom_sections r)
  /\ all_labelled change_comparison "v10_upstream_vs_v15_upstream"
       (dawn_additions r ++ dawn_modifications r ++ dawn_removals r)
  /\ all_labelled change_comparison "v10_custom_vs_v15_upstream"
       (conflict_additions r ++ conflict_modifications r ++ conflict_removals r)
  /\ Forall (fun kv : string * theme_change =>
               (fst kv = "v10_custom"
                /\ tc_comparison (snd kv) = "v10_upstream_vs_v10_custom")
               \/ (fst kv = "v15_upstream"
                   /\ tc_comparison (snd kv) = "v10_upstream_vs_v15_upstream"))
            (theme_info_changes r).

Definition flat_labelled (r : flat_result) : Prop :=
  all_labelled key_comparison "v10_upstream_vs_v10_custom"
    (flat_custom_additions r ++ flat_modifications r)
  /\ all_labelled key_comparison "v10_upstream_vs_v15_upstream"
       (flat_dawn_additions r ++ flat_dawn_modifications r)
  /\ all_labelled key_comparison "v10_custom_vs_v15_upstream"
       (flat_conflict_additions r ++ flat_conflict_modifications r).




(** The loop of a pair reports [key] as modified: the compared document has
    the item [(key, new)], the base has [key] with a value that differs. *)
Definition changed_in (base compare : document) (key : string) (new : json) : Prop :=
  exists old,
    lookup key base = Some old /\ In (key, new) compare /\ py_eq old new = false.

End Reading.

(** ** parse_diff_patch and extract_integration_points (categorize-changes.py) *)

Module DiffPatch.
Import PyStr.

(** One entry of a list of changes; its ["type"] is always ["addition"]. *)
Record change := mkChange {
  change_line : Z;
  change_content : string
}.

(** [s[:n]] *)
Fixpoint take (n : nat) (s : string) : string :=
  match n, s with
  | S n', String c s' => String c (take n' s')
  | _, _ => EmptyString
  end.

(** **** The regular expression of the file header, line 60 *)

(** The text up to the first newline, and the text from that newline on. *)
Fixpoint until_newline (s : string) : string * string :=
  match s with
  | EmptyString => (EmptyString, EmptyString)
  | String c s' =>
      if Ascii.eqb c newline then (EmptyString, s)
      else let (body, rest) := until_newline s' in (String c body, rest)
  end.

(** [(.+?)$] at the head of [r]: the characters up to the end of the
    line, at least one, when the line ends the string or is followed by
    its final newline only. *)
Definition ends_line (r : string) : option string :=
  let (body, rest) := until_newline r in
  match body with
  | EmptyString => None
  | _ =>
      if String.eqb rest EmptyString
         || String.eqb rest (String newline EmptyString)
      then Some body else None
  end.

(** The lazy first group has taken one character or more; [s] is what
    follows.  The group grows until [ b/(.+?)$] matches; it cannot take a
    newline. *)
Fixpoint header_target (s : string) : option string :=
  let here :=
    if String.prefix " b/" s then ends_line (drop 3 s) else None in
  match here with
  | Some target => Some target
  | None =>
      match s with
      | EmptyString => None
      | String c s' => if Ascii.eqb c newline then None else header_target s'
      end
  end.

(** Group 2 of [re.search(r'^diff --git a/(.+?) b/(.+?)$', line)], [None]
    without a match. *)
Definition diff_header (line : string) : option string :=
  if String.prefix "diff --git a/" line then
    match drop 13 line with
    | EmptyString => None
    | String c s => if Ascii.eqb c newline then None else header_target s
    end
  else None.

(** **** The regular expression of the hunk header, line 72 *)

(** [\d] on a code point below 256. *)
Definition is_digit (c : ascii) : bool :=
  let n := nat_of_ascii c in ((48 <=? n) && (n <=? 57))%nat.

(** The longest run of digits at the head of [s], and what follows it. *)
Fixpoint span_digits (s : string) : string * string :=
  match s with
  | EmptyString => (EmptyString, EmptyString)
  | String c s' =>
      if is_digit c
      then let (digits, rest) := span_digits s' in (String c digits, rest)
      else (EmptyString, s)
  end.

(** [(?:,(\d+))?] at the head of [s]: what follows it. *)
Definition skip_count (s : string) : string :=
  match s with
  | String c s' =>
      if Ascii.eqb c ","%char then
        match span_digits s' with
        | (EmptyString, _) => s
        | (_, rest) => rest
        end
      else s
  | EmptyString => s
  end.

(** The expression matched at the head of [s]: its group 3. *)
Definition hunk_at (s : string) : option string :=
  if String.prefix "@@ -" s then
    match span_digits (drop 4 s) with
    | (EmptyString, _) => None
    | (_, r1) =>
        let r2 := skip_count r1 in
        if String.prefix " +" r2 then
          match span_digits (drop 2 r2) with
          | (EmptyString, _) => None
          | (new_start, r3) =>
              if String.prefix " @@" (skip_count r3) then Some new_start else None
          end
        else None
    end
  else None.

(** Group 3 of [re.search(r'@@ -(\d+)(?:,(\d+))? \+(\d+)(?:,(\d+))? @@',
    line)]: the leftmost match. *)
Fixpoint hunk_start (s : string) : option string :=
  match hunk_at s with
  | Some new_start => Some new_start
  | None =>
      match s with
      | EmptyString => None
      | String _ s' => hunk_start s'
      end
  end.

(** The value of a run of decimal digits. *)
Fixpoint decimal (acc : Z) (digits : string) : Z :=
  match digits with
  | EmptyString => acc
  | String c digits' =>
      decimal (10 * acc + Z.of_nat (nat_of_ascii c - 48)) digits'
  end.

(** [int(digits)] on a run of digits: the interpreter refuses, with a
    [ValueError], a run longer than its limit of 4300 digits; [None]
    stands for that error. *)
Definition py_int (digits : string) : option Z :=
  if (String.length digits <=? 4300)%nat then Some (decimal 0 digits) else None.

(** **** The loop of parse_diff_patch *)

(** The variables of the loop.  A list of changes is an object that
    [result] and [current_changes] can both refer to, so the lists live in
    [lists], in the order of their creation, and are referred to by their
    position there. *)
Record state := mkState {
  result : list (string * nat);
  lists : list (list change);
  current_file : option string;
  current_changes : nat;
  line_num : option Z
}.

(** Before the loop: [result = {}], [current_file = None],
    [current_changes = []], [line_num = None]. *)
Definition initial : state := mkState [] [[]] None 0 None.

(** [if current_file: result[current_file] = current_changes] *)
Definition store (st : state) : list (string * nat) :=
  match current_file st with
  | Some (String c f) =>
      CategorizeChanges.dict_set (result st) (String c f) (current_changes st)
  | _ => result st
  end.

(** [current_changes.append(x)], on the list at position [n]. *)
Fixpoint append_at (n : nat) (x : change) (ls : list (list change))
  : list (list change) :=
  match ls, n with
  | [], _ => []
  | l :: ls', O => (l ++ [x]) :: ls'
  | l :: ls', S n' => l :: append_at n' x ls'
  end.

Definition nonempty (s : string) : bool :=
  match s with EmptyString => false | _ => true end.

(** The body of the loop, lines 55-91. *)
Definition step (st : state) (line : string) : option state :=
  if startswith line "diff --git" then
    match diff_header line with
    | Some target =>
        Some (mkState (store st) (lists st ++ [[]]) (Some target)
                      (length (lists st)) (line_num st))
    | None =>
        Some (mkState (store st) (lists st) (current_file st)
                      (current_changes st) (line_num st))
    end
  else if startswith line "+++ b/" then
    let file := strip (slice_from 6 line) in
    Some (mkState (result st) (lists st ++ [[]])
                  (if String.eqb file "/dev/null" then None else Some file)
                  (length (lists st)) (line_num st))
  else if startswith line "@@" then
    match hunk_start line with
    | Some new_start =>
        match py_int new_start with
        | Some n =>
            Some (mkState (result st) (lists st) (current_file st)
                          (current_changes st) (Some n))
        | None => None
        end
    | None => Some st
    end
  else
    match current_file st, line_num st with
    | Some (String _ _), Some n =>
        if startswith line "+" && negb (startswith line "+++") then
          let content := rstrip (slice_from 1 line) in
          if nonempty content && negb (startswith content "---") then
            Some (mkState (result st)
                          (append_at (current_changes st)
                                     (mkChange n (take 200 content)) (lists st))
                          (current_file st) (current_changes st)
                          (Some (n + 1)%Z))
          else Some st
        else if startswith line "-" && negb (startswith line "---") then Some st
        else if startswith line " " then
          Some (mkState (result st) (lists st) (current_file st)
                        (current_changes st) (Some (n + 1)%Z))
        else Some st
    | _, _ => Some st
    end.

Fixpoint run (st : state) (f : list string) : option state :=
  match f with
  | [] => Some st
  | line :: f' =>
      match step st line with
      | Some st' => run st' f'
      | None => None
      end
  end.

(** [parse_diff_patch]; [f] is the sequence of lines of the patch file.
    The dictionary it returns, with every list read at the end. *)
Definition parse_diff_patch (f : list string)
  : option (list (string * list change)) :=
  match run initial f with
  | Some st =>
      Some (map (fun kv => (fst kv, nth (snd kv) (lists st) [])) (store st))
  | None => None
  end.

(** *** extract_integration_points *)

(** A character as the three patterns compare it under [re.IGNORECASE]. *)
Definition lower (c : ascii) : ascii :=
  let n := nat_of_ascii c in
  if ((65 <=? n) && (n <=? 90))%nat then ascii_of_nat (n + 32) else c.

(** The literal [lit] at the head of [s], ignoring case. *)
Fixpoint iprefix (lit s : string) : bool :=
  match lit, s with
  | EmptyString, _ => true
  | String a lit', String c s' => Ascii.eqb (lower c) (lower a) && iprefix lit' s'
  | String _ _, EmptyString => false
  end.

(** [.*lit] at the head of [s], ignoring case. *)
Fixpoint idot_star_then (lit s : string) : bool :=
  iprefix lit s
  || match s with
     | EmptyString => false
     | String c s' => if Ascii.eqb c newline then false else idot_star_then lit s'
     end.

Definition is_quote (c : ascii) : bool :=
  Ascii.eqb c (ascii_of_nat 39) || Ascii.eqb c (ascii_of_nat 34).

(** The first pattern at the head of [s]: [render], white space, a single
    or double quote, [custom-]. *)
Definition render_at (s : string) : bool :=
  iprefix "render" s
  && match drop 6 s with
     | String c r =>
         isspace c
         && match lstrip r with
            | String q t => is_quote q && iprefix "custom-" t
            | EmptyString => false
            end
     | EmptyString => false
     end.

(** [custom-.*\.js] at the head of [s]. *)
Definition js_at (s : string) : bool :=
  iprefix "custom-" s && idot_star_then ".js" (drop 7 s).

(** [component-custom-.*\.css] at the head of [s]. *)
Definition css_at (s : string) : bool :=
  iprefix "component-custom-" s && idot_star_then ".css" (drop 17 s).

(** [re.search] with a pattern that is tried at every position. *)
Fixpoint search (at_head : string -> bool) (s : string) : bool :=
  at_head s
  || match s with
     | EmptyString => false
     | String _ s' => search at_head s'
     end.

Definition integration_patterns : list ((string -> bool) * string) :=
  [(render_at, "Custom snippet render");
   (js_at, "Custom JavaScript reference");
   (css_at, "Custom CSS reference")].

(** The description of the first pattern found in [content]. *)
Fixpoint first_description (patterns : list ((string -> bool) * string))
    (content : string) : option string :=
  match patterns with
  | [] => None
  | (pattern, description) :: patterns' =>
      if search pattern content then Some description
      else first_description patterns' content
  end.

(** The string [f"Line {line}: {description}"], as its two values. *)
Record integration_point := mkPoint {
  point_line : Z;
  point_description : string
}.

Definition extract_integration_points (filepath : string) (changes : list change)
  : list integration_point :=
  flat_map
    (fun ch =>
       match first_description integration_patterns (change_content ch) with
       | Some description => [mkPoint (change_line ch) description]
       | None => []
       end)
    changes.

(** *** Added lines

    The line of a patch that adds [content]. *)
Definition added_line (content : string) : string :=
  String "+" (content ++ String newline EmptyString).

(** What [parse_diff_patch] keeps of an added line. *)
Definition kept (content : string) : option string :=
  let c := rstrip (content ++ String newline EmptyString) in
  if nonempty c && negb (startswith c "---") then Some (take 200 c) else None.

(** The kept contents, numbered from [n] on. *)
Fixpoint numbered (n : Z) (contents : list string) : list change :=
  match contents with
  | [] => []
  | content :: contents' =>
      match kept content with
      | Some c => mkChange n c :: numbered (n + 1) contents'
      | None => numbered n contents'
      end
  end.

(** The lines on which [parse_diff_patch] raises: they reach the branch of
    the hunk header with a line number of more than 4300 digits. *)
Definition overlong_hunk (line : string) : bool :=
  negb (startswith line "diff --git")
  && negb (startswith line "+++ b/")
  && startswith line "@@"
  && match hunk_start line with
     | Some new_start => negb (String.length new_start <=? 4300)%nat
     | None => false
     end.

(** What every recorded change is: the content of a line of the patch
    that starts with one or two [+], without the [+] and the trailing
    white space, cut at 200 characters. *)
Definition recorded (f : list string) (ch : change) : Prop :=
  change_content ch <> EmptyString
  /\ String.length (change_content ch) <= 200
  /\ startswith (change_content ch) "---" = false
  /\ (0 <= change_line ch)%Z
  /\ exists line,
       In line f
       /\ startswith line "+" = true
       /\ startswith line "+++" = false
       /\ change_content ch = take 200 (rstrip (drop 1 line)).

(** What the loop keeps true of its variables. *)
Definition state_ok (f : list string) (st : state) : Prop :=
  (forall l ch, In l (lists st) -> In ch l -> recorded f ch)
  /\ NoDup (map fst (result st))
  /\ (forall k, In k (map fst (result st)) -> k <> EmptyString)
  /\ (forall n, line_num st = Some n -> (0 <= n)%Z).

End DiffPatch.

(** ** analyze-json-diff.py *)

Module AnalyzeJsonDiff.
Import PyStr Py PyNotations AnalyzeAllJsonDiffs.

(** The two-way script builds the same kinds of dictionaries as
    analyze-all-json-diffs.py, without the ["comparison"] key. *)
Inductive change_record :=
| SectionRecord (name : json) (description : fstring)
| SettingRecord (id section type label : json) (changes : option string)
                (description : fstring).

(** [theme_info_changes] maps ["theme_version"] to its ["old"] and ["new"]
    value. *)
Record schema_result := mkSchemaResult {
  custom_additions : list change_record;
  modifications : list change_record;
  removals : list change_record;
  theme_info_changes : list (string * (json * json));
  custom_sections : list change_record
}.

Section WithPrimitives.
(** [DeepDiff] and the iteration order of a [set], as in
    analyze-all-json-diffs.py. *)
Variable DeepDiff : json -> json -> option string.
Variable set_order : list json -> list json.

(** Lines 72-80: the settings of a section that only the current
    snapshot has. *)
Definition custom_section_settings (section_name section : json)
  : result (list change_record) :=
  entries <- settings_of section ;;
  rs <- mapM (fun setting =>
          id <- py_get setting "id" JNull ;;
          if truthy id then
            ty <- py_get setting "type" JNull ;;
            label <- py_get setting "label" (JStr EmptyString) ;;
            shown <- py_get setting "label" id ;;
            Ok [SettingRecord id section_name ty label None
                  [Lit "Custom setting in "; Val section_name; Lit ": "; Val shown]]
          else Ok []) entries ;;
  Ok (concat rs).

(** Lines 65-80: custom sections and their settings. *)
Definition custom_sections_loop (dawn_sections_map current_sections_map : pydict json)
  : result (list change_record * list change_record) :=
  rs <- mapM (fun kv : json * json =>
          let (section_name, section) := kv in
          if negb (dict_mem section_name dawn_sections_map) then
            adds <- custom_section_settings section_name section ;;
            Ok ([SectionRecord section_name
                   [Lit "Custom section: "; Val section_name]], adds)
          else Ok ([], [])) current_sections_map ;;
  Ok (concat_pairs rs).

(** Lines 95-114: the settings one side has and the other lacks;
    [prefix] opens the description. *)
Definition settings_only_in (prefix : string) (section_name : json)
    (other_map this_map : pydict json) : result (list change_record) :=
  rs <- mapM (fun kv : json * json =>
          let (setting_id, setting) := kv in
          if negb (dict_mem setting_id other_map) then
            ty <- py_get setting "type" JNull ;;
            label <- py_get setting "label" (JStr EmptyString) ;;
            shown <- py_get setting "label" setting_id ;;
            Ok [SettingRecord setting_id section_name ty label None
                  [Lit prefix; Val section_name; Lit ": "; Val shown]]
          else Ok []) this_map ;;
  Ok (concat rs).

(** Lines 117-131: settings of both sides with a difference. *)
Definition modified_settings (section_name : json)
    (dawn_settings_map current_settings_map : pydict json)
  : result (list change_record) :=
  rs <- mapM (fun setting_id =>
          dawn_setting <- dict_index dawn_settings_map setting_id ;;
          current_setting <- dict_index current_settings_map setting_id ;;
          match DeepDiff dawn_setting current_setting with
          | Some text =>
              ty <- py_get current_setting "type" JNull ;;
              label <- py_get current_setting "label" (JStr EmptyString) ;;
              shown <- py_get current_setting "label" setting_id ;;
              Ok [SettingRecord setting_id section_name ty label (Some text)
                    [Lit "Modified Dawn setting in "; Val section_name;
                     Lit ": "; Val shown]]
          | None => Ok []
          end) (keys_and set_order dawn_settings_map current_settings_map) ;;
  Ok (concat rs).

(** The body of the loop of lines 83-131, for one section of both
    snapshots: its additions, removals and modifications. *)
Definition common_section (dawn_sections_map current_sections_map : pydict json)
    (section_name : json)
  : result (list change_record * list change_record * list change_record) :=
  dawn_section <- dict_index dawn_sections_map section_name ;;
  current_section <- dict_index current_sections_map section_name ;;
  dawn_section_settings <- py_get dawn_section "settings" (JList []) ;;
  current_section_settings <- py_get current_section "settings" (JList []) ;;
  dawn_entries <- py_iter dawn_section_settings ;;
  dawn_settings_map <- settings_by_id dawn_entries [] ;;
  current_entries <- py_iter current_section_settings ;;
  current_settings_map <- settings_by_id current_entries [] ;;
  adds <- settings_only_in "Custom setting in " section_name
            dawn_settings_map current_settings_map ;;
  rems <- settings_only_in "Removed Dawn setting from " section_name
            current_settings_map dawn_settings_map ;;
  mods <- modified_settings section_name dawn_settings_map current_settings_map ;;
  Ok (adds, rems, mods).

(** [analyze_settings_schema] *)
Definition analyze_settings_schema (dawn_settings current_settings : list json)
  : result schema_result :=
  dawn_theme_info <- find_theme_info dawn_settings ;;
  current_theme_info <- find_theme_info current_settings ;;
  dawn_version <- theme_version dawn_theme_info ;;
  current_version <- theme_version current_theme_info ;;
  let theme_changes :=
    if negb (py_eq dawn_version current_version)
    then [("theme_version", (dawn_version, current_version))]
    else [] in
  dawn_sections_map <- sections_by_name dawn_settings [] ;;
  current_sections_map <- sections_by_name current_settings [] ;;
  new <- custom_sections_loop dawn_sections_map current_sections_map ;;
  common <- mapM (common_section dawn_sections_map current_sections_map)
                 (keys_and set_order dawn_sections_map current_sections_map) ;;
  Ok (mkSchemaResult
        (snd new ++ concat (map (fun r => fst (fst r)) common))
        (concat (map snd common))
        (concat (map (fun r => snd (fst r)) common))
        theme_changes
        (fst new)).
End WithPrimitives.

(** *** analyze_locale *)

Inductive key_record :=
| KeyAdded (key : string) (value : json) (description : string)
| KeyModified (key : string) (old_value new_value : json) (description : string).

Record locale_result := mkLocaleResult {
  locale_custom_additions : list key_record;
  locale_modifications : list key_record
}.

(** [d[key]] on a flat document. *)
Definition index (d : document) (key : string) : result json :=
  match lookup key d with
  | Some v => Ok v
  | None => Raise KeyError
  end.

Definition mem (key : string) (d : document) : bool :=
  match lookup key d with Some _ => true | None => false end.

(** [analyze_locale]; [key_order] is the iteration order of the set
    [dawn_locale.keys() & current_locale.keys()]. *)
Definition analyze_locale (key_order : list string -> list string)
    (dawn_locale current_locale : document)
  : result locale_result :=
  let additions :=
    concat (map (fun kv : string * json =>
                   let (key, value) := kv in
                   if negb (mem key dawn_locale) then
                     if startswith key "custom_"
                     then [KeyAdded key value ("Custom translation key: " ++ key)%string]
                     else []
                   else []) current_locale) in
  mods <- mapM (fun key =>
            old <- index dawn_locale key ;;
            new <- index current_locale key ;;
            if negb (py_eq old new)
            then Ok [KeyModified key old new ("Modified translation: " ++ key)%string]
            else Ok [])
          (key_order (filter (fun key => mem key current_locale)
                             (map fst dawn_locale))) ;;
  Ok (mkLocaleResult additions (concat mods)).

(** *** The records of the three-way script *)

(** The record analyze-all-json-diffs.py builds for the same finding: the
    same keys and the ["comparison"] key. *)
Definition with_comparison (comparison : string) (r : change_record)
  : AnalyzeAllJsonDiffs.change_record :=
  match r with
  | SectionRecord name description =>
      AnalyzeAllJsonDiffs.SectionRecord name comparison description
  | SettingRecord id section type label changes description =>
      AnalyzeAllJsonDiffs.SettingRecord id section comparison type label changes
        description
  end.

Definition key_with_comparison (comparison : string) (r : key_record)
  : AnalyzeAllJsonDiffs.key_record :=
  match r with
  | KeyAdded key value description =>
      AnalyzeAllJsonDiffs.KeyAdded key value comparison description
  | KeyModified key old_value new_value description =>
      AnalyzeAllJsonDiffs.KeyModified key old_value new_value comparison description
  end.

(** The keys of a dictionary are pairwise different: no key equals a key
    stored before it. *)
Fixpoint dict_unique {V : Type} (d : pydict V) : Prop :=
  match d with
  | [] => True
  | (k, _) :: d' =>
      py_eq k k = true
      /\ (forall k', In k' (dict_keys d') -> py_eq k k' = false)
      /\ dict_unique d'
  end.

(** The computation [c] with [g] applied to what it returns. *)
Definition fmap {A B : Type} (g : A -> B) (c : result A) : result B :=
  match c with
  | Ok a => Ok (g a)
  | Raise e => Raise e
  end.

End AnalyzeJsonDiff.

(** ** extract-dawn-files.py *)

Module ExtractDawnFiles.
Import PyStr Py PyNotations VersionConfig.

(** [s.replace(old, new)] for one-character [old] and [new]. *)
Fixpoint replace_char (old new : ascii) (s : string) : string :=
  match s with
  | EmptyString => EmptyString
  | String c s' =>
      String (if Ascii.eqb c old then new else c) (replace_char old new s')
  end.

(** [filepath.replace('/', '-').replace('\\', '-')] *)
Definition safe_filename (filepath : string) : string :=
  replace_char "\"%char "-"%char (replace_char "/"%char "-"%char filepath).

(** [v[key]] for a string [key]. *)
Definition subscript (v : json) (key : string) : result json :=
  match v with
  | JDict d =>
      match lookup key d with
      | Some x => Ok x
      | None => Raise KeyError
      end
  | _ => Raise TypeError
  end.

Definition files_to_extract : list string :=
  ["config/settings_schema.json"; "config/settings_data.json";
   "locales/en.default.json"; "locales/en.default.schema.json"].

(** A file the script writes below the output base. *)
Record written := mkWritten {
  directory : string;
  filename : string;
  content : string
}.

Section WithEnvironment.
Variable json_loads : string -> option json.
(** [git show ref:path]: the standard output of the command when it ends
    with status 0, [None] when it ends with another status or cannot be
    run.  The reference is the value the configuration holds. *)
Variable git_show : json -> string -> option string.

(** [extract_file_from_git]: the text it writes to the output file, [None]
    when it writes nothing and returns [False]. *)
Definition extract_file_from_git (git_ref : json) (filepath : string)
  : option string :=
  match git_show git_ref filepath with
  | Some stdout =>
      match strip stdout with
      | EmptyString => None
      | _ => Some stdout
      end
  | None => None
  end.

(** One of the two loops of [main], lines 77-93. *)
Definition extract_all (directory : string) (git_ref : json) : list written :=
  flat_map
    (fun filepath =>
       match extract_file_from_git git_ref filepath with
       | Some text => [mkWritten directory (safe_filename filepath) text]
       | None => []
       end)
    files_to_extract.

(** Lines 55-56. *)
Definition dawn_versions (info : version_info) : result (json * json) :=
  comparison_ver <- subscript (vi_comparison info) "dawn_base" ;;
  destination_ver <- subscript (vi_destination info) "dawn_base" ;;
  Ok (comparison_ver, destination_ver).

(** [main]: the value it returns, the files it writes and the count it
    prints as [extracted]. *)
Definition main (config_file : option string) : result (Z * list written * nat) :=
  match (refs <- get_git_refs json_loads config_file ;;
         info <- get_version_info json_loads config_file ;;
         Ok (refs, info)) with
  | Raise FileNotFoundError => Ok (1%Z, [], 0)
  | Raise e => Raise e
  | Ok (refs, info) =>
      _ <- dawn_versions info ;;
      let files :=
        extract_all "dawn-comparison" (comparison refs)
        ++ extract_all "dawn-destination" (destination refs) in
      Ok (0%Z, files, length files)
  end.

(** What [main] does after the configuration is loaded, as far as the
    exit status goes. *)
Definition work (refs : git_refs) (info : version_info) : result unit :=
  _ <- dawn_versions info ;; Ok tt.

(** Lines 99-100: [exit(main())]. *)
Definition exit_status (config_file : option string) : Z :=
  Scripts.status_of_exit_call
    match main config_file with
    | Ok (status, _, _) => Ok status
    | Raise e => Raise e
    end.
End WithEnvironment.




End ExtractDawnFiles.

(** ** generate-file-patches.py *)

Module GenerateFilePatches.
Import PyStr Py PyNotations VersionConfig.

Section WithGit.
(** [git diff base..compare -- filepath]: the standard output of the
    command when it ends with status 0, [None] when it ends with another
    status or cannot be run. *)
Variable git_diff : json -> json -> string -> option string.

(** [generate_patch_for_file]: the text it writes to the output file,
    [None] when it writes nothing and returns [False]. *)
Definition generate_patch_for_file (filepath : string) (base_ref compare_ref : json)
  : option string :=
  match git_diff base_ref compare_ref filepath with
  | Some stdout =>
      match strip stdout with
      | EmptyString => None
      | _ => Some stdout
      end
  | None => None
  end.

(** The name of the patch file below the output directory. *)
Definition patch_file (filepath : string) : string :=
  (ExtractDawnFiles.safe_filename filepath ++ ".patch")%string.

(** One of the two loops of [main] (lines 93-102 and 105-114): the files
    it writes, in order.  [modified_files] holds the keys of the
    dictionary of modified files. *)
Definition patch_loop (base_ref compare_ref : json) (modified_files : list string)
    (files : list string) : list (string * string) :=
  flat_map
    (fun filepath =>
       if existsb (String.eqb filepath) modified_files then
         match generate_patch_for_file filepath base_ref compare_ref with
         | Some text => [(patch_file filepath, text)]
         | None => []
         end
       else [])
    files.

(** Writing a file replaces the file of that name. *)
Definition write_all (directory : list (string * string))
    (writes : list (string * string)) : list (string * string) :=
  fold_left (fun d w => CategorizeChanges.dict_set d (fst w) (snd w)) writes directory.

Record outcome := mkOutcome {
  generated_revert : nat;
  generated_patch : nat;
  output_dir : list (string * string)
}.

(** [main] after the configuration and the inventory are loaded.  The
    inventory is taken as categorize-changes.py writes it: two lists of
    paths and a dictionary of modified files; [existing] holds the files
    of the output directory before the run. *)
Definition generate (refs : git_refs)
    (files_to_revert files_to_patch modified_files : list string)
    (existing : list (string * string)) : outcome :=
  let reverts :=
    patch_loop (current refs) (destination refs) modified_files files_to_revert in
  let patches :=
    patch_loop (comparison refs) (current refs) modified_files files_to_patch in
  mkOutcome (length reverts) (length patches)
            (write_all existing (reverts ++ patches)).
End WithGit.

End GenerateFilePatches.

(** ** get_version_value (version_config.py) *)

Module VersionValue.
Import PyStr Py PyNotations VersionConfig.

(** [key.split('.')] *)
Fixpoint split_dot (s : string) : list string :=
  match s with
  | EmptyString => [EmptyString]
  | String c s' =>
      if Ascii.eqb c "."%char then EmptyString :: split_dot s'
      else match split_dot s' with
           | part :: parts => String c part :: parts
           | [] => [String c EmptyString]
           end
  end.

(** [field in v] *)
Definition contains (v : json) (field : string) : result bool :=
  match v with
  | JDict d => Ok match lookup field d with Some _ => true | None => false end
  | JList l => Ok (existsb (fun x => py_eq x (JStr field)) l)
  | JStr s => Ok (negb (find s field =? -1)%Z)
  | _ => Raise TypeError
  end.

(** What a call of [get_version_value] comes to: it returns [str(v)],
    raises its [ValueError], or raises something else. *)
Inductive outcome :=
| Found (v : json)
| UnknownKey
| Raised (e : exn).

Definition no_dot (s : string) : bool :=
  forallb (fun c => negb (Ascii.eqb c "."%char)) (list_ascii_of_string s).

Section WithParser.
Variable json_loads : string -> option json.

(** [version_info[section]] for one of the three sections. *)
Definition section_of (info : version_info) (section : string) : json :=
  if String.eqb section "comparison" then vi_comparison info
  else if String.eqb section "destination" then vi_destination info
  else vi_current info.

(** [get_version_value].  The configuration is loaded twice, as in the
    source; the test [section in version_info] is left out, because
    [version_info] has the three sections as its keys. *)
Definition get_version_value (key : string) (config_file : option string)
  : outcome :=
  match load_version_config json_loads config_file with
  | Raise e => Raised e
  | Ok config =>
      match split_dot key with
      | [section; field] =>
          if existsb (String.eqb section) ["comparison"; "destination"; "current"]
          then
            match get_version_info json_loads config_file with
            | Raise e => Raised e
            | Ok version_info =>
                let version := section_of version_info section in
                match contains version field with
                | Raise e => Raised e
                | Ok true =>
                    match ExtractDawnFiles.subscript version field with
                    | Ok v => Found v
                    | Raise e => Raised e
                    end
                | Ok false => UnknownKey
                end
            end
          else UnknownKey
      | _ => UnknownKey
      end
  end.

(** Lines 86-94: the exit status of [python version_config.py key]. *)
Definition exit_status (key : string) (config_file : option string) : Z :=
  match get_version_value key config_file with
  | Found _ => 0%Z
  | _ => 1%Z
  end.
End WithParser.

End VersionValue.

(** ** format_removed_files (generate-diff-documentation.py) *)

Module DiffDocumentation.
Import PyStr Py PyNotations.

(** A line of the section.  The lines of the list items are f-strings:
    [f"{idx}. `{path}`"] for a file to restore and
    [f"{idx}. `{path}` - {description}"] for the others; they are kept as
    the values they interpolate. *)
Inductive doc_line :=
| Line (text : string)
| Listed (idx : nat) (path : json) (description : option json).

(** [[f for f in files if f.get(key)]], and with [not f.get(key)] when
    [keep] is [false]. *)
Definition select (key : string) (keep : bool) (files : list json)
  : result (list json) :=
  rs <- mapM (fun f =>
          flag <- py_get f key JNull ;;
          Ok (if Bool.eqb (truthy flag) keep then [f] else [])) files ;;
  Ok (concat rs).

(** The loop [for idx, file_info in enumerate(files, 1)], from [idx] on. *)
Fixpoint listed (idx : nat) (with_description : bool) (files : list json)
  : result (list doc_line) :=
  match files with
  | [] => Ok []
  | file_info :: rest =>
      path <- ExtractDawnFiles.subscript file_info "path" ;;
      description <-
        (if with_description
         then d <- py_get file_info "description" (JStr EmptyString) ;; Ok (Some d)
         else Ok None) ;;
      tail <- listed (S idx) with_description rest ;;
      Ok (Listed idx path description :: tail)
  end.

Definition heading (text : string) : doc_line :=
  Line (text ++ String newline EmptyString).

(** [format_removed_files]: the lines it joins with newlines. *)
Definition format_removed_files (inventory : json) : result (list doc_line) :=
  removed <- py_get inventory "removed_dawn_files" (JList []) ;;
  let head :=
    [heading "## Removed Dawn Files";
     heading "Dawn 10.0.0 files that were removed. Categorized by action needed."] in
  if truthy removed then
    files <- py_iter removed ;;
    to_restore <- select "should_restore" true files ;;
    to_accept_dawn <- select "accept_dawn_15_4" true files ;;
    restore_lines <-
      match to_restore with
      | [] => Ok []
      | _ =>
          items <- listed 1 false to_restore ;;
          Ok ([Line "### Files to Restore (moved to separate section below)"]
              ++ items ++ [Line EmptyString])
      end ;;
    accept_lines <-
      match to_accept_dawn with
      | [] => Ok []
      | _ =>
          to_patch <- select "has_customizations" true to_accept_dawn ;;
          to_accept_clean <- select "has_customizations" false to_accept_dawn ;;
          patch_lines <-
            match to_patch with
            | [] => Ok []
            | _ =>
                items <- listed 1 true to_patch ;;
                Ok ([Line "### Files to Patch with Customizations";
                     Line "These dev/config files had customizations before deletion.";
                     heading "Accept Dawn 15.4.0 version and patch in customizations from diff."]
                    ++ items ++ [Line EmptyString])
            end ;;
          clean_lines <-
            match to_accept_clean with
            | [] => Ok []
            | _ =>
                items <- listed 1 true to_accept_clean ;;
                Ok ([Line "### Files to Accept from Dawn 15.4.0 (no customizations)";
                     heading "These dev/config files can accept Dawn 15.4.0 versions as-is."]
                    ++ items)
            end ;;
          Ok (patch_lines ++ clean_lines)
      end ;;
    Ok (head ++ restore_lines ++ accept_lines)
  else Ok (head ++ [Line "No Dawn files were removed."]).

(** The paths of the list items, in the order of the lines. *)
Definition listed_paths (lines : list doc_line) : list json :=
  flat_map (fun l => match l with Listed _ path _ => [path] | Line _ => [] end) lines.

(** The dictionary categorize-changes.py appends to [removed_dawn_files]
    (lines 226-233), as [json.load] reads it back from the inventory. *)
Definition removed_json (f : CategorizeChanges.removed_info) : json :=
  JDict [("path", JStr (CategorizeChanges.r_path f));
         ("should_restore", JBool (CategorizeChanges.should_restore f));
         ("accept_dawn_15_4", JBool (CategorizeChanges.accept_dawn_15_4 f));
         ("has_customizations", JBool (CategorizeChanges.has_customizations f));
         ("description", JStr (CategorizeChanges.r_description f));
         ("comparisons", JList (map JStr (CategorizeChanges.r_comparisons f)))].

End DiffDocumentation.

(** * Properties *)

(** ** parse_file_changes *)

Section ParseFileChanges.
Import PyStr CategorizeChanges.

Lemma parse_line_split (r : file_changes) (line : string) :
  parse_line r line =
  mkChanges (added r ++ lines_with "A" [line])
            (modified r ++ lines_with "M" [line])
            (deleted r ++ lines_with "D" [line]).
Proof.
  unfold parse_line, lines_with, has_status, status_of, path_of; simpl.
  destruct (strip line) as [|status tail] eqn:E; simpl.
  - rewrite !app_nil_r. now destruct r.
  - destruct (Ascii.eqb status "A") eqn:EA.
    + apply Ascii.eqb_eq in EA; subst status; simpl. now rewrite ?E, !app_nil_r.
    + destruct (Ascii.eqb status "M") eqn:EM.
      * apply Ascii.eqb_eq in EM; subst status; simpl. now rewrite ?E, !app_nil_r.
      * destruct (Ascii.eqb status "D") eqn:ED; simpl.
        -- now rewrite ?E, !app_nil_r.
        -- rewrite !app_nil_r. now destruct r.
Qed.

Lemma lines_with_app (c : ascii) (f g : list string) :
  lines_with c (f ++ g) = lines_with c f ++ lines_with c g.
Proof. unfold lines_with. now rewrite filter_app, map_app. Qed.

Lemma parse_fold (f : list string) (r : file_changes) :
  fold_left parse_line f r =
  mkChanges (added r ++ lines_with "A" f)
            (modified r ++ lines_with "M" f)
            (deleted r ++ lines_with "D" f).
Proof.
  revert r. induction f as [|line f IH]; intro r; simpl.
  - unfold lines_with; simpl. rewrite !app_nil_r. now destruct r.
  - rewrite IH, parse_line_split; simpl.
    change (line :: f) with ([line] ++ f).
    now rewrite !lines_with_app, !app_assoc.
Qed.

(** The three lists, as functions of the lines. *)
Lemma parse_file_changes_lists (f : list string) :
  parse_file_changes f =
  mkChanges (lines_with "A" f) (lines_with "M" f) (lines_with "D" f).
Proof. unfold parse_file_changes. now rewrite parse_fold. Qed.

Lemma in_lines_with (c : ascii) (f : list string) (p : string) :
  In p (lines_with c f) <->
  exists line, In line f /\ status_of line = Some c /\ path_of line = p.
Proof.
  unfold lines_with. rewrite in_map_iff. split.
  - intros (line & Hp & Hin). apply filter_In in Hin as [Hin Hs].
    exists line. repeat split; auto.
    unfold has_status in Hs. destruct (status_of line) as [d|]; try discriminate.
    apply Ascii.eqb_eq in Hs. now subst.
  - intros (line & Hin & Hs & Hp). exists line. split; auto.
    apply filter_In. split; auto. unfold has_status. rewrite Hs.
    apply Ascii.eqb_refl.
Qed.

Lemma lines_with_skip (c : ascii) (before after : list string) (line : string) :
  status_of line <> Some c ->
  lines_with c (before ++ line :: after) = lines_with c (before ++ after).
Proof.
  intro H. change (line :: after) with ([line] ++ after).
  rewrite !lines_with_app. unfold lines_with at 2; simpl.
  unfold has_status. destruct (status_of line) as [d|]; simpl; auto.
  destruct (Ascii.eqb d c) eqn:E; simpl; auto.
  apply Ascii.eqb_eq in E. subst. now contradiction H.
Qed.

(** C10. [parse_file_changes] puts a path in the added, modified or deleted
    list exactly when a line whose stripped text is not empty starts with
    [A], [M] or [D] and names that path; a line with any other first
    character (an [R], [C] or [T] status) is dropped: the result is the
    one obtained without that line. *)
Theorem parse_file_changes_by_status (f : list string) :
  (forall p, In p (added (parse_file_changes f)) <->
     exists line, In line f /\ status_of line = Some "A"%char /\ path_of line = p)
  /\ (forall p, In p (modified (parse_file_changes f)) <->
     exists line, In line f /\ status_of line = Some "M"%char /\ path_of line = p)
  /\ (forall p, In p (deleted (parse_file_changes f)) <->
     exists line, In line f /\ status_of line = Some "D"%char /\ path_of line = p)
  /\ (forall before line after,
        f = before ++ line :: after ->
        status_of line <> Some "A"%char ->
        status_of line <> Some "M"%char ->
        status_of line <> Some "D"%char ->
        parse_file_changes f = parse_file_changes (before ++ after)).
Proof.
  rewrite parse_file_changes_lists; simpl.
  repeat split; try (apply in_lines_with); try (apply in_lines_with; assumption).
  intros before line after -> HA HM HD.
  rewrite parse_file_changes_lists.
  now rewrite !lines_with_skip by assumption.
Qed.

(** A rename line between a modification and a deletion. *)
Lemma parse_file_changes_by_status_witness :
  parse_file_changes ["M	a.liquid"; "R100	old.js	new.js"; "D	b.css"]
  = parse_file_changes ["M	a.liquid"; "D	b.css"]
  /\ In "a.liquid" (modified (parse_file_changes ["M	a.liquid"; "R100	old.js	new.js"; "D	b.css"])).
Proof.
  destruct (parse_file_changes_by_status
              ["M	a.liquid"; "R100	old.js	new.js"; "D	b.css"])
    as (_ & HM & _ & Hdrop).
  split.
  - apply (Hdrop ["M	a.liquid"] "R100	old.js	new.js" ["D	b.css"]);
      [reflexivity | discriminate | discriminate | discriminate].
  - apply HM. exists "M	a.liquid". repeat split. simpl; auto.
Defined.

End ParseFileChanges.

(** ** categorize_files and the buckets of main *)

Section Classifier.
Import PyStr CategorizeChanges.

Lemma dict_set_keys {V : Type} (d : list (string * V)) (k : string) (v : V) (x : string) :
  In x (map fst (dict_set d k v)) <-> In x (map fst d) \/ x = k.
Proof.
  induction d as [|[k' v'] d IH]; simpl.
  - intuition.
  - destruct (String.eqb k' k) eqn:E; simpl.
    + apply String.eqb_eq in E. subst. intuition.
    + rewrite IH. intuition.
Qed.

Lemma dict_set_values {V : Type} (f : string -> V) (d : list (string * V)) (k : string) :
  (forall kv, In kv d -> snd kv = f (fst kv)) ->
  forall kv, In kv (dict_set d k (f k)) -> snd kv = f (fst kv).
Proof.
  induction d as [|[k' v'] d IH]; simpl; intros H kv Hin.
  - destruct Hin as [<-|[]]. reflexivity.
  - destruct (String.eqb k' k) eqn:E; simpl in Hin.
    + apply String.eqb_eq in E. subst k'.
      destruct Hin as [<-|Hin]; [reflexivity | now apply H; right].
    + destruct Hin as [<-|Hin]; [now apply (H (k', v')); left |].
      apply IH; auto.
Qed.

Lemma partition_lengths {A : Type} (f : A -> bool) (l : list A) :
  length l = length (filter f l) + length (filter (fun x => negb (f x)) l).
Proof.
  induction l as [|x l IH]; simpl; auto.
  destruct (f x); simpl; lia.
Qed.

Variables diff_set_1 diff_set_2 diff_set_3 : option file_changes.

Let entry := modified_entry diff_set_1 diff_set_2 diff_set_3.

(** The dictionary of modified files: its keys are the modified paths and
    every value is the entry computed from its key. *)
Lemma modified_files_built (l : list string) (d : list (string * modified_info)) :
  (forall kv, In kv d -> snd kv = entry (fst kv)) ->
  let d' := fold_left (fun d filepath => dict_set d filepath (entry filepath)) l d in
  (forall x, In x (map fst d') <-> In x (map fst d) \/ In x l)
  /\ (forall kv, In kv d' -> snd kv = entry (fst kv)).
Proof.
  revert d. induction l as [|p l IH]; intros d Hd; simpl.
  - split; [intuition | assumption].
  - destruct (IH (dict_set d p (entry p)) (dict_set_values entry d p Hd)) as [K V].
    split; [|exact V].
    intro x. rewrite K, dict_set_keys. intuition.
Qed.

Lemma in_bucket (f : modified_info -> bool) (d : list (string * modified_info)) (p : string) :
  (forall kv, In kv d -> snd kv = entry (fst kv)) ->
  (In p (map fst (filter (fun kv => f (snd kv)) d))
   <-> In p (map fst d) /\ f (entry p) = true).
Proof.
  intro Hd. rewrite !in_map_iff. split.
  - intros ([k v] & Hk & Hin). simpl in Hk. subst k.
    apply filter_In in Hin as [Hin Hf]. simpl in Hf.
    pose proof (Hd _ Hin) as Hv. simpl in Hv. subst v.
    split; [exists (p, entry p); auto | assumption].
  - intros [([k v] & Hk & Hin) Hf]. simpl in Hk. subst k.
    pose proof (Hd _ Hin) as Hv. simpl in Hv. subst v.
    exists (p, entry p). split; auto. apply filter_In. split; auto.
Qed.

Lemma removed_lengths (content : string) (l : list string) :
  let removed := map (removed_entry content diff_set_1 diff_set_2 diff_set_3) l in
  length removed =
  length (filter should_restore removed) + length (filter accept_dawn_15_4 removed).
Proof.
  induction l as [|p l IH]; simpl; auto.
  simpl in IH. destruct (is_dev_config p); simpl; lia.
Qed.

End Classifier.

Section ClassifierClaims.
Import PyStr CategorizeChanges.

Lemma main_buckets (lines : list string) (full_diff : option string)
    (d1 d2 d3 : option (list string)) (p : string) :
  let r := main lines full_diff d1 d2 d3 in
  (In p (files_to_revert_to_clean r)
   <-> In p (modified (parse_file_changes lines)) /\ revert_decision p = true)
  /\ (In p (files_to_patch_modified r)
      <-> In p (modified (parse_file_changes lines)) /\ revert_decision p = false).
Proof.
  unfold main, combine_results, categorize_files; simpl.
  set (s1 := option_map parse_file_changes d1).
  set (s2 := option_map parse_file_changes d2).
  set (s3 := option_map parse_file_changes d3).
  destruct (modified_files_built s1 s2 s3 (modified (parse_file_changes lines)) [])
    as [K V]; [intros kv []|].
  simpl in K.
  split.
  - rewrite (in_bucket s1 s2 s3 revert_to_clean _ p V), K. simpl. intuition.
  - rewrite (in_bucket s1 s2 s3 (fun i => negb (revert_to_clean i)) _ p V), K.
    simpl. rewrite Bool.negb_true_iff. intuition.
Qed.




Lemma removed_buckets (lines : list string) (full_diff : option string)
    (d1 d2 d3 : option (list string)) (p : string) :
  let r := main lines full_diff d1 d2 d3 in
  (In p (files_to_restore_from_dawn r)
   <-> In p (deleted (parse_file_changes lines)) /\ is_dev_config p = false)
  /\ (In p (files_to_accept_dawn_15_4 r)
      <-> In p (deleted (parse_file_changes lines)) /\ is_dev_config p = true).
Proof.
  unfold main, combine_results, categorize_files; simpl.
  set (entry := removed_entry _ _ _ _).
  assert (P : forall q, r_path (entry q) = q) by reflexivity.
  assert (A : forall q, accept_dawn_15_4 (entry q) = is_dev_config q) by reflexivity.
  assert (R : forall q, should_restore (entry q) = negb (is_dev_config q)) by reflexivity.
  split; split.
  - intro H. apply in_map_iff in H as (f & <- & Hf).
    apply filter_In in Hf as [Hf Hr]. apply in_map_iff in Hf as (q & <- & Hq).
    rewrite P. rewrite R in Hr. split; [exact Hq | now apply Bool.negb_true_iff].
  - intros [Hin Hd]. apply in_map_iff. exists (entry p). split; [apply P|].
    apply filter_In. split; [now apply in_map | now rewrite R, Hd].
  - intro H. apply in_map_iff in H as (f & <- & Hf).
    apply filter_In in Hf as [Hf Ha]. apply in_map_iff in Hf as (q & <- & Hq).
    rewrite P. rewrite A in Ha. now split.
  - intros [Hin Hd]. apply in_map_iff. exists (entry p). split; [apply P|].
    apply filter_In. split; [now apply in_map | now rewrite A].
Qed.

Lemma dict_set_length {V : Type} (d : list (string * V)) (k : string) (v : V) :
  ~ In k (map fst d) -> length (dict_set d k v) = S (length d).
Proof.
  induction d as [|[k' v'] d IH]; simpl; intro H; [reflexivity|].
  destruct (String.eqb k' k) eqn:E.
  - apply String.eqb_eq in E. subst. exfalso. apply H. now left.
  - simpl. rewrite IH; [reflexivity | intro; apply H; now right].
Qed.

Lemma modified_files_length {V : Type} (f : string -> V) (l : list string)
    (d : list (string * V)) :
  NoDup l -> (forall x, In x l -> ~ In x (map fst d)) ->
  length (fold_left (fun d filepath => dict_set d filepath (f filepath)) l d)
  = length d + length l.
Proof.
  intro N. revert d. induction N as [|x l Hx N IH]; intros d H; simpl; [lia|].
  rewrite IH.
  - rewrite dict_set_length; [lia | apply H; now left].
  - intros y Hy Hin. apply dict_set_keys in Hin as [Hin| ->].
    + apply (H y); [now right | exact Hin].
    + contradiction.
Qed.

(** When no path is listed twice as modified, the count of modified files
    is the length of the modified list; the count of removed files is
    always the length of the deleted list. *)
Lemma counts_of_input_lists (lines : list string) (full_diff : option string)
    (d1 d2 d3 : option (list string)) :
  let r := main lines full_diff d1 d2 d3 in
  removed_dawn_files_count r = length (deleted (parse_file_changes lines))
  /\ (NoDup (modified (parse_file_changes lines)) ->
      modified_dawn_files_count r = length (modified (parse_file_changes lines))).
Proof.
  unfold main, combine_results, categorize_files; simpl. split.
  - apply length_map.
  - intro N. rewrite modified_files_length; [reflexivity | exact N | intros x _ []].
Qed.

(** C2. For every input, every modified path is in exactly one of
    [files_to_revert_to_clean] and [files_to_patch_modified] and every
    deleted path in exactly one of [files_to_restore_from_dawn] and
    [files_to_accept_dawn_15_4]; the number of modified files of the result
    is the number of files to revert plus the number of files to patch, and
    the number of removed files is the number of files to restore plus the
    number of files whose upstream version is accepted.  Both validation
    flags are true, so the warning about counts that do not add up is never
    due and never printed. *)
Theorem classifier_counts_add_up (lines : list string) (full_diff : option string)
    (d1 d2 d3 : option (list string)) :
  let r := main lines full_diff d1 d2 d3 in
  let changes := parse_file_changes lines in
  (forall p, In p (modified changes)
             <-> In p (files_to_revert_to_clean r) \/ In p (files_to_patch_modified r))
  /\ (forall p, ~ (In p (files_to_revert_to_clean r)
                   /\ In p (files_to_patch_modified r)))
  /\ (forall p, In p (deleted changes)
                <-> In p (files_to_restore_from_dawn r)
                    \/ In p (files_to_accept_dawn_15_4 r))
  /\ (forall p, ~ (In p (files_to_restore_from_dawn r)
                   /\ In p (files_to_accept_dawn_15_4 r)))
  /\ modified_dawn_files_count r
     = length (files_to_revert_to_clean r) + length (files_to_patch_modified r)
  /\ removed_dawn_files_count r
     = length (files_to_restore_from_dawn r) + length (files_to_accept_dawn_15_4 r)
  /\ modified_equals_revert_plus_patch r = true
  /\ removed_equals_restore_plus_accept r = true
  /\ printed_warnings r = [].
Proof.
  intros r changes.
  split; [|split; [|split; [|split]]].
  - intro p. destruct (main_buckets lines full_diff d1 d2 d3 p) as [R P].
    fold r in R, P. rewrite R, P. fold changes.
    destruct (revert_decision p); intuition discriminate.
  - intros p [Hr Hp]. destruct (main_buckets lines full_diff d1 d2 d3 p) as [R P].
    apply R in Hr. apply P in Hp. destruct Hr, Hp. congruence.
  - intro p. destruct (removed_buckets lines full_diff d1 d2 d3 p) as [R A].
    fold r in R, A. rewrite R, A. fold changes.
    destruct (is_dev_config p); intuition discriminate.
  - intros p [Hr Ha]. destruct (removed_buckets lines full_diff d1 d2 d3 p) as [R A].
    apply R in Hr. apply A in Ha. destruct Hr, Ha. congruence.
  - subst r changes.
    unfold main, combine_results, categorize_files; simpl.
    set (s1 := option_map parse_file_changes d1).
    set (s2 := option_map parse_file_changes d2).
    set (s3 := option_map parse_file_changes d3).
    set (d := fold_left _ _ _).
    set (content := match full_diff with Some c => c | None => EmptyString end).
    rewrite !length_map.
    pose proof (partition_lengths (fun kv => revert_to_clean (snd kv)) d) as HM.
    pose proof (removed_lengths s1 s2 s3 content (deleted (parse_file_changes lines))) as HR.
    simpl in HR. rewrite !length_map in HR.
    repeat split.
    + exact HM.
    + exact HR.
    + apply Nat.eqb_eq. exact HM.
    + apply Nat.eqb_eq. exact HR.
    + apply Nat.eqb_eq in HM. now rewrite HM.
Qed.

Lemma classifier_counts_add_up_witness :
  let r := main ["M	README.md"; "M	sections/header.liquid";
                 "D	LICENSE.md"; "D	snippets/price.liquid"] None None None None in
  modified_dawn_files_count r = 1 + 1
  /\ removed_dawn_files_count r = 1 + 1
  /\ ~ (In "README.md" (files_to_revert_to_clean r)
        /\ In "README.md" (files_to_patch_modified r)).
Proof.
  destruct (classifier_counts_add_up
              ["M	README.md"; "M	sections/header.liquid";
               "D	LICENSE.md"; "D	snippets/price.liquid"] None None None None)
    as (_ & D & _ & _ & M & R & _).
  split; [exact M | split; [exact R | exact (D "README.md")]].
Defined.

(** Where the rule of the code and the rule of the specification agree:
    outside [locales/], and for a file directly inside [locales/]. *)
Lemma revert_rule_outside_locales (filepath : string) :
  startswith filepath "locales/" = false ->
  spec_revert_rule filepath = revert_decision filepath.
Proof.
  unfold spec_revert_rule, revert_decision. intros ->. simpl.
  now destruct (String.eqb filepath "README.md").
Qed.

Lemma revert_rule_inside_locales (name : string) :
  existsb (Ascii.eqb "/"%char) (list_ascii_of_string name) = false ->
  spec_revert_rule ("locales/" ++ name) = revert_decision ("locales/" ++ name).
Proof.
  intro H. unfold spec_revert_rule, revert_decision.
  assert (F : filename ("locales/" ++ name) = name).
  { simpl. rewrite H. simpl. reflexivity. }
  rewrite F. unfold startswith. simpl.
  destruct (String.prefix "en." name); reflexivity.
Qed.

End ClassifierClaims.

(** ** Deleted files and the text of the full diff *)

Section DeletedFiles.
Import PyStr CategorizeChanges.

Variable content : string.
Variables diff_set_1 diff_set_2 diff_set_3 : option file_changes.

(** A deleted development or configuration file is accepted from
    upstream, any other deleted file is to be restored and has no
    customizations recorded. *)
Lemma removed_entry_kind (filepath : string) :
  let f := removed_entry content diff_set_1 diff_set_2 diff_set_3 filepath in
  accept_dawn_15_4 f = is_dev_config filepath
  /\ should_restore f = negb (is_dev_config filepath)
  /\ (is_dev_config filepath = false -> has_customizations f = false).
Proof.
  unfold removed_entry; simpl. repeat split.
  intros ->. reflexivity.
Qed.

(** What the flag of a development or configuration file is computed from:
    the text that starts at the first [diff --git] of the whole diff. *)
Lemma removed_entry_customizations (filepath : string) :
  is_dev_config filepath = true ->
  has_customizations (removed_entry content diff_set_1 diff_set_2 diff_set_3 filepath)
  = detect_customizations filepath content.
Proof. unfold removed_entry; simpl. now intros ->. Qed.

End DeletedFiles.

Section DeletedFilesClaim.
Import PyStr CategorizeChanges.

(** C4, at a diff where a stylesheet is changed before the workflow file
    is deleted.  The section of [.github/workflows/ci.yml] holds removed
    lines only, and the code still sets [has_customizations]: its section
    starts at the first [diff --git] of the text, so it holds the added
    line of the stylesheet. *)
Theorem dev_config_deletion_reads_earlier_sections :
  let full_diff :=
    unlines ["diff --git a/assets/base.css b/assets/base.css";
             "--- a/assets/base.css";
             "+++ b/assets/base.css";
             "@@ -1 +1 @@";
             "-color: red";
             "+color: blue";
             "diff --git a/.github/workflows/ci.yml b/.github/workflows/ci.yml";
             "deleted file mode 100644";
             "--- a/.github/workflows/ci.yml";
             "+++ /dev/null";
             "@@ -1 +0,0 @@";
             "-name: CI"] in
  let c := categorize_files (parse_file_changes ["D	.github/workflows/ci.yml"])
             (Some full_diff) None None None in
  map (fun f => (r_path f, should_restore f, accept_dawn_15_4 f, has_customizations f))
      (removed_dawn_files c)
  = [(".github/workflows/ci.yml", false, true, true)]
  /\ spec_has_customizations ".github/workflows/ci.yml" full_diff = false.
Proof. vm_compute. split; reflexivity. Qed.

End DeletedFilesClaim.

(** ** load_json *)

Section LoadJson.
Import PyStr Py Loader.

Lemma prefix_app (a b : string) : String.prefix a (a ++ b)%string = true.
Proof.
  induction a as [|c a IH]; simpl.
  - now destruct b.
  - destruct (ascii_dec c c) as [_|N]; [exact IH | now contradiction N].
Qed.

Lemma prefix_inv (a s : string) :
  String.prefix a s = true -> exists b, s = (a ++ b)%string.
Proof.
  revert s. induction a as [|c a IH]; intros s H; simpl in *.
  - now exists s.
  - destruct s as [|d s]; simpl in H; [discriminate|].
    destruct (ascii_dec c d) as [->|]; [|discriminate].
    destruct (IH s H) as [b ->]. now exists b.
Qed.

Lemma find_lower_bound (s sub : string) : (-1 <= find s sub)%Z.
Proof.
  induction s as [|c s IH]; cbn [find].
  - destruct (String.prefix sub EmptyString); lia.
  - destruct (String.prefix sub (String c s)); [lia|].
    destruct (find s sub =? -1)%Z; lia.
Qed.

Lemma find_prefix (s sub : string) :
  String.prefix sub s = true -> find s sub = 0%Z.
Proof. intro H. destruct s; cbn [find]; now rewrite H. Qed.

(** [find] returns the length of the text before the first occurrence. *)
Lemma find_first (sub rest pre : string) :
  (forall a b, (pre ++ sub ++ rest)%string = (a ++ sub ++ b)%string ->
               String.length pre <= String.length a) ->
  find (pre ++ sub ++ rest) sub = Z.of_nat (String.length pre).
Proof.
  induction pre as [|c pre IH]; intro Hmin.
  - cbn [String.append String.length]. apply find_prefix, prefix_app.
  - cbn [String.append find].
    destruct (String.prefix sub (String c (pre ++ sub ++ rest))) eqn:P.
    + apply prefix_inv in P as [b Hb].
      specialize (Hmin EmptyString b). simpl in Hmin.
      specialize (Hmin Hb). lia.
    + rewrite IH.
      * destruct (Z.of_nat (String.length pre) =? -1)%Z eqn:Z1.
        -- apply Z.eqb_eq in Z1. lia.
        -- cbn [String.length]. lia.
      * intros a b Hab.
        specialize (Hmin (String c a) b). simpl in Hmin.
        rewrite Hab in Hmin. specialize (Hmin eq_refl). lia.
Qed.

(** No occurrence starts before the index [find] returns. *)
Lemma find_minimal (sub s a b : string) :
  s = (a ++ sub ++ b)%string ->
  (0 <= find s sub <= Z.of_nat (String.length a))%Z.
Proof.
  revert a. induction s as [|c s IH]; intros a H.
  - destruct a; simpl in H.
    + rewrite find_prefix; [simpl; lia | rewrite H; apply prefix_app].
    + discriminate.
  - cbn [find].
    destruct (String.prefix sub (String c s)) eqn:P; [lia|].
    destruct a as [|d a]; simpl in H.
    + rewrite H, prefix_app in P. discriminate.
    + injection H as -> H.
      specialize (IH a H).
      destruct (find s sub =? -1)%Z eqn:Z1.
      * apply Z.eqb_eq in Z1. lia.
      * cbn [String.length]. lia.
Qed.

Lemma drop_app (pre s : string) : drop (String.length pre) (pre ++ s) = s.
Proof. induction pre as [|c pre IH]; simpl; auto. Qed.

Lemma rstrip_cons (c : ascii) (s : string) :
  isspace c = false -> rstrip (String c s) = String c (rstrip s).
Proof.
  intro H. simpl. destruct (rstrip s); [now rewrite H | reflexivity].
Qed.

Lemma prefix_head_eq (c : ascii) (a s : string) :
  String.prefix (String c a) (String c s) = String.prefix a s.
Proof.
  cbn [String.prefix]. destruct (ascii_dec c c) as [_|N]; [reflexivity | now contradiction N].
Qed.

Lemma prefix_head_ne (c d : ascii) (a s : string) :
  c <> d -> String.prefix (String c a) (String d s) = false.
Proof.
  intro N. cbn [String.prefix]. destruct (ascii_dec c d); [contradiction | reflexivity].
Qed.

Lemma rstrip_head_ne (c d : ascii) (a t : string) :
  c <> d -> String.prefix (String c a) (rstrip (String d t)) = false.
Proof.
  intro N. cbn [rstrip].
  destruct (rstrip t); [destruct (isspace d)|];
    try reflexivity; now apply prefix_head_ne.
Qed.

(** Whether the text opens a block comment is decided by its leading
    whitespace alone. *)
Lemma strip_opens_comment (s : string) :
  lstrip s <> "/"%string ->
  startswith (strip s) "/*" = startswith (lstrip s) "/*".
Proof.
  unfold strip, startswith. intro H.
  destruct (lstrip s) as [|c t] eqn:E; [reflexivity|].
  destruct (ascii_dec c "/") as [->|Hc].
  - rewrite rstrip_cons by reflexivity.
    destruct t as [|d t]; [now contradiction H|].
    rewrite !prefix_head_eq.
    destruct (ascii_dec d "*") as [->|Hd].
    + rewrite rstrip_cons by reflexivity.
      rewrite !prefix_head_eq. destruct (rstrip t); destruct t; reflexivity.
    + rewrite rstrip_head_ne, prefix_head_ne; congruence.
  - rewrite rstrip_head_ne, prefix_head_ne; congruence.
Qed.

Variable json_loads : string -> option json.

(** C5. When the text, without its leading whitespace, opens with [/*]
    and has a closer, [load_json] parses what follows the first [*/]
    (trimmed of surrounding whitespace, as the code does before it calls
    the parser) and raises the parser's error exactly when the parser
    rejects that remainder. *)
Theorem load_json_skips_comment (content pre rest : string) :
  startswith (lstrip content) "/*" = true ->
  content = (pre ++ "*/" ++ rest)%string ->
  (forall a b, content = (a ++ "*/" ++ b)%string ->
               String.length pre <= String.length a) ->
  load_json json_loads content
  = match json_loads (strip rest) with
    | Some v => Ok v
    | None => Raise JSONDecodeError
    end
  /\ (load_json json_loads content = Raise JSONDecodeError
      <-> json_loads (strip rest) = None).
Proof.
  intros Hopen Hc Hmin.
  assert (E : skip_comment content = strip rest).
  { unfold skip_comment.
    rewrite strip_opens_comment, Hopen.
    - subst content. rewrite find_first by exact Hmin.
      destruct (Z.of_nat (String.length pre) =? -1)%Z eqn:Z1.
      + apply Z.eqb_eq in Z1. lia.
      + simpl. unfold slice_from.
        destruct (0 <=? Z.of_nat (String.length pre) + 2)%Z eqn:Z2.
        * replace (Z.to_nat (Z.of_nat (String.length pre) + 2))
            with (String.length (pre ++ "*/")) .
          -- change (pre ++ String "*" (String "/" rest))%string
               with (pre ++ ("*/" ++ rest))%string.
             replace (pre ++ ("*/" ++ rest))%string with ((pre ++ "*/") ++ rest)%string.
             ++ now rewrite drop_app.
             ++ clear. induction pre; simpl; auto. now rewrite IHpre.
          -- clear. induction pre; simpl; auto.
             rewrite IHpre. lia.
        * apply Z.leb_gt in Z2. lia.
    - intro H. rewrite H in Hopen. discriminate. }
  unfold load_json. rewrite E.
  split; [reflexivity|].
  destruct (json_loads (strip rest)); split; intro H; try discriminate; reflexivity.
Qed.

End LoadJson.

Section LoadJsonWitness.
Import PyStr Py Loader.

Lemma load_json_skips_comment_witness :
  load_json loads_empty "  /* settings */ {} " = Ok (JDict []).
Proof.
  refine (match load_json_skips_comment loads_empty
                  "  /* settings */ {} " "  /* settings " " {} " _ _ _ with
          | conj H _ => H
          end).
  - reflexivity.
  - reflexivity.
  - intros a b H.
    pose proof (find_minimal "*/" _ a b H) as B.
    change (find "  /* settings */ {} " "*/") with 14%Z in B.
    change (String.length "  /* settings ") with 14. lia.
Defined.

End LoadJsonWitness.

(** ** Exit status of the command-line scripts *)

Section ExitStatus.
Import Py VersionConfig Scripts.

Variable json_loads : string -> option json.
Variable work : git_refs -> version_info -> result unit.

Lemma main_missing_config : main json_loads work None = Ok 1%Z.
Proof. reflexivity. Qed.

(** A run that loads the configuration and finishes its work returns 0,
    and both entry points exit with status 0. *)
Lemma exit_status_success (text : string) (refs : git_refs) (info : version_info) :
  get_git_refs json_loads (Some text) = Ok refs ->
  get_version_info json_loads (Some text) = Ok info ->
  work refs info = Ok tt ->
  generate_all_diffs json_loads work (Some text) = 0%Z
  /\ extract_dawn_files json_loads work (Some text) = 0%Z.
Proof.
  intros R I W. unfold generate_all_diffs, extract_dawn_files, main.
  rewrite R, I. simpl. rewrite W. simpl. split; reflexivity.
Qed.


End ExitStatus.

(** ** analyze_locale and analyze_settings_data *)

Section FlatDocuments.
Import PyStr Py AnalyzeAllJsonDiffs.

Variable keep_added : string -> bool.
Variable keep_modified : string -> json -> bool.
Variable added_record : string -> json -> key_record.
Variable modified_record : string -> json -> json -> key_record.
Hypothesis added_key : forall k v, record_key (added_record k v) = k.
Hypothesis modified_key : forall k o v, record_key (modified_record k o v) = k.

Lemma lookup_in (d : document) (k : string) (v : json) :
  In (k, v) d -> has_key d k.
Proof.
  induction d as [|[k' v'] d IH]; simpl; [intros []|].
  intros [H|H]; unfold has_key; simpl.
  - injection H as -> ->. rewrite String.eqb_refl. now exists v.
  - destruct (String.eqb k' k); [now exists v' | now apply IH].
Qed.

Lemma has_key_in (d : document) (k : string) :
  has_key d k -> exists v, In (k, v) d.
Proof.
  intros [v H]. induction d as [|[k' v'] d IH]; simpl in *; [discriminate|].
  destruct (String.eqb k' k) eqn:E.
  - apply String.eqb_eq in E. subst. exists v'. now left.
  - destruct (IH H) as [w Hw]. exists w. now right.
Qed.

Lemma not_has_key (d : document) (k : string) :
  ~ has_key d k <-> lookup k d = None.
Proof.
  unfold has_key. destruct (lookup k d) as [v|]; split; intro H.
  - exfalso. apply H. now exists v.
  - discriminate.
  - reflexivity.
  - intros [v Hv]. discriminate.
Qed.

Lemma concat_pairs_cons {A B : Type} (x : list A * list B) (l : list (list A * list B)) :
  concat_pairs (x :: l)
  = (fst x ++ fst (concat_pairs l), snd x ++ snd (concat_pairs l)).
Proof. reflexivity. Qed.

(** The additions of one loop: the keys of the compared document that the
    base lacks and the inner condition keeps. *)
Lemma compare_items_added (base compare : document) (k : string) :
  reports (fst (compare_items keep_added keep_modified added_record
                  modified_record base compare)) k
  <-> has_key compare k /\ ~ has_key base k /\ keep_added k = true.
Proof.
  unfold compare_items, reports.
  induction compare as [|[k' v'] compare IH].
  - simpl. split; [intros (r & [] & _) | intros ([v Hv] & _); discriminate].
  - rewrite map_cons, concat_pairs_cons. cbn [fst].
    split.
    + intros (r & Hin & Hk). apply in_app_or in Hin as [Hin|Hin].
      * destruct (lookup k' base) as [old|] eqn:L.
        -- destruct (negb (py_eq old v')); [destruct (keep_modified k' v')|];
             simpl in Hin; contradiction.
        -- destruct (keep_added k') eqn:K; simpl in Hin; [|contradiction].
           destruct Hin as [<-|[]]. rewrite added_key in Hk. subst k'.
           repeat split; auto.
           ++ apply (lookup_in _ k v'). now left.
           ++ now apply not_has_key.
      * destruct IH as [IH _]. destruct IH as (Hc & Hb & Hk').
        -- now exists r.
        -- repeat split; auto.
           destruct Hc as [v Hv]. unfold has_key. simpl.
           destruct (String.eqb k' k); [now exists v' | now exists v].
    + intros (Hc & Hb & Hk).
      destruct (String.eqb k' k) eqn:E.
      * apply String.eqb_eq in E. subst k'.
        apply not_has_key in Hb. rewrite Hb, Hk.
        exists (added_record k v'). split; [simpl; now left | apply added_key].
      * destruct IH as [_ IH]. destruct IH as (r & Hin & Hr).
        -- repeat split; auto. destruct Hc as [v Hv]. simpl in Hv.
           rewrite E in Hv. now exists v.
        -- exists r. split; auto. apply in_or_app. now right.
Qed.

(** A key the base lacks has no modification record. *)
Lemma compare_items_modified_known (base compare : document) (k : string) :
  reports (snd (compare_items keep_added keep_modified added_record
                  modified_record base compare)) k
  -> has_key base k.
Proof.
  unfold compare_items, reports.
  induction compare as [|[k' v'] compare IH].
  - simpl. intros (r & [] & _).
  - rewrite map_cons, concat_pairs_cons. cbn [snd].
    intros (r & Hin & Hk). apply in_app_or in Hin as [Hin|Hin].
    + destruct (lookup k' base) as [old|] eqn:L.
      * destruct (negb (py_eq old v')); [destruct (keep_modified k' v')|];
          simpl in Hin; try contradiction.
        destruct Hin as [<-|[]]. rewrite modified_key in Hk. subst k'.
        now exists old.
      * destruct (keep_added k'); simpl in Hin; contradiction.
    + apply IH. now exists r.
Qed.

End FlatDocuments.

Section FlatDocumentClaims.
Import PyStr Py AnalyzeAllJsonDiffs.

(** C9. In the pair old upstream vs custom, [analyze_locale] and
    [analyze_settings_data] report a key that the custom snapshot has and
    the old upstream lacks exactly when it starts with [custom_]; such a
    key without the prefix is in neither list of that pair.  In the two
    other pairs every key the compared snapshot has and the base lacks is
    reported as an addition. *)
Theorem custom_prefix_only_in_first_pair :
  custom_prefix_rule analyze_locale /\ custom_prefix_rule analyze_settings_data.
Proof.
  split; intros dawn_v10 current dawn_v15 key r; subst r;
    unfold analyze_locale, analyze_settings_data;
    cbn [flat_custom_additions flat_modifications flat_dawn_additions
         flat_conflict_additions];
    (split; [|split; [|split]]).
  1, 5: eapply (compare_items_added (fun k => startswith k "custom_"));
    intros; reflexivity.
  1, 4: intros Hc Hb Hp; split; intro H;
    [ eapply (compare_items_added (fun k => startswith k "custom_")) in H;
      [destruct H as (_ & _ & H); congruence | intros; reflexivity]
    | apply compare_items_modified_known in H; [|intros; reflexivity];
      contradiction ].
  all: split;
    [ intro H; eapply (compare_items_added (fun _ => true)) in H;
      [tauto | intros; reflexivity]
    | intros [Hc Hb]; eapply (compare_items_added (fun _ => true));
      [intros; reflexivity | tauto] ].
Qed.

(** The scenario of the specification, with one more key that has no
    prefix: [custom_c] is reported, [d] is not. *)
Lemma custom_prefix_only_in_first_pair_witness :
  let base := [("a", JStr "1"); ("custom_b", JStr "2")] in
  let custom := [("a", JStr "1"); ("custom_b", JStr "2");
                 ("custom_c", JStr "3"); ("d", JStr "4")] in
  let r := analyze_locale base custom [] in
  reports (flat_custom_additions r) "custom_c"
  /\ ~ reports (flat_custom_additions r) "d"
  /\ ~ reports (flat_modifications r) "d".
Proof.
  intros base custom r.
  destruct custom_prefix_only_in_first_pair as [L _].
  destruct (L base custom [] "custom_c") as (A & _).
  destruct (L base custom [] "d") as (_ & B & _).
  split.
  - apply A. repeat split.
    + now exists (JStr "3").
    + intros [v Hv]. discriminate.
  - apply B.
    + now exists (JStr "4").
    + intros [v Hv]. discriminate.
    + reflexivity.
Defined.

End FlatDocumentClaims.

(** ** Computations that return *)

Section Returns.
Import Py PyNotations.

Lemma returns_ok {A : Type} (a : A) (P : A -> Prop) : P a -> returns (Ok a) P.
Proof. intro H. now exists a. Qed.

Lemma returns_bind {A B : Type} (c : result A) (k : A -> result B)
    (P : A -> Prop) (Q : B -> Prop) :
  returns c P -> (forall a, P a -> returns (k a) Q) -> returns (bind c k) Q.
Proof. intros (a & -> & Ha) H. simpl. now apply H. Qed.

Lemma returns_weaken {A : Type} (c : result A) (P Q : A -> Prop) :
  returns c P -> (forall a, P a -> Q a) -> returns c Q.
Proof. intros (a & -> & Ha) H. exists a. auto. Qed.

Lemma returns_mapM {A B : Type} (f : A -> result B) (l : list A) (P : B -> Prop) :
  (forall x, In x l -> returns (f x) P) -> returns (mapM f l) (Forall P).
Proof.
  induction l as [|x l IH]; intro H; simpl.
  - apply returns_ok. constructor.
  - apply returns_bind with (P := P); [apply H; now left|].
    intros y Hy. apply returns_bind with (P := Forall P).
    + apply IH. intros z Hz. apply H. now right.
    + intros ys Hys. apply returns_ok. now constructor.
Qed.

Lemma py_eq_refl (k : json) : hashable k = true -> py_eq k k = true.
Proof.
  destruct k; simpl; intro H; try discriminate; auto.
  - apply Bool.eqb_reflx.
  - apply Z.eqb_refl.
  - apply String.eqb_refl.
Qed.

Lemma dict_put_inv {V : Type} (P : V -> Prop) (d : pydict V) (k : json) (v : V) :
  dict_inv P d -> hashable k = true -> P v -> dict_inv P (dict_put d k v).
Proof.
  unfold dict_inv. intros Hd Hk Hv.
  induction d as [|[k' v'] d IH]; simpl.
  - constructor; auto.
  - inversion Hd as [|? ? [Hk' Hv'] Hd']; subst.
    destruct (py_eq k' k); constructor; simpl in *; auto.
Qed.

Lemma dict_get_inv {V : Type} (P : V -> Prop) (d : pydict V) (k : json) (v : V) :
  dict_inv P d -> dict_get d k = Some v -> P v.
Proof.
  unfold dict_inv. intros Hd. induction d as [|[k' v'] d IH]; simpl; [discriminate|].
  inversion Hd as [|? ? [Hk' Hv'] Hd']; subst. simpl in *.
  destruct (py_eq k' k); [intro E; injection E as <-; auto | auto].
Qed.

Lemma dict_get_key {V : Type} (P : V -> Prop) (d : pydict V) (k : json) :
  dict_inv P d -> In k (dict_keys d) -> exists v, dict_get d k = Some v.
Proof.
  unfold dict_inv, dict_keys. intros Hd Hin.
  induction d as [|[k' v'] d IH]; simpl in *; [contradiction|].
  inversion Hd as [|? ? [Hk' Hv'] Hd']; subst. simpl in *.
  destruct (py_eq k' k) eqn:E; [now exists v'|].
  destruct Hin as [->|Hin]; [|auto].
  rewrite py_eq_refl in E by assumption. discriminate.
Qed.

Lemma dict_index_key {V : Type} (P : V -> Prop) (d : pydict V) (k : json) :
  dict_inv P d -> In k (dict_keys d) -> returns (dict_index d k) P.
Proof.
  intros Hd Hin. destruct (dict_get_key P d k Hd Hin) as [v Hv].
  unfold dict_index. rewrite Hv. apply returns_ok.
  now apply (dict_get_inv P d k).
Qed.

Lemma dict_index_mem {V : Type} (P : V -> Prop) (d : pydict V) (k : json) :
  dict_inv P d -> dict_mem k d = true -> returns (dict_index d k) P.
Proof.
  intros Hd Hm. unfold dict_mem, dict_index in *.
  destruct (dict_get d k) as [v|] eqn:E; [|discriminate].
  apply returns_ok. now apply (dict_get_inv P d k).
Qed.

End Returns.

(** ** analyze_settings_schema returns on well-shaped snapshots *)

Section SchemaTotal.
Import Py PyNotations AnalyzeAllJsonDiffs.

Lemma py_get_dict (item : json) (key : string) (default : json) :
  is_dict item = true -> returns (py_get item key default) (fun _ => True).
Proof. destruct item; try discriminate. intros _. now apply returns_ok. Qed.

Lemma section_is_dict (item : json) : section_shaped item = true -> is_dict item = true.
Proof. now destruct item. Qed.

Lemma entry_is_dict (s : json) : entry_shaped s = true -> is_dict s = true.
Proof. now destruct s. Qed.

Lemma section_name_hashable (item : json) :
  section_shaped item = true ->
  returns (py_get item "name" JNull) (fun name => hashable name = true).
Proof.
  destruct item; try discriminate. simpl. intro H.
  apply andb_prop in H as [H _]. apply returns_ok.
  now destruct (lookup "name" d).
Qed.

Lemma section_settings_shaped (item : json) :
  section_shaped item = true ->
  returns (settings_of item) (Forall (fun s => entry_shaped s = true)).
Proof.
  destruct item; try discriminate. simpl. intro H.
  apply andb_prop in H as [_ H]. unfold settings_of. simpl.
  destruct (lookup "settings" d) as [[| | | |entries|]|]; try discriminate.
  - simpl. apply returns_ok. apply Forall_forall. now apply forallb_forall.
  - simpl. apply returns_ok. constructor.
Qed.

Lemma entry_id (s : json) :
  entry_shaped s = true ->
  returns (py_get s "id" JNull) (fun id => truthy id = true -> hashable id = true).
Proof.
  destruct s; try discriminate. simpl. intro H. apply returns_ok.
  destruct (lookup "id" d) as [id|]; [|discriminate].
  intro T. rewrite T in H. exact H.
Qed.

Lemma find_theme_info_returns (snapshot : list json) :
  Forall (fun item => section_shaped item = true) snapshot ->
  returns (find_theme_info snapshot) (fun t => is_dict t = true).
Proof.
  induction 1 as [|item rest Hitem Hrest IH]; simpl.
  - now apply returns_ok.
  - apply returns_bind with (P := fun _ => True).
    + apply py_get_dict. now apply section_is_dict.
    + intros name _. destruct (py_eq name (JStr "theme_info")); [|exact IH].
      apply returns_ok. now apply section_is_dict.
Qed.

Lemma sections_by_name_returns (snapshot : list json) (d : pydict json) :
  Forall (fun item => section_shaped item = true) snapshot ->
  sections_inv d ->
  returns (sections_by_name snapshot d) sections_inv.
Proof.
  intro H. revert d. induction H as [|item rest Hitem Hrest IH]; intros d Hd; simpl.
  - now apply returns_ok.
  - eapply returns_bind; [apply section_name_hashable, Hitem|].
    intros name Hname. cbv beta in Hname.
    destruct (negb (py_eq name (JStr "theme_info"))); [|now apply IH].
    rewrite Hname. apply IH. now apply dict_put_inv.
Qed.

Lemma settings_by_id_returns (entries : list json) (d : pydict json) :
  Forall (fun s => entry_shaped s = true) entries ->
  settings_inv d ->
  returns (settings_by_id entries d) settings_inv.
Proof.
  intro H. revert d. induction H as [|s rest Hs Hrest IH]; intros d Hd; simpl.
  - now apply returns_ok.
  - eapply returns_bind; [apply entry_id, Hs|].
    intros id Hid. cbv beta in Hid.
    destruct (truthy id); [|now apply IH].
    rewrite Hid by reflexivity. apply IH. apply dict_put_inv; auto.
    now apply entry_is_dict.
Qed.

Lemma settings_map_returns (section : json) :
  section_shaped section = true -> returns (settings_map section) settings_inv.
Proof.
  intro H. unfold settings_map.
  eapply returns_bind; [apply section_settings_shaped, H|].
  intros entries He. apply settings_by_id_returns; [exact He | constructor].
Qed.

Variable DeepDiff : json -> json -> option string.
Variable set_order : list json -> list json.
Hypothesis set_order_valid : valid_order set_order.

Lemma keys_and_in {V W : Type} (a : pydict V) (b : pydict W) (k : json) :
  In k (keys_and set_order a b) -> In k (dict_keys a) /\ dict_mem k b = true.
Proof.
  unfold keys_and. intro H.
  apply (Permutation_in _ (set_order_valid _)) in H.
  now apply filter_In in H.
Qed.

Lemma custom_section_settings_returns (section_name section : json) :
  section_shaped section = true ->
  returns (custom_section_settings section_name section) (fun _ => True).
Proof.
  intro H. unfold custom_section_settings.
  eapply returns_bind; [apply section_settings_shaped, H|].
  intros entries He. cbv beta in He.
  eapply returns_bind; [|intros; now apply returns_ok].
  apply returns_mapM with (P := fun _ => True).
  intros setting Hin.
  assert (Hs : entry_shaped setting = true).
  { rewrite Forall_forall in He. now apply He. }
  pose proof (entry_is_dict _ Hs) as Hd.
  eapply returns_bind; [apply py_get_dict, Hd|]. intros id _.
  destruct (truthy id); [|now apply returns_ok].
  do 3 (eapply returns_bind; [apply py_get_dict, Hd|]; intros ? _).
  now apply returns_ok.
Qed.

Lemma custom_sections_loop_returns (v10_sections current_sections : pydict json) :
  sections_inv current_sections ->
  returns (custom_sections_loop v10_sections current_sections) (fun _ => True).
Proof.
  intro Hc. unfold custom_sections_loop.
  eapply returns_bind; [|intros; now apply returns_ok].
  apply returns_mapM with (P := fun _ => True).
  intros kv Hin.
  destruct (negb (dict_mem (fst kv) v10_sections)); [|now apply returns_ok].
  eapply returns_bind.
  - apply (dict_index_key _ _ _ Hc). unfold dict_keys. now apply in_map.
  - intros section Hs. cbv beta in Hs.
    eapply returns_bind; [now apply custom_section_settings_returns|].
    intros. now apply returns_ok.
Qed.

Lemma added_settings_returns (comparison : string)
    (describe : json -> json -> json -> fstring) (section_name : json)
    (base_settings compare_settings : pydict json) :
  settings_inv compare_settings ->
  returns (added_settings comparison describe section_name base_settings compare_settings)
          (fun _ => True).
Proof.
  intro Hc. unfold added_settings.
  eapply returns_bind; [|intros; now apply returns_ok].
  apply returns_mapM with (P := fun _ => True).
  intros [setting_id setting] Hin.
  assert (Hd : is_dict setting = true).
  { unfold settings_inv, dict_inv in Hc. rewrite Forall_forall in Hc.
    now destruct (Hc _ Hin). }
  destruct (negb (dict_mem setting_id base_settings)); [|now apply returns_ok].
  do 3 (eapply returns_bind; [apply py_get_dict, Hd|]; intros ? _).
  now apply returns_ok.
Qed.

Lemma modified_settings_returns (comparison : string)
    (describe : json -> json -> json -> fstring) (section_name : json)
    (base_settings compare_settings : pydict json) (labelled_is_compare : bool) :
  settings_inv base_settings ->
  settings_inv compare_settings ->
  returns (modified_settings DeepDiff set_order comparison describe section_name
             base_settings compare_settings
             (if labelled_is_compare then compare_settings else base_settings))
          (fun _ => True).
Proof.
  intros Hb Hc. unfold modified_settings.
  eapply returns_bind; [|intros; now apply returns_ok].
  apply returns_mapM with (P := fun _ => True).
  intros setting_id Hin. apply keys_and_in in Hin as [Hk Hm].
  eapply returns_bind; [apply (dict_index_key _ _ _ Hb Hk)|]. intros old _.
  eapply returns_bind; [apply (dict_index_mem _ _ _ Hc Hm)|]. intros new _.
  destruct (DeepDiff old new); [|now apply returns_ok].
  apply returns_bind with (P := fun s => is_dict s = true).
  - destruct labelled_is_compare;
      [apply (dict_index_mem _ _ _ Hc Hm) | apply (dict_index_key _ _ _ Hb Hk)].
  - intros shownin Hd. cbv beta in Hd.
    do 3 (eapply returns_bind; [apply py_get_dict, Hd|]; intros ? _).
    now apply returns_ok.
Qed.

Lemma common_sections_loop_returns (comparison : string)
    (describe_added describe_modified : json -> json -> json -> fstring)
    (labelled_is_compare : bool) (base_sections compare_sections : pydict json) :
  sections_inv base_sections ->
  sections_inv compare_sections ->
  returns (common_sections_loop DeepDiff set_order comparison describe_added
             describe_modified labelled_is_compare base_sections compare_sections)
          (fun _ => True).
Proof.
  intros Hb Hc. unfold common_sections_loop.
  eapply returns_bind; [|intros; now apply returns_ok].
  apply returns_mapM with (P := fun _ => True).
  intros section_name Hin. apply keys_and_in in Hin as [Hk Hm].
  unfold common_section.
  eapply returns_bind; [apply (dict_index_key _ _ _ Hb Hk)|].
  intros base_section Hbs. cbv beta in Hbs.
  eapply returns_bind; [apply (dict_index_mem _ _ _ Hc Hm)|].
  intros compare_section Hcs. cbv beta in Hcs.
  eapply returns_bind; [now apply settings_map_returns|]. intros base_settings Hbm.
  eapply returns_bind; [now apply settings_map_returns|]. intros compare_settings Hcm.
  eapply returns_bind; [now apply added_settings_returns|]. intros adds _.
  eapply returns_bind; [now apply modified_settings_returns|]. intros mods _.
  now apply returns_ok.
Qed.

(** The comparator returns a result on shaped snapshots. *)
Lemma analyze_settings_schema_returns (dawn_v10 current dawn_v15 : list json) :
  snapshot_shaped dawn_v10 = true ->
  snapshot_shaped current = true ->
  snapshot_shaped dawn_v15 = true ->
  exists r, analyze_settings_schema DeepDiff set_order dawn_v10 current dawn_v15 = Ok r.
Proof.
  unfold snapshot_shaped. rewrite !forallb_forall, <- !Forall_forall.
  intros H10 Hcur H15.
  cut (returns (analyze_settings_schema DeepDiff set_order dawn_v10 current dawn_v15)
               (fun _ => True)).
  { intros (r & Hr & _). now exists r. }
  unfold analyze_settings_schema.
  eapply returns_bind; [now apply find_theme_info_returns|]. intros t10 Ht10.
  eapply returns_bind; [now apply find_theme_info_returns|]. intros tcur Htcur.
  eapply returns_bind; [now apply find_theme_info_returns|]. intros t15 Ht15.
  cbv beta in *. unfold theme_version.
  eapply returns_bind; [apply py_get_dict, Ht10|]. intros ? _.
  eapply returns_bind; [apply py_get_dict, Htcur|]. intros ? _.
  eapply returns_bind; [apply py_get_dict, Ht15|]. intros ? _.
  eapply returns_bind; [apply sections_by_name_returns; [exact H10 | constructor]|].
  intros s10 Hs10.
  eapply returns_bind; [apply sections_by_name_returns; [exact Hcur | constructor]|].
  intros scur Hscur.
  eapply returns_bind; [apply sections_by_name_returns; [exact H15 | constructor]|].
  intros s15 Hs15.
  eapply returns_bind; [now apply custom_sections_loop_returns|]. intros ? _.
  eapply returns_bind; [now apply common_sections_loop_returns|]. intros ? _.
  eapply returns_bind; [now apply common_sections_loop_returns|]. intros ? _.
  eapply returns_bind; [now apply common_sections_loop_returns|]. intros ? _.
  now apply returns_ok.
Qed.

End SchemaTotal.

(** ** Entries without an id are skipped *)

Section Unidentified.
Import Py PyNotations AnalyzeAllJsonDiffs.


Lemma bind_fmap {A B C : Type} (c : result A) (g : A -> B) (k : B -> result C) :
  bind (match c with Ok a => Ok (g a) | Raise e => Raise e end) k
  = bind c (fun a => k (g a)).
Proof. now destruct c. Qed.

Lemma mapM_map {A B C : Type} (f : B -> result C) (g : A -> B) (l : list A) :
  mapM f (map g l) = mapM (fun x => f (g x)) l.
Proof. induction l as [|x l IH]; simpl; [reflexivity | now rewrite IH]. Qed.

Lemma mapM_ext {A B : Type} (f g : A -> result B) (l : list A) :
  (forall x, f x = g x) -> mapM f l = mapM g l.
Proof. intro H. induction l as [|x l IH]; simpl; [reflexivity | now rewrite IH, H]. Qed.

Lemma mapM_concat_filter {A B : Type} (f : A -> result (list B))
    (p : A -> bool) (l : list A) :
  (forall x, p x = false -> f x = Ok []) ->
  bind (mapM f (filter p l)) (fun rs => Ok (concat rs))
  = bind (mapM f l) (fun rs => Ok (concat rs)).
Proof.
  intro H. induction l as [|x l IH]; simpl; [reflexivity|].
  destruct (p x) eqn:E; simpl.
  - destruct (f x); simpl; [|reflexivity].
    destruct (mapM f (filter p l)), (mapM f l); simpl in *; congruence.
  - rewrite (H x E). simpl.
    destruct (mapM f (filter p l)), (mapM f l); simpl in *; congruence.
Qed.

Lemma lookup_without (d : list (string * json)) (key : string) :
  lookup key (map strip_settings d)
  = if String.eqb "settings" key
    then match lookup key d with
         | Some (JList entries) => Some (JList (filter has_id_key entries))
         | other => other
         end
    else lookup key d.
Proof.
  induction d as [|[k v] d IH]; cbn [map lookup].
  - now destruct (String.eqb "settings" key).
  - unfold strip_settings at 1. cbn [fst snd].
    destruct (String.eqb k "settings") eqn:Ek.
    + apply String.eqb_eq in Ek. subst k.
      destruct (String.eqb "settings" key) eqn:E.
      * destruct v; cbn [lookup]; rewrite E; reflexivity.
      * destruct v; cbn [lookup]; rewrite E; exact IH.
    + cbn [lookup]. destruct (String.eqb k key) eqn:E; [|exact IH].
      apply String.eqb_eq in E. subst k.
      rewrite String.eqb_sym, Ek. reflexivity.
Qed.

Lemma py_get_without (item : json) (key : string) (default : json) :
  String.eqb key "settings" = false ->
  py_get (without_unidentified item) key default = py_get item key default.
Proof.
  intro H. destruct item; try reflexivity. simpl.
  now rewrite lookup_without, String.eqb_sym, H.
Qed.

Lemma filter_keep_strings {A : Type} (f : A -> string) (l : list A) :
  filter has_id_key (map (fun x => JStr (f x)) l) = map (fun x => JStr (f x)) l.
Proof. induction l as [|x l IH]; simpl; [reflexivity | now rewrite IH]. Qed.

Lemma settings_of_without (section : json) :
  settings_of (without_unidentified section)
  = match settings_of section with
    | Ok entries => Ok (filter has_id_key entries)
    | Raise e => Raise e
    end.
Proof.
  destruct section; try reflexivity.
  unfold settings_of. simpl. rewrite lookup_without. simpl.
  destruct (lookup "settings" d) as [[| | |s|entries|d']|]; simpl; try reflexivity.
  - now rewrite (filter_keep_strings (fun c => String c EmptyString)).
  - now rewrite (filter_keep_strings (fun kv : string * json => fst kv)).
Qed.

Lemma lacks_id_skipped (s : json) :
  has_id_key s = false -> py_get s "id" JNull = Ok JNull.
Proof.
  unfold has_id_key. destruct s; simpl; try discriminate.
  now destruct (lookup "id" d).
Qed.

Lemma settings_by_id_filter (entries : list json) (d : pydict json) :
  settings_by_id (filter has_id_key entries) d = settings_by_id entries d.
Proof.
  revert d. induction entries as [|s rest IH]; intro d; simpl; [reflexivity|].
  destruct (has_id_key s) eqn:E; simpl.
  - destruct (py_get s "id" JNull) as [id|]; simpl; [|reflexivity].
    destruct (truthy id); [destruct (hashable id)|]; auto.
  - rewrite (lacks_id_skipped s E). simpl. apply IH.
Qed.

Lemma settings_map_without (section : json) :
  settings_map (without_unidentified section) = settings_map section.
Proof.
  unfold settings_map. rewrite settings_of_without.
  destruct (settings_of section); simpl; [apply settings_by_id_filter | reflexivity].
Qed.

Lemma custom_section_settings_without (section_name section : json) :
  custom_section_settings section_name (without_unidentified section)
  = custom_section_settings section_name section.
Proof.
  unfold custom_section_settings. rewrite settings_of_without.
  destruct (settings_of section) as [entries|]; simpl; [|reflexivity].
  apply mapM_concat_filter.
  intros s E. now rewrite (lacks_id_skipped s E).
Qed.

Lemma find_theme_info_without (snapshot : list json) :
  find_theme_info (map without_unidentified snapshot)
  = match find_theme_info snapshot with
    | Ok t => Ok (without_unidentified t)
    | Raise e => Raise e
    end.
Proof.
  induction snapshot as [|item rest IH]; simpl; [reflexivity|].
  rewrite py_get_without by reflexivity.
  destruct (py_get item "name" JNull) as [name|]; simpl; [|reflexivity].
  destruct (py_eq name (JStr "theme_info")); [reflexivity | exact IH].
Qed.

Lemma dict_put_map {V W : Type} (f : V -> W) (d : pydict V) (k : json) (v : V) :
  dict_put (dict_map f d) k (f v) = dict_map f (dict_put d k v).
Proof.
  induction d as [|[k' v'] d IH]; simpl; [reflexivity|].
  destruct (py_eq k' k); simpl; [reflexivity | now rewrite IH].
Qed.

Lemma dict_get_map {V W : Type} (f : V -> W) (d : pydict V) (k : json) :
  dict_get (dict_map f d) k = option_map f (dict_get d k).
Proof.
  induction d as [|[k' v'] d IH]; simpl; [reflexivity|].
  destruct (py_eq k' k); [reflexivity | exact IH].
Qed.

Lemma dict_mem_map {V W : Type} (f : V -> W) (d : pydict V) (k : json) :
  dict_mem k (dict_map f d) = dict_mem k d.
Proof. unfold dict_mem. rewrite dict_get_map. now destruct (dict_get d k). Qed.

Lemma dict_keys_map {V W : Type} (f : V -> W) (d : pydict V) :
  dict_keys (dict_map f d) = dict_keys d.
Proof. unfold dict_keys, dict_map. rewrite map_map. reflexivity. Qed.

Lemma dict_index_map {V W : Type} (f : V -> W) (d : pydict V) (k : json) :
  dict_index (dict_map f d) k
  = match dict_index d k with
    | Ok v => Ok (f v)
    | Raise e => Raise e
    end.
Proof. unfold dict_index. rewrite dict_get_map. now destruct (dict_get d k). Qed.

Lemma sections_by_name_without (snapshot : list json) (d : pydict json) :
  sections_by_name (map without_unidentified snapshot) (dict_map without_unidentified d)
  = match sections_by_name snapshot d with
    | Ok d' => Ok (dict_map without_unidentified d')
    | Raise e => Raise e
    end.
Proof.
  revert d. induction snapshot as [|item rest IH]; intro d; simpl; [reflexivity|].
  rewrite py_get_without by reflexivity.
  destruct (py_get item "name" JNull) as [name|]; simpl; [|reflexivity].
  destruct (negb (py_eq name (JStr "theme_info"))); [|apply IH].
  destruct (hashable name); [|reflexivity].
  rewrite dict_put_map. apply IH.
Qed.

Variable DeepDiff : json -> json -> option string.
Variable set_order : list json -> list json.

Lemma keys_and_map {V W : Type} (f : V -> V) (g : W -> W) (a : pydict V) (b : pydict W) :
  keys_and set_order (dict_map f a) (dict_map g b) = keys_and set_order a b.
Proof.
  unfold keys_and. rewrite dict_keys_map. f_equal.
  apply filter_ext. intro k. apply dict_mem_map.
Qed.

Lemma custom_sections_loop_without (v10_sections current_sections : pydict json) :
  custom_sections_loop (dict_map without_unidentified v10_sections) (dict_map without_unidentified current_sections)
  = custom_sections_loop v10_sections current_sections.
Proof.
  unfold custom_sections_loop. f_equal.
  unfold dict_map at 3. rewrite mapM_map. apply mapM_ext.
  intros [name section]. cbn [fst snd].
  rewrite dict_mem_map, dict_index_map, bind_fmap.
  destruct (negb (dict_mem name v10_sections)); [|reflexivity].
  destruct (dict_index current_sections name); simpl; [|reflexivity].
  now rewrite custom_section_settings_without.
Qed.

Lemma common_sections_loop_without (comparison : string)
    (describe_added describe_modified : json -> json -> json -> fstring)
    (labelled_is_compare : bool) (base_sections compare_sections : pydict json) :
  common_sections_loop DeepDiff set_order comparison describe_added describe_modified
    labelled_is_compare (dict_map without_unidentified base_sections) (dict_map without_unidentified compare_sections)
  = common_sections_loop DeepDiff set_order comparison describe_added describe_modified
      labelled_is_compare base_sections compare_sections.
Proof.
  unfold common_sections_loop. rewrite keys_and_map. f_equal.
  apply mapM_ext. intro section_name. unfold common_section.
  rewrite !dict_index_map, !bind_fmap.
  destruct (dict_index base_sections section_name); simpl; [|reflexivity].
  rewrite bind_fmap.
  destruct (dict_index compare_sections section_name); simpl; [|reflexivity].
  now rewrite !settings_map_without.
Qed.

Lemma added_sections_without (comparison : string) (describe : json -> fstring)
    (base_sections compare_sections : pydict json) :
  added_sections comparison describe (dict_map without_unidentified base_sections)
                 (dict_map without_unidentified compare_sections)
  = added_sections comparison describe base_sections compare_sections.
Proof.
  unfold added_sections. rewrite dict_keys_map. f_equal.
  apply map_ext. intro k. now rewrite dict_mem_map.
Qed.

(** Removing the entries that lack an id from every section changes
    neither the result nor the exception of the comparator. *)
Lemma analyze_settings_schema_without (dawn_v10 current dawn_v15 : list json) :
  analyze_settings_schema DeepDiff set_order
    (map without_unidentified dawn_v10) (map without_unidentified current) (map without_unidentified dawn_v15)
  = analyze_settings_schema DeepDiff set_order dawn_v10 current dawn_v15.
Proof.
  unfold analyze_settings_schema.
  rewrite !find_theme_info_without, !bind_fmap.
  destruct (find_theme_info dawn_v10) as [t10|]; simpl; [|reflexivity].
  rewrite bind_fmap.
  destruct (find_theme_info current) as [tcur|]; simpl; [|reflexivity].
  rewrite bind_fmap.
  destruct (find_theme_info dawn_v15) as [t15|]; simpl; [|reflexivity].
  unfold theme_version. rewrite !py_get_without by reflexivity.
  destruct (py_get t10 "theme_version" JNull) as [v10|]; simpl; [|reflexivity].
  destruct (py_get tcur "theme_version" JNull) as [vcur|]; simpl; [|reflexivity].
  destruct (py_get t15 "theme_version" JNull) as [v15|]; simpl; [|reflexivity].
  pose proof (sections_by_name_without dawn_v10 []) as E10.
  pose proof (sections_by_name_without current []) as Ecur.
  pose proof (sections_by_name_without dawn_v15 []) as E15.
  change (dict_map without_unidentified []) with (@nil (json * json)) in E10, Ecur, E15.
  rewrite E10, bind_fmap.
  destruct (sections_by_name dawn_v10 []) as [s10|]; simpl; [|reflexivity].
  rewrite Ecur, bind_fmap.
  destruct (sections_by_name current []) as [scur|]; simpl; [|reflexivity].
  rewrite E15, bind_fmap.
  destruct (sections_by_name dawn_v15 []) as [s15|]; simpl; [|reflexivity].
  now rewrite custom_sections_loop_without, !common_sections_loop_without,
    !added_sections_without.
Qed.

End Unidentified.

(** ** The order of set iteration *)

Section SetOrder.
Import Py PyNotations AnalyzeAllJsonDiffs.

Lemma mapM_cons_ok {A B : Type} (f : A -> result B) (x : A) (l : list A) (ys : list B) :
  mapM f (x :: l) = Ok ys ->
  exists y ys0, f x = Ok y /\ mapM f l = Ok ys0 /\ ys = y :: ys0.
Proof.
  simpl. destruct (f x) as [y|]; simpl; [|discriminate].
  destruct (mapM f l) as [ys0|]; simpl; [|discriminate].
  intro H. injection H as <-. now exists y, ys0.
Qed.

Lemma mapM_cons_intro {A B : Type} (f : A -> result B) (x : A) (l : list A)
    (y : B) (ys : list B) :
  f x = Ok y -> mapM f l = Ok ys -> mapM f (x :: l) = Ok (y :: ys).
Proof. intros H1 H2. simpl. now rewrite H1, H2. Qed.

(** A loop over a reordered list collects the same values, reordered, and
    raises whenever the loop over the original list does. *)
Lemma mapM_permutation {A B : Type} (f : A -> result B) (l l' : list A) :
  Permutation l l' ->
  forall ys, mapM f l = Ok ys ->
  exists ys', mapM f l' = Ok ys' /\ Permutation ys ys'.
Proof.
  induction 1 as [|x l l' HP IH|x y l|l l' l'' HP1 IH1 HP2 IH2]; intros ys H.
  - exists ys. split; [exact H | apply Permutation_refl].
  - apply mapM_cons_ok in H as (y & ys0 & Hy & H0 & ->).
    destruct (IH _ H0) as (ys0' & H0' & P).
    exists (y :: ys0'). split; [now apply mapM_cons_intro | now constructor].
  - apply mapM_cons_ok in H as (b & ys1 & Hb & H1 & ->).
    apply mapM_cons_ok in H1 as (a & ys0 & Ha & H0 & ->).
    exists (a :: b :: ys0). split.
    + apply mapM_cons_intro; [exact Ha | now apply mapM_cons_intro].
    + apply perm_swap.
  - destruct (IH1 _ H) as (ys' & H' & P1).
    destruct (IH2 _ H') as (ys'' & H'' & P2).
    exists ys''. split; [exact H'' | now apply Permutation_trans with ys'].
Qed.

Lemma mapM_related {A B : Type} (R : B -> B -> Prop) (f g : A -> result B) (l : list A) :
  (forall x y, f x = Ok y -> exists y', g x = Ok y' /\ R y y') ->
  forall ys, mapM f l = Ok ys ->
  exists ys', mapM g l = Ok ys' /\ Forall2 R ys ys'.
Proof.
  intro H. induction l as [|x l IH]; intros ys Hys.
  - simpl in Hys. injection Hys as <-. exists []. split; [reflexivity | constructor].
  - apply mapM_cons_ok in Hys as (y & ys0 & Hy & H0 & ->).
    destruct (H _ _ Hy) as (y' & Hy' & Ry).
    destruct (IH _ H0) as (ys0' & H0' & F).
    exists (y' :: ys0'). split; [now apply mapM_cons_intro | now constructor].
Qed.

Lemma concat_permutation {A : Type} (l l' : list (list A)) :
  Permutation l l' -> Permutation (concat l) (concat l').
Proof.
  induction 1 as [|x l l' HP IH|x y l|l l' l'' HP1 IH1 HP2 IH2]; simpl.
  - apply Permutation_refl.
  - now apply Permutation_app_head.
  - rewrite !app_assoc. apply Permutation_app_tail, Permutation_app_comm.
  - now apply Permutation_trans with (concat l').
Qed.

Lemma concat_related {A : Type} (l l' : list (list A)) :
  Forall2 (@Permutation A) l l' -> Permutation (concat l) (concat l').
Proof.
  induction 1 as [|x x' l l' Hx HF IH]; simpl.
  - apply Permutation_refl.
  - now apply Permutation_app.
Qed.

Variable DeepDiff : json -> json -> option string.
Variables order1 order2 : list json -> list json.
Hypothesis valid1 : valid_order order1.
Hypothesis valid2 : valid_order order2.

Lemma keys_and_permutation {V W : Type} (a : pydict V) (b : pydict W) :
  Permutation (keys_and order1 a b) (keys_and order2 a b).
Proof.
  unfold keys_and.
  eapply Permutation_trans; [apply valid1 | apply Permutation_sym, valid2].
Qed.

Lemma bind_ok {A B : Type} (c : result A) (k : A -> result B) (b : B) :
  bind c k = Ok b -> exists a, c = Ok a /\ k a = Ok b.
Proof. destruct c as [a|]; simpl; [now exists a | discriminate]. Qed.

Lemma modified_settings_permutation (comparison : string)
    (describe : json -> json -> json -> fstring) (section_name : json)
    (base_settings compare_settings labelled : pydict json) (mods : list change_record) :
  modified_settings DeepDiff order1 comparison describe section_name
    base_settings compare_settings labelled = Ok mods ->
  exists mods',
    modified_settings DeepDiff order2 comparison describe section_name
      base_settings compare_settings labelled = Ok mods'
    /\ Permutation mods mods'.
Proof.
  unfold modified_settings. intro H.
  apply bind_ok in H as (rs & Hrs & Hm). injection Hm as <-.
  destruct (mapM_permutation _ _ _ (keys_and_permutation base_settings compare_settings)
              _ Hrs) as (rs' & Hrs' & P).
  exists (concat rs'). rewrite Hrs'. split; [reflexivity | now apply concat_permutation].
Qed.

Lemma common_section_permutation (comparison : string)
    (describe_added describe_modified : json -> json -> json -> fstring)
    (labelled_is_compare : bool) (base_sections compare_sections : pydict json)
    (section_name : json) (y : list change_record * list change_record) :
  common_section DeepDiff order1 comparison describe_added describe_modified
    labelled_is_compare base_sections compare_sections section_name = Ok y ->
  exists y',
    common_section DeepDiff order2 comparison describe_added describe_modified
      labelled_is_compare base_sections compare_sections section_name = Ok y'
    /\ fst y = fst y' /\ Permutation (snd y) (snd y').
Proof.
  unfold common_section. intro H.
  apply bind_ok in H as (base_section & E1 & H).
  apply bind_ok in H as (compare_section & E2 & H).
  apply bind_ok in H as (base_settings & E3 & H).
  apply bind_ok in H as (compare_settings & E4 & H).
  apply bind_ok in H as (adds & E5 & H).
  apply bind_ok in H as (mods & Hm & H). injection H as <-.
  apply modified_settings_permutation in Hm as (mods' & Hm' & P).
  exists (adds, mods').
  rewrite E1; cbn [bind]. rewrite E2; cbn [bind]. rewrite E3; cbn [bind].
  rewrite E4; cbn [bind]. rewrite E5; cbn [bind]. rewrite Hm'; cbn [bind].
  simpl. auto.
Qed.

Lemma concat_fst_related {A B : Type} (l l' : list (list A * list B)) :
  Forall2 (fun y y' => fst y = fst y' /\ Permutation (snd y) (snd y')) l l' ->
  concat (map fst l) = concat (map fst l')
  /\ Permutation (concat (map snd l)) (concat (map snd l')).
Proof.
  induction 1 as [|x x' l l' [Hf Hs] HF [IH1 IH2]]; simpl.
  - split; [reflexivity | apply Permutation_refl].
  - split; [now rewrite Hf, IH1 | now apply Permutation_app].
Qed.

Lemma common_sections_loop_permutation (comparison : string)
    (describe_added describe_modified : json -> json -> json -> fstring)
    (labelled_is_compare : bool) (base_sections compare_sections : pydict json)
    (y : list change_record * list change_record) :
  common_sections_loop DeepDiff order1 comparison describe_added describe_modified
    labelled_is_compare base_sections compare_sections = Ok y ->
  exists y',
    common_sections_loop DeepDiff order2 comparison describe_added describe_modified
      labelled_is_compare base_sections compare_sections = Ok y'
    /\ Permutation (fst y) (fst y') /\ Permutation (snd y) (snd y').
Proof.
  unfold common_sections_loop. intro H.
  apply bind_ok in H as (rs & Hrs & H). injection H as <-.
  destruct (mapM_related _ _ _ _
              (common_section_permutation comparison describe_added describe_modified
                 labelled_is_compare base_sections compare_sections) _ Hrs)
    as (rs1 & Hrs1 & F).
  destruct (mapM_permutation _ _ _ (keys_and_permutation base_sections compare_sections)
              _ Hrs1) as (rs2 & Hrs2 & P).
  exists (concat_pairs rs2). rewrite Hrs2. split; [reflexivity|].
  destruct (concat_fst_related _ _ F) as [E1 P1].
  unfold concat_pairs; simpl. split.
  - rewrite E1. apply concat_permutation. now apply Permutation_map.
  - eapply Permutation_trans; [exact P1|].
    apply concat_permutation. now apply Permutation_map.
Qed.

(** Two runs with different set orders: the second returns when the first
    does, with the same records. *)
Lemma analyze_settings_schema_orders (dawn_v10 current dawn_v15 : list json)
    (r1 : schema_result) :
  analyze_settings_schema DeepDiff order1 dawn_v10 current dawn_v15 = Ok r1 ->
  exists r2,
    analyze_settings_schema DeepDiff order2 dawn_v10 current dawn_v15 = Ok r2
    /\ same_records r1 r2.
Proof.
  unfold analyze_settings_schema. intro H.
  apply bind_ok in H as (t10 & E1 & H).
  apply bind_ok in H as (tcur & E2 & H).
  apply bind_ok in H as (t15 & E3 & H).
  apply bind_ok in H as (v10 & E4 & H).
  apply bind_ok in H as (vcur & E5 & H).
  apply bind_ok in H as (v15 & E6 & H).
  apply bind_ok in H as (s10 & E7 & H).
  apply bind_ok in H as (scur & E8 & H).
  apply bind_ok in H as (s15 & E9 & H).
  apply bind_ok in H as (new1 & E10 & H).
  apply bind_ok in H as (c1 & H1 & H).
  apply bind_ok in H as (c2 & H2 & H).
  apply bind_ok in H as (c3 & H3 & H).
  injection H as <-.
  apply common_sections_loop_permutation in H1 as (c1' & H1 & A1 & M1).
  apply common_sections_loop_permutation in H2 as (c2' & H2 & A2 & M2).
  apply common_sections_loop_permutation in H3 as (c3' & H3 & A3 & M3).
  rewrite E1; cbn [bind]. rewrite E2; cbn [bind]. rewrite E3; cbn [bind].
  rewrite E4; cbn [bind]. rewrite E5; cbn [bind]. rewrite E6; cbn [bind].
  rewrite E7; cbn [bind]. rewrite E8; cbn [bind]. rewrite E9; cbn [bind].
  rewrite E10; cbn [bind]. rewrite H1; cbn [bind]. rewrite H2; cbn [bind].
  rewrite H3; cbn [bind].
  eexists. split; [reflexivity|].
  unfold same_records; simpl.
  repeat split; auto; now apply Permutation_app_head.
Qed.

End SetOrder.

(** ** New sections in comparison 1 *)

Section FirstPair.
Import Py PyNotations AnalyzeAllJsonDiffs.

Lemma mapM_in {A B : Type} (f : A -> result B) (l : list A) (ys : list B) (x : A) :
  mapM f l = Ok ys -> In x l -> exists y, f x = Ok y /\ In y ys.
Proof.
  revert ys. induction l as [|a l IH]; intros ys H Hin; [contradiction|].
  apply mapM_cons_ok in H as (y & ys0 & Hy & H0 & ->).
  destruct Hin as [->|Hin].
  - exists y. split; [exact Hy | now left].
  - destruct (IH _ H0 Hin) as (z & Hz & Hzin). exists z. split; [exact Hz | now right].
Qed.

(** Lines 84-93 report every entry of the section that has a truthy id. *)
Lemma custom_section_settings_reports (section_name section : json)
    (adds : list change_record) (entries : list json) (entry id : json) :
  custom_section_settings section_name section = Ok adds ->
  settings_of section = Ok entries ->
  In entry entries ->
  py_get entry "id" JNull = Ok id ->
  truthy id = true ->
  exists r, In r adds /\ record_id r = id.
Proof.
  unfold custom_section_settings. intros H Hs Hin Hid Ht.
  rewrite Hs in H. cbn [bind] in H.
  apply bind_ok in H as (rs & Hrs & H). injection H as <-.
  destruct (mapM_in _ _ _ _ Hrs Hin) as (y & Hy & Hyin).
  rewrite Hid in Hy. cbn [bind] in Hy. rewrite Ht in Hy.
  apply bind_ok in Hy as (ty & _ & Hy).
  apply bind_ok in Hy as (label & _ & Hy).
  apply bind_ok in Hy as (shown & _ & Hy).
  injection Hy as <-.
  eexists. split.
  - apply in_concat. eexists. split; [exact Hyin | now left].
  - reflexivity.
Qed.

(** Lines 77-93: a section of the custom snapshot that the old upstream
    lacks is reported as a custom section, and each of its entries with a
    truthy id as a custom addition. *)
Lemma custom_sections_loop_reports (v10_sections current_sections : pydict json)
    (y : list change_record * list change_record) (section_name : json) :
  custom_sections_loop v10_sections current_sections = Ok y ->
  In section_name (dict_keys current_sections) ->
  dict_mem section_name v10_sections = false ->
  In (SectionRecord section_name "v10_upstream_vs_v10_custom"
        [Lit "Custom section: "; Val section_name]) (fst y)
  /\ exists section entries,
       dict_index current_sections section_name = Ok section
       /\ settings_of section = Ok entries
       /\ forall entry id,
            In entry entries ->
            py_get entry "id" JNull = Ok id ->
            truthy id = true ->
            exists r, In r (snd y) /\ record_id r = id.
Proof.
  unfold custom_sections_loop. intros H Hin Hm.
  apply bind_ok in H as (rs & Hrs & H). injection H as <-.
  unfold dict_keys in Hin. apply in_map_iff in Hin as ([name item] & Hn & Hin).
  simpl in Hn. subst name.
  destruct (mapM_in _ _ _ _ Hrs Hin) as (z & Hz & Hzin).
  cbn [fst] in Hz. rewrite Hm in Hz. cbn [negb] in Hz.
  apply bind_ok in Hz as (section & Hsec & Hz).
  apply bind_ok in Hz as (adds & Hadds & Hz). injection Hz as <-.
  unfold concat_pairs. cbn [fst snd]. split.
  - apply in_concat. eexists. split; [apply in_map, Hzin | now left].
  - assert (Hs : exists entries, settings_of section = Ok entries).
    { unfold custom_section_settings in Hadds.
      apply bind_ok in Hadds as (entries & He & _). now exists entries. }
    destruct Hs as [entries He].
    exists section, entries. repeat split; auto.
    intros entry id Hein Hid Ht.
    destruct (custom_section_settings_reports _ _ _ _ _ _ Hadds He Hein Hid Ht)
      as (r & Hr & Hrid).
    exists r. split; [|exact Hrid].
    apply in_concat. eexists. split; [apply (in_map snd), Hzin | exact Hr].
Qed.

Variable DeepDiff : json -> json -> option string.
Variable set_order : list json -> list json.

(** Comparison 1 of [analyze_settings_schema] reports every section that
    is new in the custom snapshot, and every entry of it that has a truthy
    id, whatever the snapshots. *)
Lemma first_pair_reports_new_sections (dawn_v10 current dawn_v15 : list json)
    (r : schema_result) :
  analyze_settings_schema DeepDiff set_order dawn_v10 current dawn_v15 = Ok r ->
  exists v10_sections current_sections,
    sections_by_name dawn_v10 [] = Ok v10_sections
    /\ sections_by_name current [] = Ok current_sections
    /\ forall section_name,
         In section_name (dict_keys current_sections) ->
         dict_mem section_name v10_sections = false ->
         In (SectionRecord section_name "v10_upstream_vs_v10_custom"
               [Lit "Custom section: "; Val section_name]) (custom_sections r)
         /\ exists section entries,
              dict_index current_sections section_name = Ok section
              /\ settings_of section = Ok entries
              /\ forall entry id,
                   In entry entries ->
                   py_get entry "id" JNull = Ok id ->
                   truthy id = true ->
                   exists c, In c (custom_additions r) /\ record_id c = id.
Proof.
  unfold analyze_settings_schema. intro H.
  apply bind_ok in H as (t10 & _ & H).
  apply bind_ok in H as (tcur & _ & H).
  apply bind_ok in H as (t15 & _ & H).
  apply bind_ok in H as (v10 & _ & H).
  apply bind_ok in H as (vcur & _ & H).
  apply bind_ok in H as (v15 & _ & H).
  apply bind_ok in H as (s10 & E10 & H).
  apply bind_ok in H as (scur & Ecur & H).
  apply bind_ok in H as (s15 & _ & H).
  apply bind_ok in H as (new1 & Hnew & H).
  apply bind_ok in H as (c1 & _ & H).
  apply bind_ok in H as (c2 & _ & H).
  apply bind_ok in H as (c3 & _ & H).
  injection H as <-.
  exists s10, scur. repeat split; auto; cbn [custom_sections custom_additions].
  - now apply (custom_sections_loop_reports _ _ _ _ Hnew).
  - destruct (custom_sections_loop_reports _ _ _ _ Hnew H H0)
      as (_ & section & entries & Hs & He & Hr).
    exists section, entries. repeat split; auto.
    intros entry id Hin Hid Ht.
    destruct (Hr entry id Hin Hid Ht) as (c & Hc & Hcid).
    exists c. split; [apply in_or_app; now left | exact Hcid].
Qed.

End FirstPair.

(** ** Claims about analyze_settings_schema *)

Section SchemaClaims.
Import Py PyNotations AnalyzeAllJsonDiffs.

Lemma identity_order_valid : valid_order (fun l => l).
Proof. intro l. apply Permutation_refl. Qed.

Lemma reverse_order_valid : valid_order (@rev json).
Proof. intro l. apply Permutation_sym, Permutation_rev. Qed.

Lemma valid_order_nil (set_order : list json -> list json) :
  valid_order set_order -> set_order [] = [].
Proof. intro V. apply Permutation_nil, Permutation_sym, V. Qed.

(** C1, at a section that only one snapshot has.  When the section is new
    in the custom snapshot, comparison 1 reports the section and its
    setting.  When it is new in the new upstream, comparisons 2 and 3 report
    the section alone: their result has no record for the setting [bg]. *)
Theorem new_section_entries_in_first_pair_only
    (DeepDiff : json -> json -> option string) (set_order : list json -> list json) :
  valid_order set_order ->
  let colors :=
    JDict [("name", JStr "colors");
           ("settings",
            JList [JDict [("id", JStr "bg"); ("type", JStr "color");
                          ("label", JStr "Background")]])] in
  (exists r,
     analyze_settings_schema DeepDiff set_order [] [colors] [] = Ok r
     /\ custom_sections r
        = [SectionRecord (JStr "colors") "v10_upstream_vs_v10_custom"
             [Lit "Custom section: "; Val (JStr "colors")]]
     /\ custom_additions r
        = [SettingRecord (JStr "bg") (JStr "colors") "v10_upstream_vs_v10_custom"
             (JStr "color") (JStr "Background") None
             [Lit "Custom setting in "; Val (JStr "colors"); Lit ": ";
              Val (JStr "Background")]])
  /\ (exists r,
        analyze_settings_schema DeepDiff set_order [] [] [colors] = Ok r
        /\ dawn_additions r
           = [SectionRecord (JStr "colors") "v10_upstream_vs_v15_upstream"
                [Lit "Dawn 15.4.0 added section: "; Val (JStr "colors")]]
        /\ conflict_additions r
           = [SectionRecord (JStr "colors") "v10_custom_vs_v15_upstream"
                [Lit "Conflict: Dawn 15.4.0 has section "; Val (JStr "colors");
                 Lit " that we don't have"]]).
Proof.
  intros V colors. pose proof (valid_order_nil _ V) as E.
  split; eexists;
    unfold analyze_settings_schema, common_sections_loop, keys_and; simpl;
    rewrite E; simpl; repeat split.
Qed.

Lemma new_section_entries_in_first_pair_only_witness :
  exists r,
    analyze_settings_schema unused_diff (fun l => l) []
      [] [JDict [("name", JStr "colors");
                 ("settings",
                  JList [JDict [("id", JStr "bg"); ("type", JStr "color");
                                ("label", JStr "Background")]])]] = Ok r
    /\ map record_id (dawn_additions r) = [JStr "colors"]
    /\ map record_id (conflict_additions r) = [JStr "colors"].
Proof.
  destruct (new_section_entries_in_first_pair_only unused_diff (fun l => l)
              identity_order_valid) as (_ & r & H & D & C).
  exists r. rewrite D, C. repeat split. exact H.
Defined.

(** C6, as the code has it.  On snapshots whose items are objects with a
    name that can be a dictionary key and a list of setting objects whose
    truthy ids can be dictionary keys, the comparator returns a result, and
    it returns the same result once every entry without an id is removed:
    such entries produce no record. *)
Theorem schema_comparator_on_shaped_snapshots
    (DeepDiff : json -> json -> option string) (set_order : list json -> list json)
    (dawn_v10 current dawn_v15 : list json) :
  valid_order set_order ->
  snapshot_shaped dawn_v10 = true ->
  snapshot_shaped current = true ->
  snapshot_shaped dawn_v15 = true ->
  exists r,
    analyze_settings_schema DeepDiff set_order dawn_v10 current dawn_v15 = Ok r
    /\ analyze_settings_schema DeepDiff set_order
         (map without_unidentified dawn_v10) (map without_unidentified current)
         (map without_unidentified dawn_v15) = Ok r.
Proof.
  intros V H10 Hcur H15.
  destruct (analyze_settings_schema_returns DeepDiff set_order V _ _ _ H10 Hcur H15)
    as [r Hr].
  exists r. split; [exact Hr|].
  now rewrite analyze_settings_schema_without.
Qed.

Lemma schema_comparator_on_shaped_snapshots_witness :
  exists r,
    analyze_settings_schema unused_diff (fun l => l) []
      [JDict [("name", JStr "colors");
              ("settings", JList [JDict [("id", JStr "bg")];
                                  JDict [("label", JStr "Spacing")]])]] [] = Ok r
    /\ map record_id (custom_additions r) = [JStr "bg"].
Proof.
  destruct (schema_comparator_on_shaped_snapshots unused_diff (fun l => l) []
              [JDict [("name", JStr "colors");
                      ("settings", JList [JDict [("id", JStr "bg")];
                                          JDict [("label", JStr "Spacing")]])]] []
              identity_order_valid eq_refl eq_refl eq_refl) as (r & H & _).
  exists r. split; [exact H|].
  vm_compute in H. injection H as <-. reflexivity.
Defined.

(** C6, as stated, fails on a list of objects: a section whose name is a
    list cannot be a dictionary key and the comparator raises; and a section
    without a name is not skipped, it is reported under the name [null]
    with its settings. *)
Lemma schema_comparator_counterexample :
  analyze_settings_schema unused_diff (fun l => l)
    [JDict [("name", JList [JStr "colors"])]] [] [] = Raise TypeError
  /\ exists r,
       analyze_settings_schema unused_diff (fun l => l) []
         [JDict [("settings", JList [JDict [("id", JStr "bg")]])]] [] = Ok r
       /\ map record_id (custom_sections r) = [JNull]
       /\ map record_id (custom_additions r) = [JStr "bg"].
Proof. split; [reflexivity|]. eexists. repeat split. Qed.

(** C8, as the code has it.  For the same twelve documents, a run under
    another order of set iteration returns whenever the first run does.  The
    results for the settings data and the two locale documents are equal;
    in the result for the settings schema the lists of whole sections, the
    theme version changes and the removal lists are equal, and every list
    of setting records holds the same records, in an order that follows the
    iteration of the sets. *)
Theorem comparator_output_up_to_set_order
    (DeepDiff : json -> json -> option string)
    (order1 order2 : list json -> list json)
    (v10_settings current_settings v15_settings : list json)
    (v10_locale current_locale v15_locale : document)
    (v10_locale_schema current_locale_schema v15_locale_schema : document)
    (v10_settings_data current_settings_data v15_settings_data : document)
    (r1 : analysis) :
  valid_order order1 ->
  valid_order order2 ->
  main DeepDiff order1 v10_settings current_settings v15_settings
    v10_locale current_locale v15_locale
    v10_locale_schema current_locale_schema v15_locale_schema
    v10_settings_data current_settings_data v15_settings_data = Ok r1 ->
  exists r2,
    main DeepDiff order2 v10_settings current_settings v15_settings
      v10_locale current_locale v15_locale
      v10_locale_schema current_locale_schema v15_locale_schema
      v10_settings_data current_settings_data v15_settings_data = Ok r2
    /\ same_records (settings_schema r1) (settings_schema r2)
    /\ settings_data r1 = settings_data r2
    /\ locale_en r1 = locale_en r2
    /\ locale_en_schema r1 = locale_en_schema r2.
Proof.
  intros V1 V2 H. unfold main in *.
  apply bind_ok in H as (s1 & Hs & H). injection H as <-.
  destruct (analyze_settings_schema_orders DeepDiff order1 order2 V1 V2 _ _ _ _ Hs)
    as (s2 & Hs2 & S).
  rewrite Hs2. cbn [bind]. eexists. split; [reflexivity|].
  simpl. auto.
Qed.

Lemma comparator_output_up_to_set_order_witness :
  exists r2,
    main unused_diff (@rev json)
      [section_of "colors" []; section_of "layout" []]
      [section_of "colors" ["bg"]; section_of "layout" ["width"]] []
      [] [("custom_title", JStr "Title")] [] [] [] [] [] [] [] = Ok r2
    /\ Permutation [JStr "bg"; JStr "width"]
         (map record_id (custom_additions (settings_schema r2)))
    /\ map record_key (flat_custom_additions (locale_en r2)) = ["custom_title"].
Proof.
  destruct (analyze_settings_schema_returns unused_diff (fun l => l)
              identity_order_valid
              [section_of "colors" []; section_of "layout" []]
              [section_of "colors" ["bg"]; section_of "layout" ["width"]] []
              eq_refl eq_refl eq_refl) as [s1 H1].
  destruct (comparator_output_up_to_set_order unused_diff (fun l => l) (@rev json)
              [section_of "colors" []; section_of "layout" []]
              [section_of "colors" ["bg"]; section_of "layout" ["width"]] []
              [] [("custom_title", JStr "Title")] [] [] [] [] [] [] []
              (mkAnalysis s1
                 (analyze_settings_data [] [] [])
                 (analyze_locale [] [("custom_title", JStr "Title")] [])
                 (analyze_locale [] [] []))
              identity_order_valid reverse_order_valid)
    as (r2 & H2 & S & _ & L & _).
  - unfold main. now rewrite H1.
  - exists r2. split; [exact H2|]. split.
    + destruct S as (_ & _ & _ & _ & _ & P & _).
      vm_compute in H1. injection H1 as <-.
      apply (Permutation_map record_id) in P. exact P.
    + rewrite <- L. reflexivity.
Defined.

(** C8, as stated, fails: the same snapshots under two orders of set
    iteration give the custom additions in two different orders. *)
Lemma set_order_counterexample :
  (exists r,
     analyze_settings_schema unused_diff (fun l => l)
       [section_of "colors" []; section_of "layout" []]
       [section_of "colors" ["bg"]; section_of "layout" ["width"]] [] = Ok r
     /\ map record_id (custom_additions r) = [JStr "bg"; JStr "width"])
  /\ (exists r,
        analyze_settings_schema unused_diff (@rev json)
          [section_of "colors" []; section_of "layout" []]
          [section_of "colors" ["bg"]; section_of "layout" ["width"]] [] = Ok r
        /\ map record_id (custom_additions r) = [JStr "width"; JStr "bg"]).
Proof. split; eexists; split; reflexivity. Qed.

End SchemaClaims.

(** * Further properties *)

(** ** The records of the comparator and their labels *)

Section ResultShape.
Import Py PyNotations AnalyzeAllJsonDiffs Reading.

(** What a returned result of [analyze_settings_schema] is made of. *)
Lemma analyze_settings_schema_inv
    (DeepDiff : json -> json -> option string) (set_order : list json -> list json)
    (dawn_v10 current dawn_v15 : list json) (r : schema_result) :
  analyze_settings_schema DeepDiff set_order dawn_v10 current dawn_v15 = Ok r ->
  exists t10 tcur t15 v10 vcur v15 s10 scur s15 new1 c1 c2 c3,
    find_theme_info dawn_v10 = Ok t10
    /\ find_theme_info current = Ok tcur
    /\ find_theme_info dawn_v15 = Ok t15
    /\ theme_version t10 = Ok v10
    /\ theme_version tcur = Ok vcur
    /\ theme_version t15 = Ok v15
    /\ sections_by_name dawn_v10 [] = Ok s10
    /\ sections_by_name current [] = Ok scur
    /\ sections_by_name dawn_v15 [] = Ok s15
    /\ custom_sections_loop s10 scur = Ok new1
    /\ common_sections_loop DeepDiff set_order "v10_upstream_vs_v10_custom"
         (fun section_name _ shown =>
            [Lit "Custom setting in "; Val section_name; Lit ": "; Val shown])
         (fun section_name _ shown =>
            [Lit "Modified Dawn setting in "; Val section_name; Lit ": "; Val shown])
         true s10 scur = Ok c1
    /\ common_sections_loop DeepDiff set_order "v10_upstream_vs_v15_upstream"
         (fun section_name _ shown =>
            [Lit "Dawn 15.4.0 added setting in "; Val section_name; Lit ": "; Val shown])
         (fun section_name _ shown =>
            [Lit "Dawn 15.4.0 modified setting in "; Val section_name; Lit ": ";
             Val shown])
         true s10 s15 = Ok c2
    /\ common_sections_loop DeepDiff set_order "v10_custom_vs_v15_upstream"
         (fun section_name setting_id _ =>
            [Lit "Conflict: Dawn 15.4.0 added setting "; Val setting_id;
             Lit " in "; Val section_name])
         (fun section_name setting_id _ =>
            [Lit "Conflict: Both we and Dawn 15.4.0 modified setting ";
             Val setting_id; Lit " in "; Val section_name])
         false scur s15 = Ok c3
    /\ custom_additions r = snd new1 ++ fst c1
    /\ modifications r = snd c1
    /\ removals r = []
    /\ custom_sections r = fst new1
    /\ dawn_additions r
       = added_sections "v10_upstream_vs_v15_upstream"
           (fun section_name => [Lit "Dawn 15.4.0 added section: "; Val section_name])
           s10 s15 ++ fst c2
    /\ dawn_modifications r = snd c2
    /\ dawn_removals r = []
    /\ conflict_additions r
       = added_sections "v10_custom_vs_v15_upstream"
           (fun section_name =>
              [Lit "Conflict: Dawn 15.4.0 has section "; Val section_name;
               Lit " that we don't have"])
           scur s15 ++ fst c3
    /\ conflict_modifications r = snd c3
    /\ conflict_removals r = []
    /\ theme_info_changes r
       = (if negb (py_eq v10 vcur)
          then [("v10_custom",
                 mkThemeChange v10 vcur "v10_upstream_vs_v10_custom")]
          else [])
         ++ (if negb (py_eq v10 v15)
             then [("v15_upstream",
                    mkThemeChange v10 v15 "v10_upstream_vs_v15_upstream")]
             else []).
Proof.
  unfold analyze_settings_schema. intro H.
  apply bind_ok in H as (t10 & E1 & H).
  apply bind_ok in H as (tcur & E2 & H).
  apply bind_ok in H as (t15 & E3 & H).
  apply bind_ok in H as (v10 & E4 & H).
  apply bind_ok in H as (vcur & E5 & H).
  apply bind_ok in H as (v15 & E6 & H).
  apply bind_ok in H as (s10 & E7 & H).
  apply bind_ok in H as (scur & E8 & H).
  apply bind_ok in H as (s15 & E9 & H).
  apply bind_ok in H as (new1 & E10 & H).
  apply bind_ok in H as (c1 & H1 & H).
  apply bind_ok in H as (c2 & H2 & H).
  apply bind_ok in H as (c3 & H3 & H).
  injection H as <-.
  exists t10, tcur, t15, v10, vcur, v15, s10, scur, s15, new1, c1, c2, c3.
  cbn [custom_additions modifications removals custom_sections dawn_additions
       dawn_modifications dawn_removals conflict_additions conflict_modifications
       conflict_removals theme_info_changes].
  repeat (split; [assumption || reflexivity|]). reflexivity.
Qed.

Lemma mapM_forall_concat {A B : Type} (P : B -> Prop) (f : A -> result (list B))
    (l : list A) (rs : list (list B)) :
  (forall x y, f x = Ok y -> Forall P y) ->
  mapM f l = Ok rs -> Forall P (concat rs).
Proof.
  intro H. revert rs. induction l as [|x l IH]; intros rs Hrs.
  - simpl in Hrs. injection Hrs as <-. constructor.
  - apply mapM_cons_ok in Hrs as (y & ys & Hy & Hys & ->).
    simpl. apply Forall_app. split; [now apply (H x) | now apply IH].
Qed.

Lemma mapM_forall_pairs {A B C : Type} (P : B -> Prop) (Q : C -> Prop)
    (f : A -> result (list B * list C)) (l : list A) (rs : list (list B * list C)) :
  (forall x y, f x = Ok y -> Forall P (fst y) /\ Forall Q (snd y)) ->
  mapM f l = Ok rs ->
  Forall P (fst (concat_pairs rs)) /\ Forall Q (snd (concat_pairs rs)).
Proof.
  intro H. revert rs. induction l as [|x l IH]; intros rs Hrs.
  - simpl in Hrs. injection Hrs as <-. split; constructor.
  - apply mapM_cons_ok in Hrs as (y & ys & Hy & Hys & ->).
    destruct (H x y Hy) as [Hp Hq]. destruct (IH ys Hys) as [IHp IHq].
    unfold concat_pairs in *. simpl in *. split; apply Forall_app; auto.
Qed.

Variable DeepDiff : json -> json -> option string.
Variable set_order : list json -> list json.

Lemma custom_sections_loop_labelled (v10_sections current_sections : pydict json)
    (y : list change_record * list change_record) :
  custom_sections_loop v10_sections current_sections = Ok y ->
  all_labelled change_comparison "v10_upstream_vs_v10_custom" (fst y)
  /\ all_labelled change_comparison "v10_upstream_vs_v10_custom" (snd y).
Proof.
  unfold custom_sections_loop. intro H.
  apply bind_ok in H as (rs & Hrs & H). injection H as <-.
  apply (mapM_forall_pairs _ _ _ _ _) with (2 := Hrs).
  intros kv z Hz.
  destruct (negb (dict_mem (fst kv) v10_sections)).
  - apply bind_ok in Hz as (section & _ & Hz).
    apply bind_ok in Hz as (adds & Hadds & Hz). injection Hz as <-. simpl.
    split; [repeat constructor|].
    unfold custom_section_settings in Hadds.
    apply bind_ok in Hadds as (entries & _ & Hadds).
    apply bind_ok in Hadds as (ys & Hys & Hadds). injection Hadds as <-.
    apply (mapM_forall_concat _ _ _ _) with (2 := Hys).
    intros setting c Hc.
    apply bind_ok in Hc as (id & _ & Hc).
    destruct (truthy id).
    + apply bind_ok in Hc as (ty & _ & Hc).
      apply bind_ok in Hc as (label & _ & Hc).
      apply bind_ok in Hc as (shown & _ & Hc).
      injection Hc as <-. repeat constructor.
    + injection Hc as <-. constructor.
  - injection Hz as <-. split; constructor.
Qed.

Lemma added_settings_labelled (comparison : string)
    (describe : json -> json -> json -> fstring) (section_name : json)
    (base_settings compare_settings : pydict json) (adds : list change_record) :
  added_settings comparison describe section_name base_settings compare_settings
  = Ok adds ->
  all_labelled change_comparison comparison adds.
Proof.
  unfold added_settings. intro H.
  apply bind_ok in H as (rs & Hrs & H). injection H as <-.
  apply (mapM_forall_concat _ _ _ _) with (2 := Hrs).
  intros [setting_id setting] c Hc.
  destruct (negb (dict_mem setting_id base_settings)).
  - apply bind_ok in Hc as (ty & _ & Hc).
    apply bind_ok in Hc as (label & _ & Hc).
    apply bind_ok in Hc as (shown & _ & Hc).
    injection Hc as <-. repeat constructor.
  - injection Hc as <-. constructor.
Qed.

Lemma modified_settings_labelled (comparison : string)
    (describe : json -> json -> json -> fstring) (section_name : json)
    (base_settings compare_settings labelled : pydict json)
    (mods : list change_record) :
  modified_settings DeepDiff set_order comparison describe section_name
    base_settings compare_settings labelled = Ok mods ->
  all_labelled change_comparison comparison mods
  /\ Forall (fun c => match c with
                      | SettingRecord _ _ _ _ _ (Some _) _ => True
                      | _ => False
                      end) mods.
Proof.
  unfold modified_settings. intro H.
  apply bind_ok in H as (rs & Hrs & H). injection H as <-.
  split; apply (mapM_forall_concat _ _ _ _) with (2 := Hrs);
    intros setting_id c Hc;
    apply bind_ok in Hc as (old & _ & Hc);
    apply bind_ok in Hc as (new & _ & Hc);
    (destruct (DeepDiff old new);
     [ apply bind_ok in Hc as (shownin & _ & Hc);
       apply bind_ok in Hc as (ty & _ & Hc);
       apply bind_ok in Hc as (label & _ & Hc);
       apply bind_ok in Hc as (shown & _ & Hc);
       injection Hc as <-; repeat constructor
     | injection Hc as <-; constructor ]).
Qed.

Lemma common_sections_loop_labelled (comparison : string)
    (describe_added describe_modified : json -> json -> json -> fstring)
    (labelled_is_compare : bool) (base_sections compare_sections : pydict json)
    (y : list change_record * list change_record) :
  common_sections_loop DeepDiff set_order comparison describe_added describe_modified
    labelled_is_compare base_sections compare_sections = Ok y ->
  all_labelled change_comparison comparison (fst y)
  /\ all_labelled change_comparison comparison (snd y).
Proof.
  unfold common_sections_loop. intro H.
  apply bind_ok in H as (rs & Hrs & H). injection H as <-.
  apply (mapM_forall_pairs _ _ _ _ _) with (2 := Hrs).
  intros section_name z Hz. unfold common_section in Hz.
  apply bind_ok in Hz as (base_section & _ & Hz).
  apply bind_ok in Hz as (compare_section & _ & Hz).
  apply bind_ok in Hz as (base_settings & _ & Hz).
  apply bind_ok in Hz as (compare_settings & _ & Hz).
  apply bind_ok in Hz as (adds & Ha & Hz).
  apply bind_ok in Hz as (mods & Hm & Hz). injection Hz as <-. simpl.
  split; [now apply added_settings_labelled in Ha
         | now apply modified_settings_labelled in Hm].
Qed.

Lemma added_sections_labelled (comparison : string) (describe : json -> fstring)
    (base_sections compare_sections : pydict json) :
  all_labelled change_comparison comparison
    (added_sections comparison describe base_sections compare_sections).
Proof.
  unfold added_sections, all_labelled.
  induction (dict_keys compare_sections) as [|k l IH]; simpl; [constructor|].
  apply Forall_app. split; [|exact IH].
  destruct (negb (dict_mem k base_sections)); repeat constructor.
Qed.

Lemma schema_result_labelled (dawn_v10 current dawn_v15 : list json)
    (r : schema_result) :
  analyze_settings_schema DeepDiff set_order dawn_v10 current dawn_v15 = Ok r ->
  schema_labelled r.
Proof.
  intro H. unfold schema_labelled.
  apply analyze_settings_schema_inv in H
    as (t10 & tcur & t15 & v10 & vcur & v15 & s10 & scur & s15 & new1 & c1 & c2 & c3
        & _ & _ & _ & _ & _ & _ & _ & _ & _ & Hn & H1 & H2 & H3
        & -> & -> & -> & -> & -> & -> & -> & -> & -> & -> & ->).
  apply custom_sections_loop_labelled in Hn as [Ns Na].
  apply common_sections_loop_labelled in H1 as [A1 M1].
  apply common_sections_loop_labelled in H2 as [A2 M2].
  apply common_sections_loop_labelled in H3 as [A3 M3].
  unfold all_labelled in *.
  repeat split; rewrite ?Forall_app; repeat split; auto;
    try apply added_sections_labelled.
  - destruct (negb (py_eq v10 vcur)); constructor; [left; split; reflexivity | constructor].
  - destruct (negb (py_eq v10 v15)); constructor; [right; split; reflexivity | constructor].
Qed.

End ResultShape.

(** ** Equality of loaded values *)

Section JsonEquality.
Import Py AnalyzeAllJsonDiffs Reading.









End JsonEquality.

(** ** More on analyze_locale and analyze_settings_data *)

Section FlatLoops.
Import PyStr Py AnalyzeAllJsonDiffs Reading.

Lemma compare_items_labelled {L : Type} (label_of : key_record -> L) (label : L)
    (keep_added : string -> bool) (keep_modified : string -> json -> bool)
    (added_record : string -> json -> key_record)
    (modified_record : string -> json -> json -> key_record)
    (base compare : document) :
  (forall k v, label_of (added_record k v) = label) ->
  (forall k o v, label_of (modified_record k o v) = label) ->
  Forall (fun r => label_of r = label)
    (fst (compare_items keep_added keep_modified added_record modified_record
            base compare)
     ++ snd (compare_items keep_added keep_modified added_record modified_record
               base compare)).
Proof.
  intros Ha Hm. apply Forall_app. unfold compare_items.
  induction compare as [|[k v] compare [IH1 IH2]]; [split; constructor|].
  rewrite map_cons, concat_pairs_cons. cbn [fst snd].
  split; apply Forall_app; split; auto;
    (destruct (lookup k base) as [old|];
     [ destruct (negb (py_eq old v)); [destruct (keep_modified k v)|]
     | destruct (keep_added k) ]); simpl; repeat constructor; auto.
Qed.

(** The modifications of one loop: the items of the compared document
    whose key the base has with another value, when the inner condition
    keeps them. *)
Lemma compare_items_modified
    (keep_added : string -> bool) (keep_modified : string -> json -> bool)
    (added_record : string -> json -> key_record)
    (modified_record : string -> json -> json -> key_record)
    (base compare : document) (k : string) :
  (forall k o v, record_key (modified_record k o v) = k) ->
  (reports (snd (compare_items keep_added keep_modified added_record
                   modified_record base compare)) k
   <-> exists new, changed_in base compare k new /\ keep_modified k new = true).
Proof.
  intro Hkey. unfold compare_items, reports, changed_in.
  induction compare as [|[k' v'] compare IH].
  - simpl. split; [intros (r & [] & _) | intros (new & (old & _ & [] & _) & _)].
  - rewrite map_cons, concat_pairs_cons. cbn [snd]. split.
    + intros (r & Hin & Hk). apply in_app_or in Hin as [Hin|Hin].
      * destruct (lookup k' base) as [old|] eqn:L.
        -- destruct (negb (py_eq old v')) eqn:N;
             [destruct (keep_modified k' v') eqn:K|]; simpl in Hin; try contradiction.
           destruct Hin as [<-|[]]. rewrite Hkey in Hk. subst k'.
           exists v'. split; [|exact K]. exists old.
           repeat split; [exact L | now left | now apply Bool.negb_true_iff].
        -- destruct (keep_added k'); simpl in Hin; contradiction.
      * destruct IH as [IH _]. destruct IH as (new & (old & L & Hin' & N) & K).
        -- now exists r.
        -- exists new. split; [|exact K]. exists old. repeat split; auto. now right.
    + intros (new & (old & L & Hin & N) & K). destruct Hin as [E|Hin].
      * injection E as -> ->. rewrite L, N, K. simpl.
        exists (modified_record k old new). split; [now left | apply Hkey].
      * destruct IH as [_ IH]. destruct IH as (r & Hr & Hrk).
        -- exists new. split; [|exact K]. now exists old.
        -- exists r. split; [apply in_or_app; now right | exact Hrk].
Qed.



(** Every reported key is a key of the compared document. *)
Lemma compare_items_reports_compared
    (keep_added : string -> bool) (keep_modified : string -> json -> bool)
    (added_record : string -> json -> key_record)
    (modified_record : string -> json -> json -> key_record)
    (base compare : document) (key : string) :
  (forall k v, record_key (added_record k v) = k) ->
  (forall k o v, record_key (modified_record k o v) = k) ->
  reports (fst (compare_items keep_added keep_modified added_record modified_record
                  base compare)
           ++ snd (compare_items keep_added keep_modified added_record
                     modified_record base compare)) key ->
  has_key compare key.
Proof.
  intros Ha Hm (r & Hin & Hk). apply in_app_or in Hin as [Hin|Hin].
  - assert (R : reports (fst (compare_items keep_added keep_modified added_record
                                modified_record base compare)) key) by now exists r.
    now apply (compare_items_added _ _ _ _ Ha) in R.
  - assert (R : reports (snd (compare_items keep_added keep_modified added_record
                                modified_record base compare)) key) by now exists r.
    apply (compare_items_modified _ _ _ _ _ _ _ Hm) in R
      as (new & (old & _ & Hc & _) & _).
    now apply (lookup_in compare key new).
Qed.

End FlatLoops.

Section FlatDocumentsMore.
Import PyStr Py PyNotations AnalyzeAllJsonDiffs Reading.

Lemma analyze_locale_labelled (dawn_v10 current dawn_v15 : document) :
  flat_labelled (analyze_locale dawn_v10 current dawn_v15).
Proof.
  unfold flat_labelled, all_labelled, analyze_locale.
  cbn [flat_custom_additions flat_modifications flat_dawn_additions
       flat_dawn_modifications flat_conflict_additions flat_conflict_modifications].
  repeat split; apply compare_items_labelled; reflexivity.
Qed.

Lemma analyze_settings_data_labelled (dawn_v10 current dawn_v15 : document) :
  flat_labelled (analyze_settings_data dawn_v10 current dawn_v15).
Proof.
  unfold flat_labelled, all_labelled, analyze_settings_data.
  cbn [flat_custom_additions flat_modifications flat_dawn_additions
       flat_dawn_modifications flat_conflict_additions flat_conflict_modifications].
  repeat split; apply compare_items_labelled; reflexivity.
Qed.

(** X1. Every record that [main] of analyze-all-json-diffs.py puts in its
    result carries, under ["comparison"], the label of the pair whose list
    holds it: in the result for the settings schema, for the settings data
    and for both locale documents; the entries of the theme version changes
    are labelled with the pair they compare. *)
Theorem records_carry_their_pair
    (DeepDiff : json -> json -> option string) (set_order : list json -> list json)
    (v10_settings current_settings v15_settings : list json)
    (v10_locale current_locale v15_locale : document)
    (v10_locale_schema current_locale_schema v15_locale_schema : document)
    (v10_settings_data current_settings_data v15_settings_data : document)
    (r : analysis) :
  main DeepDiff set_order v10_settings current_settings v15_settings
    v10_locale current_locale v15_locale
    v10_locale_schema current_locale_schema v15_locale_schema
    v10_settings_data current_settings_data v15_settings_data = Ok r ->
  schema_labelled (settings_schema r)
  /\ flat_labelled (settings_data r)
  /\ flat_labelled (locale_en r)
  /\ flat_labelled (locale_en_schema r).
Proof.
  unfold main. intro H.
  apply bind_ok in H as (s & Hs & H). injection H as <-.
  cbn [settings_schema settings_data locale_en locale_en_schema].
  split; [|split; [|split]].
  - now apply schema_result_labelled in Hs.
  - apply analyze_settings_data_labelled.
  - apply analyze_locale_labelled.
  - apply analyze_locale_labelled.
Qed.

Lemma records_carry_their_pair_witness :
  exists r,
    main unused_diff (fun l => l) [] [section_of "colors" ["bg"]] []
      [] [("custom_title", JStr "Title")] [] [] [] [] [] [] [] = Ok r
    /\ map change_comparison (custom_additions (settings_schema r))
       = ["v10_upstream_vs_v10_custom"]
    /\ map key_comparison (flat_custom_additions (locale_en r))
       = ["v10_upstream_vs_v10_custom"].
Proof.
  eexists. split; [reflexivity|].
  destruct (records_carry_their_pair unused_diff (fun l => l)
              [] [section_of "colors" ["bg"]] []
              [] [("custom_title", JStr "Title")] [] [] [] [] [] [] [] _ eq_refl)
    as (_ & _ & _ & _).
  split; reflexivity.
Defined.



(** X3. Which keys the flat comparators report as modified.  In every pair
    of [analyze_locale] and in pairs 2 and 3 of [analyze_settings_data] a
    key is reported exactly when the compared document has an item for it
    and the base has the key with an unequal value.  Pair 1 of
    [analyze_settings_data] reports it only if, in addition, the key starts
    with [custom_] or the new value is an object or a list: a changed scalar
    of an upstream setting is left out there. *)
Theorem flat_modifications_reported (dawn_v10 current dawn_v15 : document)
    (key : string) :
  let l := analyze_locale dawn_v10 current dawn_v15 in
  let d := analyze_settings_data dawn_v10 current dawn_v15 in
  (reports (flat_modifications l) key
   <-> exists new, changed_in dawn_v10 current key new)
  /\ (reports (flat_dawn_modifications l) key
      <-> exists new, changed_in dawn_v10 dawn_v15 key new)
  /\ (reports (flat_conflict_modifications l) key
      <-> exists new, changed_in current dawn_v15 key new)
  /\ (reports (flat_modifications d) key
      <-> exists new, changed_in dawn_v10 current key new
                      /\ (startswith key "custom_" || is_container new) = true)
  /\ (reports (flat_dawn_modifications d) key
      <-> exists new, changed_in dawn_v10 dawn_v15 key new)
  /\ (reports (flat_conflict_modifications d) key
      <-> exists new, changed_in current dawn_v15 key new).
Proof.
  intros l d. subst l d. unfold analyze_locale, analyze_settings_data.
  cbn [flat_modifications flat_dawn_modifications flat_conflict_modifications].
  repeat split;
    try (intro H; eapply compare_items_modified in H; [|intros; reflexivity];
         destruct H as (new & C & K); exists new; auto);
    try (intros (new & C); eapply compare_items_modified; [intros; reflexivity|];
         exists new; auto).
Qed.

Lemma flat_modifications_reported_witness :
  let base := [("checkout_logo", JStr "a.png"); ("colors", JList [JStr "red"])] in
  let custom := [("checkout_logo", JStr "b.png"); ("colors", JList [JStr "blue"])] in
  reports (flat_modifications (analyze_locale base custom [])) "checkout_logo"
  /\ ~ reports (flat_modifications (analyze_settings_data base custom []))
         "checkout_logo"
  /\ reports (flat_modifications (analyze_settings_data base custom [])) "colors".
Proof.
  intros base custom.
  destruct (flat_modifications_reported base custom [] "checkout_logo")
    as (L & _ & _ & D & _).
  destruct (flat_modifications_reported base custom [] "colors")
    as (_ & _ & _ & C & _).
  split; [|split].
  - apply L. exists (JStr "b.png"), (JStr "a.png"). repeat split. now left.
  - intro H. apply D in H as (new & (old & Ho & Hin & Hne) & K).
    destruct Hin as [E|[E|[]]]; injection E as <-; discriminate.
  - apply C. exists (JList [JStr "blue"]). split; [|reflexivity].
    exists (JList [JStr "red"]). repeat split. right. now left.
Defined.

(** X4. The flat comparators never report a removal either: every key in
    a list of a pair is a key of the compared document of that pair, so a
    key that only the base has is in no list. *)
Theorem flat_reports_only_compared_keys (dawn_v10 current dawn_v15 : document)
    (key : string) :
  let l := analyze_locale dawn_v10 current dawn_v15 in
  let d := analyze_settings_data dawn_v10 current dawn_v15 in
  (reports (flat_custom_additions l ++ flat_modifications l) key ->
   has_key current key)
  /\ (reports (flat_dawn_additions l ++ flat_dawn_modifications l) key ->
      has_key dawn_v15 key)
  /\ (reports (flat_conflict_additions l ++ flat_conflict_modifications l) key ->
      has_key dawn_v15 key)
  /\ (reports (flat_custom_additions d ++ flat_modifications d) key ->
      has_key current key)
  /\ (reports (flat_dawn_additions d ++ flat_dawn_modifications d) key ->
      has_key dawn_v15 key)
  /\ (reports (flat_conflict_additions d ++ flat_conflict_modifications d) key ->
      has_key dawn_v15 key).
Proof.
  intros l d. subst l d. unfold analyze_locale, analyze_settings_data.
  cbn [flat_custom_additions flat_modifications flat_dawn_additions
       flat_dawn_modifications flat_conflict_additions flat_conflict_modifications].
  repeat split; apply compare_items_reports_compared; intros; reflexivity.
Qed.

Lemma flat_reports_only_compared_keys_witness :
  let base := [("general.search", JStr "Search"); ("general.old", JStr "Old")] in
  let custom := [("general.search", JStr "Find")] in
  let l := analyze_locale base custom [] in
  ~ reports (flat_custom_additions l ++ flat_modifications l) "general.old"
  /\ reports (flat_custom_additions l ++ flat_modifications l) "general.search".
Proof.
  intros base custom l. split.
  - intro H.
    destruct (flat_reports_only_compared_keys base custom [] "general.old")
      as (C & _).
    destruct (C H) as [v Hv]. discriminate.
  - eexists. split; [now left | reflexivity].
Defined.



End FlatDocumentsMore.

(** ** Equal snapshots of the settings schema *)

Section SameSnapshots.
Import Py PyNotations AnalyzeAllJsonDiffs Reading.




Lemma lookup_some_in {V : Type} (d : list (string * V)) (k : string) (v : V) :
  lookup k d = Some v -> In (k, v) d.
Proof.
  induction d as [|[k' v'] d IH]; simpl; [discriminate|].
  destruct (String.eqb k' k) eqn:E.
  - apply String.eqb_eq in E. subst. intro H. injection H as ->. now left.
  - intro H. right. now apply IH.
Qed.




Variable DeepDiff : json -> json -> option string.
Variable set_order : list json -> list json.
Hypothesis set_order_valid : valid_order set_order.
Hypothesis no_self_difference : forall x, DeepDiff x x = None.







End SameSnapshots.

Section SameSnapshotsWitness.
Import Py PyNotations AnalyzeAllJsonDiffs Reading.


End SameSnapshotsWitness.

(** ** More on parse_file_changes and categorize_files *)

Section NameStatus.
Import PyStr CategorizeChanges.

Lemma rstrip_app_newline (s : string) :
  rstrip (s ++ String newline EmptyString) = rstrip s.
Proof.
  induction s as [|c s IH]; [reflexivity|].
  cbn [String.append rstrip]. now rewrite IH.
Qed.

Lemma name_status_line_parts (status : ascii) (path : string) :
  isspace status = false ->
  lstrip path = path ->
  rstrip path = path ->
  status_of (name_status_line status path) = Some status
  /\ path_of (name_status_line status path) = path.
Proof.
  intros Hs Hl Hr. unfold status_of, path_of, name_status_line, strip.
  cbn [lstrip]. rewrite Hs.
  rewrite rstrip_cons by exact Hs.
  split; [reflexivity|].
  cbn [rstrip]. rewrite rstrip_app_newline, Hr.
  destruct path as [|c path].
  - reflexivity.
  - unfold slice_from. cbn [Z.leb Z.compare Z.to_nat Pos.to_nat Pos.iter_op
                           Nat.add drop].
    simpl drop. now rewrite Hl, Hr.
Qed.

Lemma lines_with_name_status (status : ascii) (entries : list (ascii * string)) :
  Forall (fun e => isspace (fst e) = false
                   /\ lstrip (snd e) = snd e /\ rstrip (snd e) = snd e) entries ->
  lines_with status (map (fun e => name_status_line (fst e) (snd e)) entries)
  = paths_with status entries.
Proof.
  unfold lines_with, paths_with.
  induction 1 as [|[s p] entries (Hs & Hl & Hr) HF IH]; [reflexivity|].
  cbn [map filter fst snd].
  destruct (name_status_line_parts s p Hs Hl Hr) as [S P].
  unfold has_status at 1. rewrite S.
  destruct (Ascii.eqb s status); cbn [map]; [rewrite P|]; now rewrite IH.
Qed.

(** X7. [parse_file_changes] reads back what [git diff --name-status]
    writes: for lines made of a status letter, a tab, a path without
    leading or trailing whitespace, and a line end, the three lists are the
    paths of the [A], [M] and [D] lines, in the order of the lines. *)
Theorem parse_file_changes_reads_name_status (entries : list (ascii * string)) :
  Forall (fun e => isspace (fst e) = false
                   /\ lstrip (snd e) = snd e /\ rstrip (snd e) = snd e) entries ->
  parse_file_changes (map (fun e => name_status_line (fst e) (snd e)) entries)
  = mkChanges (paths_with "A" entries) (paths_with "M" entries)
              (paths_with "D" entries).
Proof.
  intro H. rewrite parse_file_changes_lists.
  now rewrite !lines_with_name_status by exact H.
Qed.

Lemma parse_file_changes_reads_name_status_witness :
  parse_file_changes
    [name_status_line "M" "layout/theme.liquid";
     name_status_line "A" "snippets/custom price.liquid";
     name_status_line "R" "old.js";
     name_status_line "D" ".gitignore"]
  = mkChanges ["snippets/custom price.liquid"] ["layout/theme.liquid"] [".gitignore"].
Proof.
  apply (parse_file_changes_reads_name_status
           [("M"%char, "layout/theme.liquid");
            ("A"%char, "snippets/custom price.liquid");
            ("R"%char, "old.js"); ("D"%char, ".gitignore")]).
  repeat constructor.
Defined.

End NameStatus.

Section ClassifierMore.
Import PyStr CategorizeChanges.

Variable full_diff : option string.
Variables diff_set_1 diff_set_2 diff_set_3 : option file_changes.

Lemma prefixes_comparable (p q s : string) :
  String.prefix p s = true -> String.prefix q s = true ->
  String.prefix p q = true \/ String.prefix q p = true.
Proof.
  revert p q. induction s as [|c s IH]; intros p q Hp Hq.
  - destruct p; [|discriminate]. left. now destruct q.
  - destruct p as [|a p]; [left; now destruct q|].
    destruct q as [|b q]; [right; reflexivity|].
    cbn [String.prefix] in *.
    destruct (ascii_dec a c) as [->|]; [|discriminate].
    destruct (ascii_dec b c) as [->|]; [|discriminate].
    destruct (ascii_dec c c) as [_|N]; [now apply IH | now contradiction N].
Qed.

Lemma add_custom_paths (c : custom_files) (filepath : string) (i : file_info) :
  let c' := add_custom c filepath i in
  let add (p : string -> bool) (l : list file_info) :=
    l ++ (if p filepath then [i] else []) in
  assets c' = add (fun f => startswith f "assets/") (assets c)
  /\ snippets c' = add (fun f => startswith f "snippets/") (snippets c)
  /\ templates c' = add (fun f => startswith f "templates/") (templates c)
  /\ sections c' = add (fun f => startswith f "sections/") (sections c)
  /\ layout c' = add (fun f => startswith f "layout/") (layout c)
  /\ other c' = add is_other (other c).
Proof.
  unfold add_custom, is_other, startswith.
  destruct (String.prefix "assets/" filepath) eqn:A;
    destruct (String.prefix "snippets/" filepath) eqn:S;
    destruct (String.prefix "templates/" filepath) eqn:T;
    destruct (String.prefix "sections/" filepath) eqn:C;
    destruct (String.prefix "layout/" filepath) eqn:L;
    try (exfalso;
         match goal with
         | H1 : String.prefix ?p filepath = true,
           H2 : String.prefix ?q filepath = true |- _ =>
             destruct (prefixes_comparable p q filepath H1 H2) as [X|X];
             discriminate X
         end);
    cbn [assets snippets templates sections layout other negb orb];
    rewrite ?app_nil_r; repeat split.
Qed.

Let info (filepath : string) : file_info :=
  mkFileInfo filepath (comparisons_of added diff_set_1 diff_set_2 diff_set_3 filepath).

Lemma custom_files_built (l : list string) (c : custom_files) :
  let c' := fold_left (fun c filepath => add_custom c filepath (info filepath)) l c in
  let bucket (p : string -> bool) := map info (filter p l) in
  assets c' = assets c ++ bucket (fun f => startswith f "assets/")
  /\ snippets c' = snippets c ++ bucket (fun f => startswith f "snippets/")
  /\ templates c' = templates c ++ bucket (fun f => startswith f "templates/")
  /\ sections c' = sections c ++ bucket (fun f => startswith f "sections/")
  /\ layout c' = layout c ++ bucket (fun f => startswith f "layout/")
  /\ other c' = other c ++ bucket is_other.
Proof.
  revert c. induction l as [|p l IH]; intro c; cbn [fold_left].
  - simpl. now rewrite !app_nil_r.
  - destruct (IH (add_custom c p (info p))) as (A & S & T & C & L & O).
    destruct (add_custom_paths c p (info p)) as (A' & S' & T' & C' & L' & O').
    cbv zeta in *.
    rewrite A, S, T, C, L, O, A', S', T', C', L', O'. cbn [filter].
    repeat split;
      match goal with
      | |- context [if ?b then _ else _] => destruct b
      end; cbn [map]; now rewrite <- ?app_assoc, ?app_nil_r.
Qed.

Lemma partition_six {A : Type} (p1 p2 p3 p4 p5 p6 : A -> bool) (l : list A) :
  (forall x, (if p1 x then 1 else 0) + (if p2 x then 1 else 0)
             + (if p3 x then 1 else 0) + (if p4 x then 1 else 0)
             + (if p5 x then 1 else 0) + (if p6 x then 1 else 0) = 1) ->
  length (filter p1 l) + length (filter p2 l) + length (filter p3 l)
  + length (filter p4 l) + length (filter p5 l) + length (filter p6 l) = length l.
Proof.
  intro H. induction l as [|x l IH]; [reflexivity|].
  cbn [filter]. specialize (H x).
  destruct (p1 x), (p2 x), (p3 x), (p4 x), (p5 x), (p6 x); simpl in *; lia.
Qed.

Lemma one_bucket (filepath : string) :
  (if startswith filepath "assets/" then 1 else 0)
  + (if startswith filepath "snippets/" then 1 else 0)
  + (if startswith filepath "templates/" then 1 else 0)
  + (if startswith filepath "sections/" then 1 else 0)
  + (if startswith filepath "layout/" then 1 else 0)
  + (if is_other filepath then 1 else 0) = 1.
Proof.
  unfold is_other, startswith.
  destruct (String.prefix "assets/" filepath) eqn:A;
    destruct (String.prefix "snippets/" filepath) eqn:S;
    destruct (String.prefix "templates/" filepath) eqn:T;
    destruct (String.prefix "sections/" filepath) eqn:C;
    destruct (String.prefix "layout/" filepath) eqn:L;
    try reflexivity;
    exfalso;
    match goal with
    | H1 : String.prefix ?p filepath = true,
      H2 : String.prefix ?q filepath = true |- _ =>
        destruct (prefixes_comparable p q filepath H1 H2) as [X|X];
        discriminate X
    end.
Qed.

(** X8. [categorize_files] puts every added path in one bucket of
    [custom_files]: a bucket holds, in the order of the added list, the
    paths that start with its directory, [other] those that start with none
    of the five; the count of custom files is the length of the added
    list. *)
Theorem added_paths_bucketed (changes : file_changes) :
  let c := cat_custom_files
             (categorize_files changes full_diff diff_set_1 diff_set_2 diff_set_3) in
  map fi_path (assets c) = filter (fun f => startswith f "assets/") (added changes)
  /\ map fi_path (snippets c)
     = filter (fun f => startswith f "snippets/") (added changes)
  /\ map fi_path (templates c)
     = filter (fun f => startswith f "templates/") (added changes)
  /\ map fi_path (sections c)
     = filter (fun f => startswith f "sections/") (added changes)
  /\ map fi_path (layout c) = filter (fun f => startswith f "layout/") (added changes)
  /\ map fi_path (other c) = filter is_other (added changes)
  /\ custom_files_count c = length (added changes).
Proof.
  intro c. subst c. unfold categorize_files. cbn [cat_custom_files].
  destruct (custom_files_built (added changes) (mkCustom [] [] [] [] [] []))
    as (A & S & T & C & L & O).
  cbv zeta in *. unfold info in *. unfold custom_files_count.
  rewrite A, S, T, C, L, O. cbn [assets snippets templates sections layout other app].
  rewrite !map_map. cbn [fi_path]. rewrite !map_id, !length_map.
  repeat split. apply partition_six. exact one_bucket.
Qed.

End ClassifierMore.

(** ** Deleted files: what the customizations flag tells about the diff *)

Section DeletedFilesMore.
Import PyStr CategorizeChanges.

Lemma string_app_assoc (a b c : string) :
  ((a ++ b) ++ c = a ++ (b ++ c))%string.
Proof. induction a as [|x a IH]; simpl; [reflexivity | now rewrite IH]. Qed.

Lemma prefix_drop (a s : string) :
  String.prefix a s = true -> s = (a ++ drop (String.length a) s)%string.
Proof.
  intro H. destruct (prefix_inv a s H) as [b ->]. now rewrite drop_app.
Qed.

(** The lazy match up to a literal splits the text and ends in the
    literal. *)
Lemma lazy_through_splits (lit s m rest : string) :
  lazy_through lit s = Some (m, rest) ->
  s = (m ++ rest)%string /\ exists a, m = (a ++ lit)%string.
Proof.
  revert m rest. induction s as [|c s IH]; intros m rest; cbn [lazy_through].
  - destruct (String.prefix lit EmptyString) eqn:P; [|discriminate].
    intro H. injection H as <- <-. split; [now apply prefix_drop | now exists EmptyString].
  - destruct (String.prefix lit (String c s)) eqn:P.
    + intro H. injection H as <- <-. split; [now apply prefix_drop | now exists EmptyString].
    + destruct (lazy_through lit s) as [[m' rest']|]; [|discriminate].
      intro H. injection H as <- <-.
      destruct (IH m' rest' eq_refl) as [-> [a ->]].
      split; [reflexivity | now exists (String c a)].
Qed.

Lemma lazy_until_diff_prefix (s : string) :
  exists t, s = (lazy_until_diff s ++ t)%string.
Proof.
  induction s as [|c s [t IH]]; cbn [lazy_until_diff].
  - destruct (String.prefix "diff --git" EmptyString); now exists EmptyString.
  - destruct (String.prefix "diff --git" (String c s)).
    + now exists (String c s).
    + exists t. simpl. now rewrite <- IH.
Qed.

(** The section of a path is a part of the text: it starts with a
    [diff --git] and holds the path after it. *)
Lemma diff_section_in (filepath s sec : string) :
  diff_section filepath s = Some sec ->
  exists a b m t,
    s = (a ++ sec ++ b)%string
    /\ sec = ("diff --git" ++ m ++ filepath ++ t)%string.
Proof.
  induction s as [|c s IH]; cbn [diff_section].
  - cbn [String.prefix]. discriminate.
  - destruct (String.prefix "diff --git" (String c s)) eqn:P.
    + destruct (lazy_through filepath (drop 10 (String c s))) as [[m rest]|] eqn:L.
      * intro H. injection H as <-.
        apply lazy_through_splits in L as [D [a ->]].
        destruct (lazy_until_diff_prefix rest) as [t Ht].
        exists EmptyString, t, a, (lazy_until_diff rest). split.
        -- rewrite (prefix_drop _ _ P).
           change (String.length "diff --git") with 10. rewrite D.
           cbn [append]. rewrite !string_app_assoc. cbn [append].
           rewrite <- !string_app_assoc.
           rewrite Ht at 1. now rewrite !string_app_assoc.
        -- now rewrite !string_app_assoc.
      * intro H. destruct (IH H) as (a & b & m & t & -> & ->).
        now exists (String c a), b, m, t.
    + intro H. destruct (IH H) as (a & b & m & t & -> & ->).
      now exists (String c a), b, m, t.
Qed.

Lemma has_added_line_in (bol : bool) (s : string) :
  has_added_line bol s = true ->
  (bol = true /\ exists c t, s = String "+" (String c t) /\ c <> "+"%char)
  \/ exists a c t,
       s = (a ++ String newline (String "+" (String c t)))%string /\ c <> "+"%char.
Proof.
  revert bol. induction s as [|x s IH]; intro bol; cbn [has_added_line]; [discriminate|].
  intro H. apply Bool.orb_true_iff in H as [H|H].
  - apply Bool.andb_true_iff in H as [H N].
    apply Bool.andb_true_iff in H as [B X].
    apply Ascii.eqb_eq in X. subst x.
    destruct s as [|d t]; [discriminate|].
    left. split; [exact B|]. exists d, t. split; [reflexivity|].
    intros ->. discriminate.
  - destruct (IH _ H) as [[B (c & t & -> & N)]|(a & c & t & -> & N)].
    + apply Ascii.eqb_eq in B. subst x.
      right. now exists EmptyString, c, t.
    + right. now exists (String x a), c, t.
Qed.

(** X9. A path is in [files_to_patch_with_customizations] only when it is
    in [files_to_accept_dawn_15_4] and the text of the full diff was read
    and holds, somewhere, a [diff --git] with the path after it, and a line
    that starts with [+] followed by a character other than [+].  So with
    no full diff, or an empty one, the list is empty. *)
Theorem patch_with_customizations_evidence (lines : list string)
    (full_diff : option string) (d1 d2 d3 : option (list string)) (p : string) :
  let r := main lines full_diff d1 d2 d3 in
  In p (files_to_patch_with_customizations r) ->
  In p (files_to_accept_dawn_15_4 r)
  /\ exists content,
       full_diff = Some content
       /\ (exists a m t, content = (a ++ "diff --git" ++ m ++ p ++ t)%string)
       /\ (exists a c t,
             content = (a ++ String newline (String "+" (String c t)))%string
             /\ c <> "+"%char).
Proof.
  intros r H.
  assert (K : In p (deleted (parse_file_changes lines))
              /\ is_dev_config p = true
              /\ detect_customizations p
                   match full_diff with Some c => c | None => EmptyString end = true).
  { subst r. unfold main, combine_results, categorize_files in H; simpl in H.
    apply in_map_iff in H as (f & <- & Hf).
    apply filter_In in Hf as [Hf Hc]. apply in_map_iff in Hf as (q & <- & Hq).
    unfold removed_entry in *; simpl in *.
    destruct (is_dev_config q); [|discriminate]. auto. }
  destruct K as (Hd & Hdev & Hc). split.
  - apply (removed_buckets lines full_diff d1 d2 d3 p). now split.
  - unfold detect_customizations in Hc. rewrite Hdev in Hc. simpl in Hc.
    destruct full_diff as [content|]; [|discriminate].
    exists content. split; [reflexivity|].
    destruct (String.eqb content EmptyString); [discriminate|]. simpl in Hc.
    destruct (search_entry p true content); [|discriminate].
    destruct (diff_section p content) as [sec|] eqn:S; [|discriminate].
    destruct (diff_section_in _ _ _ S) as (a & b & m & t & -> & ->).
    split.
    + exists a, m, (t ++ b)%string. now rewrite !string_app_assoc.
    + apply has_added_line_in in Hc as [[_ (c & u & E & _)]|(a' & c & u & E & N)].
      * discriminate.
      * exists (a ++ a')%string, c, (u ++ b)%string. split; [|exact N].
        rewrite E, !string_app_assoc. reflexivity.
Qed.

Lemma patch_with_customizations_evidence_witness :
  let full_diff :=
    unlines ["diff --git a/.gitignore b/.gitignore"; "+node_modules"] in
  In ".gitignore"
     (files_to_accept_dawn_15_4 (main ["D	.gitignore"] (Some full_diff) None None None))
  /\ exists content,
       Some full_diff = Some content
       /\ (exists a m t, content = (a ++ "diff --git" ++ m ++ ".gitignore" ++ t)%string)
       /\ (exists a c t,
             content = (a ++ String newline (String "+" (String c t)))%string
             /\ c <> "+"%char).
Proof.
  apply (patch_with_customizations_evidence
           ["D	.gitignore"]
           (Some (unlines ["diff --git a/.gitignore b/.gitignore"; "+node_modules"]))
           None None None ".gitignore").
  vm_compute. left. reflexivity.
Defined.

End DeletedFilesMore.

(** ** The bucket lists as lists: order and repetitions *)

Section BucketLists.
Import PyStr CategorizeChanges.

Lemma dict_set_nodup {V : Type} (d : list (string * V)) (k : string) (v : V) :
  NoDup (map fst d) -> NoDup (map fst (dict_set d k v)).
Proof.
  induction d as [|[k' v'] d IH]; cbn [dict_set map fst]; intro N.
  - constructor; [intros [] | constructor].
  - inversion N as [|? ? Hk Hd]; subst.
    destruct (String.eqb k' k) eqn:E; cbn [map fst].
    + constructor; assumption.
    + constructor; [|now apply IH].
      intro Hin. apply dict_set_keys in Hin as [Hin| ->]; [contradiction|].
      now rewrite String.eqb_refl in E.
Qed.

Lemma fold_dict_set_nodup {V : Type} (f : string -> V) (l : list string)
    (d : list (string * V)) :
  NoDup (map fst d) ->
  NoDup (map fst (fold_left (fun d filepath => dict_set d filepath (f filepath)) l d)).
Proof.
  revert d. induction l as [|x l IH]; intros d N; simpl; [exact N|].
  apply IH. now apply dict_set_nodup.
Qed.

Lemma filter_keys_nodup {V : Type} (f : string * V -> bool) (d : list (string * V)) :
  NoDup (map fst d) -> NoDup (map fst (filter f d)).
Proof.
  induction d as [|kv d IH]; simpl; intro N; [constructor|].
  inversion N as [|? ? Hk Hd]; subst.
  destruct (f kv); simpl; [|now apply IH].
  constructor; [|now apply IH].
  intro Hin. apply Hk. apply in_map_iff in Hin as (x & E & Hx).
  apply filter_In in Hx as [Hx _]. apply in_map_iff. now exists x.
Qed.

Lemma filter_map_swap {A B : Type} (g : A -> B) (f : B -> bool) (l : list A) :
  filter f (map g l) = map g (filter (fun x => f (g x)) l).
Proof.
  induction l as [|x l IH]; simpl; [reflexivity|].
  destruct (f (g x)); simpl; now rewrite IH.
Qed.

(** X10. The two lists of modified paths never list a path twice, however
    often the input lists it: they are read off the keys of a dictionary.
    The lists of deleted paths are the deleted paths of the input in their
    order, repetitions included, filtered by the development and
    configuration patterns. *)
Theorem bucket_lists_order_and_repetitions (lines : list string)
    (full_diff : option string) (d1 d2 d3 : option (list string)) :
  let r := main lines full_diff d1 d2 d3 in
  let changes := parse_file_changes lines in
  NoDup (files_to_revert_to_clean r)
  /\ NoDup (files_to_patch_modified r)
  /\ modified_dawn_files_count r <= length (modified changes)
  /\ files_to_restore_from_dawn r
     = filter (fun p => negb (is_dev_config p)) (deleted changes)
  /\ files_to_accept_dawn_15_4 r = filter is_dev_config (deleted changes).
Proof.
  unfold main, combine_results, categorize_files; simpl.
  set (s1 := option_map parse_file_changes d1).
  set (s2 := option_map parse_file_changes d2).
  set (s3 := option_map parse_file_changes d3).
  set (l := modified (parse_file_changes lines)).
  assert (N : NoDup (map fst (fold_left
             (fun d filepath => dict_set d filepath (modified_entry s1 s2 s3 filepath))
             l []))).
  { apply fold_dict_set_nodup with (f := modified_entry s1 s2 s3). constructor. }
  split; [now apply filter_keys_nodup|].
  split; [now apply filter_keys_nodup|].
  split; [|split].
  - rewrite <- (length_map fst).
    apply NoDup_incl_length; [exact N|].
    intros x Hx.
    destruct (modified_files_built s1 s2 s3 l []) as [K _]; [intros kv []|].
    apply K in Hx as [[]|Hx]. exact Hx.
  - rewrite filter_map_swap, map_map. simpl. rewrite map_id. reflexivity.
  - rewrite filter_map_swap, map_map. simpl. rewrite map_id. reflexivity.
Qed.

End BucketLists.

(** ** The comparison labels of the entries *)

Section ComparisonLabels.
Import PyStr CategorizeChanges.

Variable full_diff : option string.
Variables diff_set_1 diff_set_2 diff_set_3 : option file_changes.

Lemma comparisons_of_follows (kind : file_changes -> list string) (p : string) :
  labels_follow diff_set_1 diff_set_2 diff_set_3 kind p (comparisons_of kind diff_set_1 diff_set_2 diff_set_3 p).
Proof.
  unfold labels_follow, comparisons_of, comparison_labels.
  destruct (in_diff_set diff_set_1 kind p), (in_diff_set diff_set_2 kind p),
    (in_diff_set diff_set_3 kind p); cbn [app];
    (split; [discriminate|]);
    (split; [repeat constructor; simpl; intuition discriminate|]);
    (split; [intros x Hx; simpl in *; intuition|]);
    simpl; intuition discriminate.
Qed.

(** X11. Every entry [categorize_files] builds carries at least one
    comparison label, the labels are among the three of the script and
    none is repeated; the labels of the second and third pair are there
    exactly when the path is in the list of its kind in that diff set, and
    the label of the first pair also when the path is in neither of those
    two, whatever the first diff set holds.  An entry of the dictionary of
    modified files sits under its own path. *)
Theorem entries_labelled_by_diff_sets (changes : file_changes) :
  let c := categorize_files changes full_diff diff_set_1 diff_set_2 diff_set_3 in
  let custom := cat_custom_files c in
  (forall i, In i (assets custom ++ snippets custom ++ templates custom
                   ++ sections custom ++ layout custom ++ other custom) ->
             In (fi_path i) (added changes)
             /\ labels_follow diff_set_1 diff_set_2 diff_set_3 added (fi_path i) (fi_comparisons i))
  /\ (forall k i, In (k, i) (modified_dawn_files c) ->
                  m_path i = k /\ In k (modified changes)
                  /\ labels_follow diff_set_1 diff_set_2 diff_set_3 modified k (m_comparisons i))
  /\ (forall f, In f (removed_dawn_files c) ->
                In (r_path f) (deleted changes)
                /\ labels_follow diff_set_1 diff_set_2 diff_set_3 deleted (r_path f) (r_comparisons f)).
Proof.
  intros c custom. subst custom c. unfold categorize_files.
  cbn [cat_custom_files modified_dawn_files removed_dawn_files].
  split; [|split].
  - destruct (custom_files_built diff_set_1 diff_set_2 diff_set_3
                (added changes) (mkCustom [] [] [] [] [] []))
      as (A & S & T & C & L & O).
    cbv zeta in *. rewrite A, S, T, C, L, O.
    cbn [assets snippets templates sections layout other app].
    intros i Hi.
    assert (E : exists p, In p (added changes)
                          /\ i = mkFileInfo p (comparisons_of added diff_set_1
                                                 diff_set_2 diff_set_3 p)).
    { repeat (apply in_app_or in Hi as [Hi|Hi]);
        apply in_map_iff in Hi as (p & <- & Hp);
        apply filter_In in Hp as [Hp _]; now exists p. }
    destruct E as (p & Hp & ->). cbn [fi_path fi_comparisons].
    split; [exact Hp | apply comparisons_of_follows].
  - destruct (modified_files_built diff_set_1 diff_set_2 diff_set_3
                (modified changes) []) as [K V]; [intros kv []|].
    cbv zeta in *. intros k i Hi.
    pose proof (V _ Hi) as E. cbn [fst snd] in E. subst i.
    cbn [modified_entry m_path m_comparisons].
    split; [reflexivity|]. split.
    + assert (Hk : In k (map fst (fold_left
               (fun d filepath =>
                  dict_set d filepath
                    (modified_entry diff_set_1 diff_set_2 diff_set_3 filepath))
               (modified changes) []))).
      { apply in_map_iff. now exists (k, modified_entry diff_set_1 diff_set_2 diff_set_3 k). }
      apply K in Hk as [[]|Hk]. exact Hk.
    + apply comparisons_of_follows.
  - intros f Hf. apply in_map_iff in Hf as (p & <- & Hp).
    cbn [removed_entry r_path r_comparisons].
    split; [exact Hp | apply comparisons_of_follows].
Qed.

End ComparisonLabels.

Section ComparisonLabelsWitness.
Import PyStr CategorizeChanges.

Lemma entries_labelled_by_diff_sets_witness :
  let changes := mkChanges [] ["sections/header.liquid"] [] in
  let i := modified_entry None (Some changes) None "sections/header.liquid" in
  m_path i = "sections/header.liquid"
  /\ In "sections/header.liquid" (modified changes)
  /\ m_comparisons i <> [].
Proof.
  intros changes i.
  destruct (entries_labelled_by_diff_sets None None (Some changes) None changes)
    as (_ & M & _).
  destruct (M "sections/header.liquid" i) as (P & I & L & _).
  - left. reflexivity.
  - auto.
Defined.

End ComparisonLabelsWitness.

(** ** load_json on a text without a leading comment *)

Section LoadJsonMore.
Import PyStr Py Loader.

Lemma find_absent (sub s : string) :
  (forall a b, s <> (a ++ sub ++ b)%string) -> find s sub = (-1)%Z.
Proof.
  induction s as [|c s IH]; intro H; cbn [find].
  - destruct (String.prefix sub EmptyString) eqn:P; [|reflexivity].
    apply prefix_inv in P as [b Hb]. now contradiction (H EmptyString b).
  - destruct (String.prefix sub (String c s)) eqn:P.
    + apply prefix_inv in P as [b Hb]. now contradiction (H EmptyString b).
    + rewrite IH; [reflexivity|].
      intros a b E. apply (H (String c a) b). simpl. now rewrite E.
Qed.

Lemma strip_does_not_open (s : string) :
  startswith (lstrip s) "/*" = false -> startswith (strip s) "/*" = false.
Proof.
  intro H. destruct (string_dec (lstrip s) "/") as [E|N].
  - unfold strip. rewrite E. reflexivity.
  - now rewrite strip_opens_comment.
Qed.

Variable json_loads : string -> option json.

(** X12. A text that, after its leading whitespace, does not open with
    [/*], or that has no [*/] at all, goes to the parser as it is,
    surrounding whitespace included: a comment that is not closed, or that
    is not at the head of the file, is not skipped. *)
Theorem load_json_without_leading_comment (content : string) :
  startswith (lstrip content) "/*" = false
  \/ (forall a b, content <> (a ++ "*/" ++ b)%string) ->
  skip_comment content = content
  /\ load_json json_loads content
     = match json_loads content with
       | Some v => Ok v
       | None => Raise JSONDecodeError
       end.
Proof.
  intro H.
  assert (E : skip_comment content = content).
  { unfold skip_comment. destruct H as [H|H].
    - now rewrite (strip_does_not_open _ H).
    - rewrite (find_absent _ _ H). simpl.
      now destruct (startswith (strip content) "/*"). }
  split; [exact E|]. unfold load_json. now rewrite E.
Qed.

End LoadJsonMore.

Section LoadJsonMoreWitness.
Import PyStr Py Loader.

Lemma load_json_without_leading_comment_witness :
  skip_comment "{} /* trailing */" = "{} /* trailing */"
  /\ load_json loads_empty "{} /* trailing */" = Raise JSONDecodeError.
Proof.
  apply (load_json_without_leading_comment loads_empty "{} /* trailing */").
  left. reflexivity.
Defined.

End LoadJsonMoreWitness.

(** ** The configuration and the exit status when the file exists *)

Section ExistingConfig.
Import Py PyNotations VersionConfig Scripts.

Variable json_loads : string -> option json.
Variable work : git_refs -> version_info -> result unit.




(** X14. What [get_git_refs] and [get_version_info] return for a
    configuration that is an object.  Without a [git_config] key the four
    references are the defaults; with a [git_config] object each reference
    is its value there, or its default when the key is absent; a
    [git_config] of any other kind raises [AttributeError].  The three
    versions default to the empty object. *)
Theorem config_defaults (text : string) (d : list (string * json)) :
  json_loads text = Some (JDict d) ->
  let or_default (o : option json) (v : json) :=
    match o with Some x => x | None => v end in
  match lookup "git_config" d with
  | None =>
      get_git_refs json_loads (Some text)
      = Ok (mkRefs (JStr "HEAD") (JStr "v10.0.0") (JStr "upstream/main")
                   (JStr "upstream"))
  | Some (JDict g) =>
      get_git_refs json_loads (Some text)
      = Ok (mkRefs (or_default (lookup "current_branch" g) (JStr "HEAD"))
                   (or_default (lookup "comparison_ref" g) (JStr "v10.0.0"))
                   (or_default (lookup "destination_ref" g) (JStr "upstream/main"))
                   (or_default (lookup "upstream_remote" g) (JStr "upstream")))
  | Some _ => get_git_refs json_loads (Some text) = Raise AttributeError
  end
  /\ get_version_info json_loads (Some text)
     = Ok (mkInfo (or_default (lookup "current_version" d) (JDict []))
                  (or_default (lookup "comparison_version" d) (JDict []))
                  (or_default (lookup "destination_version" d) (JDict []))).
Proof.
  intros H or_default. unfold get_git_refs, get_version_info, load_version_config.
  rewrite H. cbn [bind py_get]. split; [|reflexivity].
  destruct (lookup "git_config" d) as [[]|]; reflexivity.
Qed.

End ExistingConfig.

Section ExistingConfigWitness.
Import Py PyNotations Loader VersionConfig Scripts.

Lemma config_defaults_witness :
  get_git_refs loads_empty (Some "{}")
  = Ok (mkRefs (JStr "HEAD") (JStr "v10.0.0") (JStr "upstream/main") (JStr "upstream"))
  /\ get_version_info loads_empty (Some "{}")
     = Ok (mkInfo (JDict []) (JDict []) (JDict [])).
Proof.
  apply (config_defaults loads_empty "{}" []). reflexivity.
Defined.

End ExistingConfigWitness.

(** ** parse_diff_patch *)

Section ParseDiffPatch.
Import PyStr CategorizeChanges DiffPatch.

Lemma take_length (n : nat) (s : string) : String.length (take n s) <= n.
Proof.
  revert s. induction n as [|n IH]; intros [|c s]; simpl; try lia.
  specialize (IH s). lia.
Qed.

Lemma take_nonempty (n : nat) (s : string) :
  nonempty s = true -> take (S n) s <> EmptyString.
Proof. destruct s; [discriminate | intros _; cbn [take]; discriminate]. Qed.

Lemma prefix_take (p s : string) (n : nat) :
  String.length p <= n -> String.prefix p (take n s) = String.prefix p s.
Proof.
  revert s n. induction p as [|a p IH]; intros s n H.
  - now destruct (take n s), s.
  - destruct n as [|n]; [simpl in H; lia|].
    destruct s as [|c s]; [reflexivity|].
    cbn [take String.prefix]. destruct (ascii_dec a c); [|reflexivity].
    apply IH. simpl in H. lia.
Qed.

Lemma append_at_length (n : nat) (x : change) (ls : list (list change)) :
  length (append_at n x ls) = length ls.
Proof.
  revert n. induction ls as [|l ls IH]; intros [|n]; simpl; auto.
Qed.

Lemma append_at_in (n : nat) (x : change) (ls : list (list change))
    (l : list change) (ch : change) :
  In l (append_at n x ls) -> In ch l ->
  ch = x \/ exists l', In l' ls /\ In ch l'.
Proof.
  revert n. induction ls as [|l0 ls IH]; intros [|n] Hl Hch; simpl in Hl;
    try contradiction.
  - destruct Hl as [<-|Hl].
    + apply in_app_or in Hch as [Hch|[<-|[]]]; [right | now left].
      exists l0. split; [now left | exact Hch].
    + right. exists l. split; [now right | exact Hch].
  - destruct Hl as [<-|Hl].
    + right. exists l0. split; [now left | exact Hch].
    + destruct (IH n Hl Hch) as [E|(l' & Hl' & Hc)]; [now left|].
      right. exists l'. split; [now right | exact Hc].
Qed.

Lemma decimal_nonneg (digits : string) (acc : Z) :
  (0 <= acc)%Z -> (0 <= decimal acc digits)%Z.
Proof.
  revert acc. induction digits as [|c d IH]; intros acc H; cbn [decimal]; [exact H|].
  apply IH. pose proof (Zle_0_nat (nat_of_ascii c - 48)). lia.
Qed.

Lemma store_ok (f : list string) (st : state) :
  state_ok f st ->
  NoDup (map fst (store st))
  /\ (forall k, In k (map fst (store st)) -> k <> EmptyString).
Proof.
  intros (_ & N & K & _). unfold store.
  destruct (current_file st) as [[|c file]|]; try (split; assumption).
  split.
  - now apply dict_set_nodup.
  - intros k Hk. apply dict_set_keys in Hk as [Hk| ->]; [now apply K | discriminate].
Qed.

Lemma lists_snoc_ok (f : list string) (ls : list (list change)) :
  (forall l ch, In l ls -> In ch l -> recorded f ch) ->
  forall l ch, In l (ls ++ [[]]) -> In ch l -> recorded f ch.
Proof.
  intros H l ch Hl Hch. apply in_app_or in Hl as [Hl|[<-|[]]].
  - now apply (H l).
  - contradiction.
Qed.

Lemma some_inv {A : Type} (a b : A) : Some a = Some b -> a = b.
Proof. intro H. now injection H. Qed.

Lemma step_ok (f : list string) (st st' : state) (line : string) :
  In line f -> state_ok f st -> step st line = Some st' -> state_ok f st'.
Proof.
  intros Hf Hst. pose proof Hst as (L & N & K & Z0).
  destruct (store_ok f st Hst) as [SN SK].
  unfold step.
  destruct (startswith line "diff --git").
  { destruct (diff_header line); intro H; apply some_inv in H; subst st';
      (split; [|split; [|split]]); cbv beta iota delta [lists result line_num]; auto.
    now apply lists_snoc_ok. }
  destruct (startswith line "+++ b/").
  { intro H; apply some_inv in H; subst st'.
    (split; [|split; [|split]]); cbv beta iota delta [lists result line_num]; auto.
    now apply lists_snoc_ok. }
  destruct (startswith line "@@").
  { destruct (hunk_start line) as [d|]; [|intro H; apply some_inv in H; subst st'; exact Hst].
    unfold py_int. destruct (String.length d <=? 4300)%nat; [|discriminate].
    intro H; apply some_inv in H; subst st'.
    (split; [|split; [|split]]); cbv beta iota delta [lists result line_num]; auto.
    intros n E. injection E as <-. apply decimal_nonneg. lia. }
  destruct (current_file st) as [[|c file]|]; try (intro H; apply some_inv in H; subst st'; exact Hst).
  destruct (line_num st) as [n|] eqn:Ln; [|intro H; apply some_inv in H; subst st'; exact Hst].
  destruct (startswith line "+" && negb (startswith line "+++")) eqn:A.
  - apply Bool.andb_true_iff in A as [P1 P3]. apply Bool.negb_true_iff in P3.
    change (slice_from 1 line) with (drop 1 line).
    destruct (nonempty (rstrip (drop 1 line))) eqn:NE; cbv beta iota delta [andb];
      [|intro H; apply some_inv in H; subst st'; exact Hst].
    destruct (startswith (rstrip (drop 1 line)) "---") eqn:D; cbv beta iota delta [negb];
      intro H; apply some_inv in H; subst st'; [exact Hst|].
    (split; [|split; [|split]]); cbv beta iota delta [lists result line_num]; auto.
    + intros l ch Hl Hch.
      destruct (append_at_in _ _ _ _ _ Hl Hch) as [->|(l' & Hl' & Hc)];
        [|now apply (L l')].
      unfold recorded. cbv beta iota delta [change_content change_line].
      split; [|split; [|split; [|split]]].
      * now apply (take_nonempty 199).
      * apply take_length.
      * unfold startswith in *. rewrite prefix_take; [exact D | simpl; lia].
      * now apply Z0.
      * exists line. auto.
    + intros m E. injection E as <-. specialize (Z0 n eq_refl). lia.
  - destruct (startswith line "-" && negb (startswith line "---"));
      [intro H; apply some_inv in H; subst st'; exact Hst|].
    destruct (startswith line " "); intro H; apply some_inv in H; subst st'; [|exact Hst].
    (split; [|split; [|split]]); cbv beta iota delta [lists result line_num]; auto.
    intros m E. injection E as <-. specialize (Z0 n eq_refl). lia.
Qed.

Lemma run_ok (f g : list string) (st st' : state) :
  incl g f -> state_ok f st -> run st g = Some st' -> state_ok f st'.
Proof.
  revert st. induction g as [|line g IH]; intros st Hg Hst; simpl.
  - intro H. injection H as <-. exact Hst.
  - destruct (step st line) as [st1|] eqn:S; [|discriminate].
    apply IH.
    + intros x Hx. apply Hg. now right.
    + apply (step_ok f st st1 line); auto. apply Hg. now left.
Qed.

Lemma initial_ok (f : list string) : state_ok f initial.
Proof.
  split; [|split; [|split]]; simpl.
  - intros l ch [<-|[]] [].
  - constructor.
  - intros k [].
  - discriminate.
Qed.

Lemma nth_in_lists (ls : list (list change)) (n : nat) (ch : change) :
  In ch (nth n ls []) -> In (nth n ls []) ls.
Proof.
  intro H. destruct (nth_in_or_default n ls []) as [I|E]; [exact I|].
  rewrite E in H. contradiction.
Qed.

(** X15. Whatever the patch, in the dictionary [parse_diff_patch] returns
    no key is empty or repeated, and every recorded change has a content
    that is not empty, has at most 200 characters, does not start with
    [---], and is what a line of the patch that starts with [+] and not
    with [+++] holds after the [+], without its trailing white space and
    cut at 200 characters; its line number is not negative. *)
Theorem parse_diff_patch_records_added_lines (f : list string)
    (parsed : list (string * list change)) :
  parse_diff_patch f = Some parsed ->
  NoDup (map fst parsed)
  /\ (forall file changes, In (file, changes) parsed ->
        file <> EmptyString
        /\ forall ch, In ch changes ->
             change_content ch <> EmptyString
             /\ String.length (change_content ch) <= 200
             /\ startswith (change_content ch) "---" = false
             /\ (0 <= change_line ch)%Z
             /\ exists line,
                  In line f
                  /\ startswith line "+" = true
                  /\ startswith line "+++" = false
                  /\ change_content ch = take 200 (rstrip (drop 1 line))).
Proof.
  unfold parse_diff_patch.
  destruct (run initial f) as [st|] eqn:R; [|discriminate].
  intro H. injection H as <-.
  pose proof (run_ok f f initial st (incl_refl f) (initial_ok f) R) as Hst.
  destruct (store_ok f st Hst) as [SN SK]. destruct Hst as (L & _).
  rewrite map_map. cbn [fst]. split; [exact SN|].
  intros file changes Hin. apply in_map_iff in Hin as ([k id] & E & Hk).
  cbn [fst snd] in E. injection E as <- <-. split.
  - apply SK. apply in_map_iff. now exists (k, id).
  - intros ch Hch. apply (L (nth id (lists st) [])); [|exact Hch].
    now apply (nth_in_lists _ _ ch).
Qed.

(** The loop raises on a line whatever the state. *)
Lemma step_raises (st : state) (line : string) :
  step st line = None <-> overlong_hunk line = true.
Proof.
  unfold step, overlong_hunk, py_int.
  destruct (startswith line "diff --git").
  { destruct (diff_header line); split; discriminate. }
  destruct (startswith line "+++ b/"); [split; discriminate|].
  destruct (startswith line "@@").
  - destruct (hunk_start line) as [d|]; [|split; discriminate].
    destruct (String.length d <=? 4300)%nat; split; (discriminate || reflexivity).
  - destruct (current_file st) as [[|c file]|]; try (split; discriminate).
    destruct (line_num st); [|split; discriminate].
    destruct (startswith line "+" && negb (startswith line "+++")).
    + destruct (nonempty (rstrip (slice_from 1 line))
                && negb (startswith (rstrip (slice_from 1 line)) "---"));
        split; discriminate.
    + destruct (startswith line "-" && negb (startswith line "---"));
        [split; discriminate|].
      destruct (startswith line " "); split; discriminate.
Qed.

Lemma run_raises (f : list string) (st : state) :
  run st f = None <-> exists line, In line f /\ overlong_hunk line = true.
Proof.
  revert st. induction f as [|line f IH]; intro st; cbn [run].
  - split; [discriminate | intros (l & [] & _)].
  - destruct (step st line) as [st1|] eqn:S.
    + rewrite IH. split.
      * intros (l & Hl & O). exists l. split; [now right | exact O].
      * intros (l & [<-|Hl] & O).
        -- apply (step_raises st) in O. rewrite O in S. discriminate.
        -- now exists l.
    + split; [|reflexivity]. intros _. exists line. split; [now left|].
      now apply (step_raises st).
Qed.

Lemma span_digits_length (s : string) :
  String.length (fst (span_digits s)) + String.length (snd (span_digits s))
  = String.length s.
Proof.
  induction s as [|c s IH]; [reflexivity|].
  cbn [span_digits]. destruct (is_digit c); [|reflexivity].
  destruct (span_digits s) as [d r]. cbn [fst snd String.length] in *. lia.
Qed.

Lemma drop_length (n : nat) (s : string) :
  String.length (drop n s) <= String.length s.
Proof.
  revert s. induction n as [|n IH]; intros [|c s]; cbn [drop String.length]; try lia.
  specialize (IH s). lia.
Qed.

Lemma skip_count_length (s : string) :
  String.length (skip_count s) <= String.length s.
Proof.
  destruct s as [|c s]; cbn [skip_count]; [lia|].
  destruct (Ascii.eqb c ","); [|lia].
  pose proof (span_digits_length s) as H.
  destruct (span_digits s) as [[|a d] r]; cbn [fst snd String.length] in *; lia.
Qed.

Lemma hunk_at_length (s new_start : string) :
  hunk_at s = Some new_start -> String.length new_start <= String.length s.
Proof.
  unfold hunk_at. destruct (String.prefix "@@ -" s); [|discriminate].
  pose proof (span_digits_length (drop 4 s)) as H1.
  pose proof (drop_length 4 s) as D1.
  destruct (span_digits (drop 4 s)) as [[|a d1] r1]; [discriminate|].
  cbn [fst snd] in H1.
  pose proof (skip_count_length r1) as K1.
  destruct (String.prefix " +" (skip_count r1)); [|discriminate].
  pose proof (span_digits_length (drop 2 (skip_count r1))) as H3.
  pose proof (drop_length 2 (skip_count r1)) as D3.
  destruct (span_digits (drop 2 (skip_count r1))) as [[|b d3] r3]; [discriminate|].
  cbn [fst snd] in H3.
  destruct (String.prefix " @@" (skip_count r3)); [|discriminate].
  intro E. apply some_inv in E. subst new_start. lia.
Qed.

Lemma hunk_start_length (s new_start : string) :
  hunk_start s = Some new_start -> String.length new_start <= String.length s.
Proof.
  induction s as [|c s IH]; cbn [hunk_start].
  - destruct (hunk_at EmptyString) eqn:H; [|discriminate].
    intro E. apply some_inv in E. subst. now apply hunk_at_length.
  - destruct (hunk_at (String c s)) eqn:H.
    + intro E. apply some_inv in E. subst. now apply hunk_at_length.
    + intro E. specialize (IH E). cbn [String.length]. lia.
Qed.

(** X16. [parse_diff_patch] raises exactly when some line of the patch
    reaches the branch of the hunk header with a new-file line number of
    more than 4300 digits, which [int] refuses; so it returns a dictionary
    for every patch whose lines have at most 4300 characters. *)
Theorem parse_diff_patch_raises_on_overlong_hunk (f : list string) :
  (parse_diff_patch f = None
   <-> exists line, In line f /\ overlong_hunk line = true)
  /\ ((forall line, In line f -> String.length line <= 4300) ->
      exists parsed, parse_diff_patch f = Some parsed).
Proof.
  assert (R : parse_diff_patch f = None <-> run initial f = None).
  { unfold parse_diff_patch. destruct (run initial f); split; congruence. }
  split; [now rewrite R, run_raises|].
  intro H. clear R. unfold parse_diff_patch.
  destruct (run initial f) as [st|] eqn:E; [eexists; reflexivity|].
  exfalso. apply run_raises in E as (line & Hl & O).
  unfold overlong_hunk in O.
  destruct (hunk_start line) as [d|] eqn:Hs;
    [|rewrite Bool.andb_false_r in O; discriminate].
  apply Bool.andb_true_iff in O as [_ O]. apply Bool.negb_true_iff in O.
  apply Nat.leb_gt in O.
  pose proof (hunk_start_length _ _ Hs). specialize (H line Hl). lia.
Qed.

(** Without a hunk header that the expression of line 72 matches, the
    line number stays unset and no list gets a change. *)
Lemma step_without_hunk (st : state) (line : string) :
  hunk_start line = None ->
  line_num st = None -> Forall (fun l => l = []) (lists st) ->
  exists st', step st line = Some st'
              /\ line_num st' = None /\ Forall (fun l => l = []) (lists st').
Proof.
  intros Hh Hn Hl. unfold step. rewrite Hh, Hn.
  assert (Hl' : Forall (fun l : list change => l = []) (lists st ++ [[]])).
  { apply Forall_app. split; [exact Hl | now constructor]. }
  destruct (startswith line "diff --git").
  { destruct (diff_header line); eexists; (split; [reflexivity|]); now split. }
  destruct (startswith line "+++ b/").
  { eexists; (split; [reflexivity|]); now split. }
  destruct (startswith line "@@"); [now exists st|].
  destruct (current_file st) as [[|c file]|]; now exists st.
Qed.

Lemma run_without_hunk (f : list string) (st : state) :
  (forall line, In line f -> hunk_start line = None) ->
  line_num st = None -> Forall (fun l => l = []) (lists st) ->
  exists st', run st f = Some st' /\ Forall (fun l => l = []) (lists st').
Proof.
  revert st. induction f as [|line f IH]; intros st H Hn Hl; cbn [run].
  - now exists st.
  - destruct (step_without_hunk st line (H line (or_introl eq_refl)) Hn Hl)
      as (st1 & -> & Hn1 & Hl1).
    apply IH; auto. intros l Hin. apply H. now right.
Qed.

(** X17. A patch in which the expression of the hunk header matches no
    line gives a dictionary whose lists of changes are all empty: the
    added lines of a file are recorded only after a hunk header has set
    the line number. *)
Theorem parse_diff_patch_without_hunk_header (f : list string) :
  (forall line, In line f -> hunk_start line = None) ->
  exists parsed,
    parse_diff_patch f = Some parsed
    /\ forall file changes, In (file, changes) parsed -> changes = [].
Proof.
  intro H. unfold parse_diff_patch.
  destruct (run_without_hunk f initial H eq_refl) as (st & -> & Hl).
  { repeat constructor. }
  eexists. split; [reflexivity|].
  intros file changes Hin. apply in_map_iff in Hin as ([k id] & E & _).
  cbn [fst snd] in E. injection E as _ <-.
  destruct (nth_in_or_default id (lists st) []) as [I|E]; [|exact E].
  rewrite Forall_forall in Hl. now apply Hl.
Qed.

End ParseDiffPatch.

Section ParseDiffPatchWitness.
Import PyStr CategorizeChanges DiffPatch.

Lemma parse_diff_patch_records_added_lines_witness :
  let parsed := [("a.txt", [mkChange 1 "x"])] in
  NoDup (map fst parsed)
  /\ forall file changes, In (file, changes) parsed -> file <> EmptyString.
Proof.
  intro parsed.
  destruct (parse_diff_patch_records_added_lines
              (readlines (unlines ["diff --git a/a.txt b/a.txt"; "+++ b/a.txt";
                                   "@@ -0,0 +1 @@"; "+x"]))
              parsed) as [N A].
  - vm_compute. reflexivity.
  - split; [exact N|]. intros file changes H. exact (proj1 (A file changes H)).
Defined.

Lemma parse_diff_patch_without_hunk_header_witness :
  exists parsed,
    parse_diff_patch (readlines (unlines ["diff --git a/a.txt b/a.txt"; "+x"]))
    = Some parsed
    /\ forall file changes, In (file, changes) parsed -> changes = [].
Proof.
  apply (parse_diff_patch_without_hunk_header
           (readlines (unlines ["diff --git a/a.txt b/a.txt"; "+x"]))).
  intros line [<-|[<-|[]]]; reflexivity.
Defined.

End ParseDiffPatchWitness.

(** ** A patch that adds one file *)

Section AddedFile.
Import PyStr CategorizeChanges DiffPatch.

Lemma append_at_last (l0 : list (list change)) (l : list change) (x : change) :
  append_at (length l0) x (l0 ++ [l]) = l0 ++ [l ++ [x]].
Proof. induction l0 as [|a l0 IH]; simpl; [reflexivity | now rewrite IH]. Qed.

Lemma prefix_nil (s : string) : String.prefix EmptyString s = true.
Proof. now destruct s. Qed.

(** A content that does not start with [++] gives a line that does not
    start with [+++]. *)
Lemma added_line_prefix (content t : string) :
  startswith content "++" = false ->
  String.prefix (String "+" (String "+" t)) (content ++ String newline EmptyString)
  = false.
Proof.
  unfold startswith. intro H.
  destruct content as [|a [|b content]]; cbn [append].
  - apply prefix_head_ne. discriminate.
  - destruct (ascii_dec "+" a) as [<-|N]; [|now apply prefix_head_ne].
    cbn [append]. rewrite prefix_head_eq. apply prefix_head_ne. discriminate.
  - destruct (ascii_dec "+" a) as [<-|N]; [|now apply prefix_head_ne].
    cbn [append]. rewrite prefix_head_eq.
    destruct (ascii_dec "+" b) as [<-|N]; [|now apply prefix_head_ne].
    rewrite !prefix_head_eq in H. destruct content; discriminate H.
Qed.

Lemma step_added_line (st : state) (content : string) (c : ascii) (file : string)
    (n : Z) :
  current_file st = Some (String c file) -> line_num st = Some n ->
  startswith content "++" = false ->
  step st (added_line content)
  = Some match kept content with
         | Some text =>
             mkState (result st)
                     (append_at (current_changes st) (mkChange n text) (lists st))
                     (current_file st) (current_changes st) (Some (n + 1)%Z)
         | None => st
         end.
Proof.
  intros Hf Hn Hc. unfold step, added_line, startswith.
  rewrite (prefix_head_ne "d" "+") by discriminate.
  rewrite prefix_head_eq.
  rewrite (added_line_prefix content " b/" Hc).
  rewrite (prefix_head_ne "@" "+") by discriminate.
  rewrite Hf, Hn.
  rewrite !prefix_head_eq.
  rewrite (added_line_prefix content EmptyString Hc).
  rewrite prefix_nil.
  cbv beta iota delta [andb negb].
  change (slice_from 1 (String "+" (content ++ String newline EmptyString)))
    with (content ++ String newline EmptyString)%string.
  unfold kept, startswith.
  destruct (nonempty (rstrip (content ++ String newline EmptyString)));
    destruct (String.prefix "---" (rstrip (content ++ String newline EmptyString)));
    cbv beta iota delta [andb negb]; now rewrite ?Hf.
Qed.

Lemma run_added_lines (contents : list string) (r : list (string * nat))
    (l0 : list (list change)) (l : list change) (c : ascii) (file : string) (n : Z) :
  Forall (fun content => startswith content "++" = false) contents ->
  exists n',
    run (mkState r (l0 ++ [l]) (Some (String c file)) (length l0) (Some n))
        (map added_line contents)
    = Some (mkState r (l0 ++ [l ++ numbered n contents]) (Some (String c file))
                    (length l0) (Some n')).
Proof.
  intro H. revert l n. induction H as [|content contents Hc _ IH]; intros l n.
  - exists n. cbn [map run numbered]. now rewrite app_nil_r.
  - cbn [map run numbered].
    rewrite (step_added_line
               (mkState r (l0 ++ [l]) (Some (String c file)) (length l0) (Some n))
               content c file n eq_refl eq_refl Hc).
    cbv beta iota delta [result lists current_file current_changes line_num].
    destruct (kept content) as [text|].
    + rewrite append_at_last.
      destruct (IH (l ++ [mkChange n text]) (n + 1)%Z) as [n' ->].
      exists n'. now rewrite <- app_assoc.
    + apply IH.
Qed.

(** X18. A patch that adds the file [path] with one hunk: after the header
    lines and a hunk header that gives [n] as the first new line, the
    added lines.  [parse_diff_patch] returns one key, [path], with the
    added lines that have a content (not blank, not starting with [---]),
    numbered [n], [n + 1], ... without gaps: an added line that is not
    recorded does not advance the line number either. *)
Theorem parse_diff_patch_added_file (path hunk new_start : string) (n : Z)
    (contents : list string) :
  path <> EmptyString -> path <> "/dev/null" ->
  strip (path ++ String newline EmptyString) = path ->
  startswith hunk "@@" = true ->
  hunk_start hunk = Some new_start -> py_int new_start = Some n ->
  Forall (fun content => startswith content "++" = false) contents ->
  parse_diff_patch
    ([("diff --git a/" ++ path ++ " b/" ++ path ++ String newline EmptyString)%string;
      ("--- /dev/null" ++ String newline EmptyString)%string;
      ("+++ b/" ++ path ++ String newline EmptyString)%string;
      hunk]
     ++ map added_line contents)
  = Some [(path, numbered n contents)].
Proof.
  intros Hp Hnull Hstrip Hat Hh Hint Hc.
  unfold parse_diff_patch. cbn [app run].
  (* the diff --git line *)
  assert (S1 : exists l0 cf,
             step initial ("diff --git a/" ++ path ++ " b/" ++ path
                           ++ String newline EmptyString)
             = Some (mkState [] l0 cf (length l0 - 1) None)).
  { unfold step, startswith. cbn [append]. rewrite !prefix_head_eq.
    rewrite prefix_nil.
    match goal with |- context [diff_header ?s] => destruct (diff_header s) end.
    - now exists [[]; []], (Some s).
    - now exists [[]], None. }
  destruct S1 as (l0 & cf & ->).
  (* the --- line *)
  assert (S2 : step (mkState [] l0 cf (length l0 - 1) None)
                    ("--- /dev/null" ++ String newline EmptyString)
               = Some (mkState [] l0 cf (length l0 - 1) None)).
  { unfold step. cbn [append startswith String.prefix]. cbn.
    now destruct cf as [[|c f]|]. }
  rewrite S2.
  (* the +++ line *)
  assert (S3 : step (mkState [] l0 cf (length l0 - 1) None)
                    ("+++ b/" ++ path ++ String newline EmptyString)
               = Some (mkState [] (l0 ++ [[]]) (Some path) (length l0) None)).
  { unfold step, startswith. cbn [append].
    rewrite (prefix_head_ne "d" "+") by discriminate.
    rewrite !prefix_head_eq.
    rewrite prefix_nil.
    change (slice_from 6 ?s) with (drop 6 s).
    cbn [drop lists result line_num]. rewrite Hstrip.
    destruct (String.eqb path "/dev/null") eqn:E; [|reflexivity].
    apply String.eqb_eq in E. contradiction. }
  rewrite S3.
  (* the hunk header *)
  assert (S4 : step (mkState [] (l0 ++ [[]]) (Some path) (length l0) None) hunk
               = Some (mkState [] (l0 ++ [[]]) (Some path) (length l0) (Some n))).
  { unfold step.
    assert (D : startswith hunk "diff --git" = false).
    { destruct (startswith hunk "diff --git") eqn:D; [|reflexivity].
      destruct (prefixes_comparable _ _ _ Hat D); discriminate. }
    assert (P : startswith hunk "+++ b/" = false).
    { destruct (startswith hunk "+++ b/") eqn:P; [|reflexivity].
      destruct (prefixes_comparable _ _ _ Hat P); discriminate. }
    now rewrite D, P, Hat, Hh, Hint. }
  rewrite S4.
  destruct path as [|c file]; [contradiction|].
  destruct (run_added_lines contents [] l0 [] c file n Hc) as [n' ->].
  cbn [store current_file result current_changes dict_set map fst snd lists].
  rewrite app_nth2, Nat.sub_diag by lia. reflexivity.
Qed.

End AddedFile.

Section AddedFileWitness.
Import PyStr CategorizeChanges DiffPatch.

Lemma parse_diff_patch_added_file_witness :
  parse_diff_patch
    ([("diff --git a/" ++ "assets/custom.js" ++ " b/" ++ "assets/custom.js"
       ++ String newline EmptyString)%string;
      ("--- /dev/null" ++ String newline EmptyString)%string;
      ("+++ b/" ++ "assets/custom.js" ++ String newline EmptyString)%string;
      ("@@ -0,0 +1,3 @@" ++ String newline EmptyString)%string]
     ++ map added_line ["let a = 1;"; EmptyString; "let b = 2;"])
  = Some [("assets/custom.js",
           [mkChange 1 "let a = 1;"; mkChange 2 "let b = 2;"])].
Proof.
  apply (parse_diff_patch_added_file "assets/custom.js"
           ("@@ -0,0 +1,3 @@" ++ String newline EmptyString) "1" 1
           ["let a = 1;"; EmptyString; "let b = 2;"]);
    try reflexivity; try discriminate.
  repeat constructor.
Defined.

End AddedFileWitness.

(** ** extract_integration_points *)

Section IntegrationPoints.
Import PyStr CategorizeChanges DiffPatch.

Lemma search_here (p : string -> bool) (s : string) :
  p s = true -> search p s = true.
Proof. intro H. destruct s; cbn [search]; now rewrite H. Qed.

Lemma search_tail (p : string -> bool) (c : ascii) (s : string) :
  search p s = true -> search p (String c s) = true.
Proof. intro H. cbn [search]. rewrite H. apply Bool.orb_true_r. Qed.

Lemma search_drop (p : string -> bool) (n : nat) (s : string) :
  search p (drop n s) = true -> search p s = true.
Proof.
  revert s. induction n as [|n IH]; intros [|c s]; cbn [drop]; auto.
  intro H. apply search_tail. now apply IH.
Qed.

Lemma search_lstrip (p : string -> bool) (s : string) :
  search p (lstrip s) = true -> search p s = true.
Proof.
  induction s as [|c s IH]; cbn [lstrip]; auto.
  destruct (isspace c); auto. intro H. apply search_tail. now apply IH.
Qed.

Lemma search_weaken (p q : string -> bool) (s : string) :
  (forall t, p t = true -> search q t = true) ->
  search p s = true -> search q s = true.
Proof.
  intro H. induction s as [|c s IH]; cbn [search]; intro S.
  - apply Bool.orb_true_iff in S as [S|S]; [now apply (H EmptyString) | discriminate].
  - apply Bool.orb_true_iff in S as [S|S]; [now apply (H (String c s))|].
    apply (search_tail q). now apply IH.
Qed.

Lemma iprefix_app (a b s : string) :
  iprefix (a ++ b) s = true -> iprefix b (drop (String.length a) s) = true.
Proof.
  revert s. induction a as [|x a IH]; intros s; cbn [append String.length drop]; auto.
  destruct s as [|c s]; cbn [iprefix drop]; [discriminate|].
  intro H. apply Bool.andb_true_iff in H as [_ H]. now apply IH.
Qed.

(** Each of the three patterns holds the literal [custom-]. *)
Lemma render_mentions_custom (s : string) :
  render_at s = true -> search (iprefix "custom-") s = true.
Proof.
  unfold render_at. intro H. apply Bool.andb_true_iff in H as [_ H].
  apply (search_drop _ 6).
  destruct (drop 6 s) as [|c r]; [discriminate|].
  apply Bool.andb_true_iff in H as [_ H].
  apply search_tail, search_lstrip.
  destruct (lstrip r) as [|q t]; [discriminate|].
  apply Bool.andb_true_iff in H as [_ H].
  now apply search_tail, search_here.
Qed.

Lemma js_mentions_custom (s : string) :
  js_at s = true -> search (iprefix "custom-") s = true.
Proof.
  unfold js_at. intro H. apply Bool.andb_true_iff in H as [H _].
  now apply search_here.
Qed.

Lemma css_mentions_custom (s : string) :
  css_at s = true -> search (iprefix "custom-") s = true.
Proof.
  unfold css_at. intro H. apply Bool.andb_true_iff in H as [H _].
  apply (search_drop _ 10), search_here.
  exact (iprefix_app "component-" "custom-" s H).
Qed.

Lemma first_description_custom (content description : string) :
  first_description integration_patterns content = Some description ->
  search (iprefix "custom-") content = true
  /\ In description (map snd integration_patterns).
Proof.
  unfold integration_patterns. cbn [first_description map snd].
  destruct (search render_at content) eqn:R.
  { intro H. injection H as <-. split; [|now left].
    apply (search_weaken render_at); [exact render_mentions_custom | exact R]. }
  destruct (search js_at content) eqn:J.
  { intro H. injection H as <-. split; [|right; now left].
    apply (search_weaken js_at); [exact js_mentions_custom | exact J]. }
  destruct (search css_at content) eqn:C; [|discriminate].
  intro H. injection H as <-. split; [|right; right; now left].
  apply (search_weaken css_at); [exact css_mentions_custom | exact C].
Qed.

Lemma points_length (filepath : string) (changes : list change) :
  length (extract_integration_points filepath changes) <= length changes.
Proof.
  unfold extract_integration_points.
  induction changes as [|ch changes IH]; [reflexivity|].
  cbn [flat_map]. rewrite length_app.
  destruct (first_description integration_patterns (change_content ch));
    cbn [length]; lia.
Qed.

(** X19. [extract_integration_points] gives at most one integration point
    for a change, so never more points than changes; every point carries
    the line number of a change whose content holds [custom-], in upper or
    lower case, and one of the three descriptions; changes none of which
    holds [custom-] give no integration point. *)
Theorem integration_points_mention_custom (filepath : string)
    (changes : list change) :
  let points := extract_integration_points filepath changes in
  length points <= length changes
  /\ (forall point, In point points ->
        In (point_description point) (map snd integration_patterns)
        /\ exists ch,
             In ch changes
             /\ change_line ch = point_line point
             /\ search (iprefix "custom-") (change_content ch) = true)
  /\ ((forall ch, In ch changes ->
         search (iprefix "custom-") (change_content ch) = false) ->
      points = []).
Proof.
  intro points. subst points.
  assert (P : forall point,
             In point (extract_integration_points filepath changes) ->
             In (point_description point) (map snd integration_patterns)
             /\ exists ch,
                  In ch changes
                  /\ change_line ch = point_line point
                  /\ search (iprefix "custom-") (change_content ch) = true).
  { unfold extract_integration_points.
    intros point Hp. apply in_flat_map in Hp as (ch & Hch & Hp).
    destruct (first_description integration_patterns (change_content ch))
      as [description|] eqn:F; [|contradiction].
    destruct Hp as [<-|[]]. cbn [point_description point_line].
    destruct (first_description_custom _ _ F) as [S D].
    split; [exact D|]. now exists ch. }
  split; [|split].
  - apply points_length.
  - exact P.
  - intro H.
    destruct (extract_integration_points filepath changes) as [|point rest];
      [reflexivity|].
    destruct (P point) as [_ (ch & Hc & _ & S)]; [now left|].
    rewrite (H ch Hc) in S. discriminate.
Qed.

End IntegrationPoints.

(** ** analyze-json-diff.py and the first pair of analyze-all-json-diffs.py *)

Section TwoWayLocale.
Import PyStr Py PyNotations AnalyzeAllJsonDiffs.

Variable key_order : list string -> list string.
Hypothesis key_order_valid : forall l, Permutation (key_order l) l.

Lemma lookup_item (d : document) (k : string) (v : json) :
  NoDup (map fst d) -> In (k, v) d -> lookup k d = Some v.
Proof.
  induction d as [|[k0 v0] d IH]; intros N Hin; [contradiction|].
  inversion N as [|? ? Hk Hd]; subst. cbn [lookup].
  destruct Hin as [E|Hin].
  - injection E as -> ->. now rewrite String.eqb_refl.
  - destruct (String.eqb k0 k) eqn:E; [|now apply IH].
    apply String.eqb_eq in E. subst k0. exfalso. apply Hk.
    apply in_map_iff. now exists (k, v).
Qed.

Lemma mem_in (d : document) (k : string) :
  AnalyzeJsonDiff.mem k d = true <-> In k (map fst d).
Proof.
  unfold AnalyzeJsonDiff.mem. split.
  - destruct (lookup k d) as [v|] eqn:L; [|discriminate]. intros _.
    apply lookup_some_in in L. apply in_map_iff. now exists (k, v).
  - intro H. apply in_map_iff in H as ([k' v] & E & Hin). cbn in E. subst k'.
    destruct (lookup_in d k v Hin) as [w ->]. reflexivity.
Qed.

Lemma mapM_pure {A B : Type} (f : A -> result B) (g : A -> B) (l : list A) :
  (forall x, In x l -> f x = Ok (g x)) -> mapM f l = Ok (map g l).
Proof.
  induction l as [|x l IH]; intro H; [reflexivity|].
  cbn [mapM map]. rewrite (H x (or_introl eq_refl)). cbn [bind].
  rewrite IH; [reflexivity|]. intros y Hy. apply H. now right.
Qed.

Lemma concat_map_filter {A B : Type} (g : A -> list B) (p : A -> bool) (l : list A) :
  (forall x, p x = false -> g x = []) ->
  concat (map g (filter p l)) = concat (map g l).
Proof.
  intro H. induction l as [|x l IH]; [reflexivity|].
  cbn [filter map concat]. destruct (p x) eqn:P.
  - cbn [map concat]. now rewrite IH.
  - now rewrite (H x P), IH.
Qed.

Lemma concat_map_ext_in {A B : Type} (f g : A -> list B) (l : list A) :
  (forall x, In x l -> f x = g x) -> concat (map f l) = concat (map g l).
Proof.
  intro H. induction l as [|x l IH]; [reflexivity|].
  cbn [map concat]. rewrite (H x (or_introl eq_refl)), IH; [reflexivity|].
  intros y Hy. apply H. now right.
Qed.

Lemma common_keys_permutation (dawn current : document) :
  NoDup (map fst dawn) -> NoDup (map fst current) ->
  Permutation (filter (fun key => AnalyzeJsonDiff.mem key dawn) (map fst current))
              (filter (fun key => AnalyzeJsonDiff.mem key current) (map fst dawn)).
Proof.
  intros Nd Nc. apply NoDup_Permutation; try now apply NoDup_filter.
  intro k. rewrite !filter_In, !mem_in. tauto.
Qed.

(** X20. On documents with pairwise different keys, [analyze_locale] of
    analyze-json-diff.py returns, and finds what the first pair of
    [analyze_locale] of analyze-all-json-diffs.py finds: the same custom
    additions in the same order and the same modifications in some order;
    the three-way records are the two-way records with the
    ["comparison"] key of the first pair. *)
Theorem two_way_locale_agrees_with_first_pair (dawn current dawn_v15 : document) :
  NoDup (map fst dawn) -> NoDup (map fst current) ->
  let three_way := analyze_locale dawn current dawn_v15 in
  exists two_way,
    AnalyzeJsonDiff.analyze_locale key_order dawn current = Ok two_way
    /\ flat_custom_additions three_way
       = map (AnalyzeJsonDiff.key_with_comparison "v10_upstream_vs_v10_custom")
             (AnalyzeJsonDiff.locale_custom_additions two_way)
    /\ Permutation
         (flat_modifications three_way)
         (map (AnalyzeJsonDiff.key_with_comparison "v10_upstream_vs_v10_custom")
              (AnalyzeJsonDiff.locale_modifications two_way)).
Proof.
  intros Nd Nc three_way. subst three_way.
  set (wc := AnalyzeJsonDiff.key_with_comparison "v10_upstream_vs_v10_custom").
  set (g := fun key =>
              match lookup key dawn, lookup key current with
              | Some old, Some new =>
                  if negb (py_eq old new)
                  then [AnalyzeJsonDiff.KeyModified key old new
                          ("Modified translation: " ++ key)%string]
                  else []
              | _, _ => []
              end).
  set (common := filter (fun key => AnalyzeJsonDiff.mem key current) (map fst dawn)).
  unfold AnalyzeJsonDiff.analyze_locale. fold common.
  rewrite (mapM_pure _ g).
  2:{ intros key Hk.
      apply (Permutation_in _ (key_order_valid common)) in Hk.
      apply filter_In in Hk as [Hd Hc].
      apply mem_in in Hc.
      apply in_map_iff in Hd as ([k' o] & E & Hd). cbn in E. subst k'.
      apply in_map_iff in Hc as ([k' n] & E & Hc). cbn in E. subst k'.
      unfold AnalyzeJsonDiff.index, g.
      rewrite (lookup_item dawn key o Nd Hd), (lookup_item current key n Nc Hc).
      cbn [bind]. now destruct (negb (py_eq o n)). }
  cbn [bind]. eexists. split; [reflexivity|].
  cbn [AnalyzeJsonDiff.locale_custom_additions AnalyzeJsonDiff.locale_modifications].
  unfold analyze_locale, compare_items, concat_pairs.
  cbn [flat_custom_additions flat_modifications fst snd].
  rewrite !map_map. split.
  - clear. induction current as [|[k v] current' IH]; [reflexivity|].
    cbn [map concat]. rewrite map_app, <- IH. f_equal.
    unfold AnalyzeJsonDiff.mem.
    destruct (lookup k dawn) as [old|]; cbn [negb fst].
    + destruct (negb (py_eq old v)); reflexivity.
    + destruct (startswith k "custom_"); reflexivity.
  - match goal with
    | |- Permutation ?a _ =>
        replace a with (map wc (concat (map g (map fst current))))
    end.
    2:{ rewrite concat_map, !map_map.
        apply concat_map_ext_in. intros [k v] Hin. cbn [fst snd]. unfold g.
        rewrite (lookup_item current k v Nc Hin).
        destruct (lookup k dawn) as [old|]; [|now destruct (startswith k "custom_")].
        destruct (negb (py_eq old v)); reflexivity. }
    apply Permutation_map.
    rewrite <- (concat_map_filter g (fun key => AnalyzeJsonDiff.mem key dawn)).
    2:{ intros k H. unfold AnalyzeJsonDiff.mem in H. unfold g.
        now destruct (lookup k dawn). }
    apply concat_permutation, Permutation_map.
    transitivity common.
    + now apply common_keys_permutation.
    + symmetry. apply key_order_valid.
Qed.

End TwoWayLocale.

Section TwoWayLocaleWitness.
Import PyStr Py PyNotations AnalyzeAllJsonDiffs.

Lemma two_way_locale_agrees_with_first_pair_witness :
  let dawn := [("title", JStr "Cart")] in
  let current := [("title", JStr "Basket"); ("custom_note", JStr "Note")] in
  exists two_way,
    AnalyzeJsonDiff.analyze_locale (fun l => l) dawn current = Ok two_way
    /\ flat_custom_additions (analyze_locale dawn current [])
       = map (AnalyzeJsonDiff.key_with_comparison "v10_upstream_vs_v10_custom")
             (AnalyzeJsonDiff.locale_custom_additions two_way)
    /\ Permutation
         (flat_modifications (analyze_locale dawn current []))
         (map (AnalyzeJsonDiff.key_with_comparison "v10_upstream_vs_v10_custom")
              (AnalyzeJsonDiff.locale_modifications two_way)).
Proof.
  apply (two_way_locale_agrees_with_first_pair (fun l => l)
           (fun l => Permutation_refl l)
           [("title", JStr "Cart")]
           [("title", JStr "Basket"); ("custom_note", JStr "Note")] []).
  - repeat constructor. intros [].
  - repeat constructor; simpl; intuition discriminate.
Defined.

End TwoWayLocaleWitness.

Section TwoWaySchema.
Import PyStr Py PyNotations AnalyzeAllJsonDiffs.

Variable DeepDiff : json -> json -> option string.
Variable set_order : list json -> list json.

Let wc := AnalyzeJsonDiff.with_comparison "v10_upstream_vs_v10_custom".

Lemma mapM_fmap {A B C : Type} (f3 : A -> result C) (f2 : A -> result B)
    (h : B -> C) (l : list A) :
  (forall x, In x l -> f3 x = AnalyzeJsonDiff.fmap h (f2 x)) ->
  mapM f3 l = AnalyzeJsonDiff.fmap (map h) (mapM f2 l).
Proof.
  induction l as [|x l IH]; intro H; [reflexivity|].
  cbn [mapM]. rewrite (H x (or_introl eq_refl)), IH.
  - destruct (f2 x) as [y|]; cbn; [|reflexivity].
    destruct (mapM f2 l); reflexivity.
  - intros y Hy. apply H. now right.
Qed.

Lemma dict_put_keys {V : Type} (d : pydict V) (k : json) (v : V) (k' : json) :
  In k' (dict_keys (dict_put d k v)) -> In k' (dict_keys d) \/ k' = k.
Proof.
  unfold dict_keys. induction d as [|[k0 v0] d IH]; cbn [dict_put map fst].
  - intros [<-|[]]. now right.
  - destruct (py_eq k0 k); cbn [map fst].
    + intros [<-|H]; [left; now left | left; now right].
    + intros [<-|H]; [left; now left|].
      destruct (IH H) as [H'|H']; [left; now right | now right].
Qed.

Lemma dict_put_unique {V : Type} (d : pydict V) (k : json) (v : V) :
  AnalyzeJsonDiff.dict_unique d -> hashable k = true ->
  AnalyzeJsonDiff.dict_unique (dict_put d k v).
Proof.
  intros U Hk. induction d as [|[k0 v0] d IH]; cbn [dict_put].
  - cbn. split; [now apply py_eq_refl | split; [intros k' [] | exact I]].
  - destruct U as (R & N & U).
    destruct (py_eq k0 k) eqn:E.
    + cbn. auto.
    + cbn [AnalyzeJsonDiff.dict_unique]. split; [exact R|]. split; [|now apply IH].
      intros k' Hk'. apply dict_put_keys in Hk' as [H| ->]; [now apply N | exact E].
Qed.

Lemma sections_by_name_unique (snapshot : list json) (d d' : pydict json) :
  AnalyzeJsonDiff.dict_unique d -> sections_by_name snapshot d = Ok d' ->
  AnalyzeJsonDiff.dict_unique d'.
Proof.
  revert d. induction snapshot as [|item rest IH]; intros d U; cbn [sections_by_name].
  - intro H. injection H as <-. exact U.
  - intro H. apply bind_ok in H as (name & _ & H).
    destruct (negb (py_eq name (JStr "theme_info"))); [|now apply (IH d)].
    destruct (hashable name) eqn:Hh; [|discriminate].
    apply (IH (dict_put d name item)); [now apply dict_put_unique | exact H].
Qed.

Lemma dict_index_item {V : Type} (d : pydict V) (k : json) (v : V) :
  AnalyzeJsonDiff.dict_unique d -> In (k, v) d -> dict_index d k = Ok v.
Proof.
  unfold dict_index. induction d as [|[k0 v0] d IH]; intros U Hin; [contradiction|].
  destruct U as (R & N & U). cbn [dict_get].
  destruct Hin as [E|Hin].
  - injection E as -> ->. now rewrite R.
  - rewrite (N k); [now apply IH|].
    unfold dict_keys. apply in_map_iff. now exists (k, v).
Qed.

Lemma settings_by_id_dicts (entries : list json) (d d' : pydict json) :
  settings_inv d -> settings_by_id entries d = Ok d' -> settings_inv d'.
Proof.
  revert d. induction entries as [|s rest IH]; intros d Hd; cbn [settings_by_id].
  - intro H. injection H as <-. exact Hd.
  - intro H. apply bind_ok in H as (id & Hid & H).
    destruct (truthy id); [|now apply (IH d)].
    destruct (hashable id) eqn:Hh; [|discriminate].
    apply (IH (dict_put d id s)); [|exact H].
    apply dict_put_inv; auto. destruct s; try discriminate. reflexivity.
Qed.

(** The loops over the settings of one side return for maps whose values
    are objects. *)
Lemma settings_only_in_returns (prefix : string) (section_name : json)
    (other_map this_map : pydict json) :
  settings_inv this_map ->
  exists l, AnalyzeJsonDiff.settings_only_in prefix section_name other_map this_map
            = Ok l.
Proof.
  intro H. unfold AnalyzeJsonDiff.settings_only_in.
  assert (M : exists rs,
             mapM (fun kv : json * json =>
                     let (setting_id, setting) := kv in
                     if negb (dict_mem setting_id other_map) then
                       ty <- py_get setting "type" JNull ;;
                       label <- py_get setting "label" (JStr EmptyString) ;;
                       shown <- py_get setting "label" setting_id ;;
                       Ok [AnalyzeJsonDiff.SettingRecord setting_id section_name ty
                             label None
                             [Lit prefix; Val section_name; Lit ": "; Val shown]]
                     else Ok []) this_map = Ok rs).
  { induction H as [|[k v] this_map [_ Hv] _ [rs IH]]; [now exists []|].
    cbn [mapM]. rewrite IH. cbn [snd] in Hv.
    destruct v; try discriminate.
    destruct (negb (dict_mem k other_map)); cbn; eexists; reflexivity. }
  destruct M as [rs ->]. cbn. eexists. reflexivity.
Qed.

Lemma custom_section_settings_agree (section_name section : json) :
  custom_section_settings section_name section
  = AnalyzeJsonDiff.fmap (map wc)
      (AnalyzeJsonDiff.custom_section_settings section_name section).
Proof.
  unfold custom_section_settings, AnalyzeJsonDiff.custom_section_settings.
  destruct (settings_of section) as [entries|]; cbn [bind]; [|reflexivity].
  rewrite (mapM_fmap _
             (fun setting =>
                id <- py_get setting "id" JNull ;;
                if truthy id then
                  ty <- py_get setting "type" JNull ;;
                  label <- py_get setting "label" (JStr EmptyString) ;;
                  shown <- py_get setting "label" id ;;
                  Ok [AnalyzeJsonDiff.SettingRecord id section_name ty label None
                        [Lit "Custom setting in "; Val section_name; Lit ": ";
                         Val shown]]
                else Ok []) (map wc)).
  - destruct (mapM _ entries) as [rs|]; cbn; [|reflexivity].
    now rewrite concat_map.
  - intros setting _.
    destruct (py_get setting "id" JNull) as [id|]; cbn [bind]; [|reflexivity].
    destruct (truthy id); [|reflexivity].
    destruct (py_get setting "type" JNull) as [ty|]; cbn [bind]; [|reflexivity].
    destruct (py_get setting "label" (JStr EmptyString)) as [label|]; cbn [bind];
      [|reflexivity].
    destruct (py_get setting "label" id) as [shown|]; reflexivity.
Qed.

Lemma concat_pairs_map {A B C D : Type} (f : A -> C) (g : B -> D)
    (l : list (list A * list B)) :
  concat_pairs (map (fun p => (map f (fst p), map g (snd p))) l)
  = (map f (fst (concat_pairs l)), map g (snd (concat_pairs l))).
Proof.
  unfold concat_pairs. cbn [fst snd]. rewrite !map_map. cbn [fst snd].
  now rewrite !concat_map, !map_map.
Qed.

Lemma custom_sections_loop_agree (v10_sections current_sections : pydict json) :
  AnalyzeJsonDiff.dict_unique current_sections ->
  custom_sections_loop v10_sections current_sections
  = AnalyzeJsonDiff.fmap (fun p => (map wc (fst p), map wc (snd p)))
      (AnalyzeJsonDiff.custom_sections_loop v10_sections current_sections).
Proof.
  intro U. unfold custom_sections_loop, AnalyzeJsonDiff.custom_sections_loop.
  rewrite (mapM_fmap _
             (fun kv : json * json =>
                let (section_name, section) := kv in
                if negb (dict_mem section_name v10_sections) then
                  adds <- AnalyzeJsonDiff.custom_section_settings section_name section ;;
                  Ok ([AnalyzeJsonDiff.SectionRecord section_name
                         [Lit "Custom section: "; Val section_name]], adds)
                else Ok ([], []))
             (fun p => (map wc (fst p), map wc (snd p)))).
  - destruct (mapM _ current_sections) as [rs|]; cbn; [|reflexivity].
    now rewrite concat_pairs_map.
  - intros [name section] Hin. cbn [fst].
    destruct (negb (dict_mem name v10_sections)); [|reflexivity].
    rewrite (dict_index_item _ _ _ U Hin). cbn [bind].
    rewrite custom_section_settings_agree.
    destruct (AnalyzeJsonDiff.custom_section_settings name section); reflexivity.
Qed.

Lemma added_settings_agree (section_name : json)
    (base_settings compare_settings : pydict json) :
  added_settings "v10_upstream_vs_v10_custom"
    (fun section_name _ shown =>
       [Lit "Custom setting in "; Val section_name; Lit ": "; Val shown])
    section_name base_settings compare_settings
  = AnalyzeJsonDiff.fmap (map wc)
      (AnalyzeJsonDiff.settings_only_in "Custom setting in " section_name
         base_settings compare_settings).
Proof.
  unfold added_settings, AnalyzeJsonDiff.settings_only_in.
  rewrite (mapM_fmap _
             (fun kv : json * json =>
                let (setting_id, setting) := kv in
                if negb (dict_mem setting_id base_settings) then
                  ty <- py_get setting "type" JNull ;;
                  label <- py_get setting "label" (JStr EmptyString) ;;
                  shown <- py_get setting "label" setting_id ;;
                  Ok [AnalyzeJsonDiff.SettingRecord setting_id section_name ty label
                        None
                        [Lit "Custom setting in "; Val section_name; Lit ": ";
                         Val shown]]
                else Ok []) (map wc)).
  - destruct (mapM _ compare_settings) as [rs|]; cbn; [|reflexivity].
    now rewrite concat_map.
  - intros [id setting] _.
    destruct (negb (dict_mem id base_settings)); [|reflexivity].
    destruct (py_get setting "type" JNull) as [ty|]; cbn [bind]; [|reflexivity].
    destruct (py_get setting "label" (JStr EmptyString)) as [label|]; cbn [bind];
      [|reflexivity].
    destruct (py_get setting "label" id) as [shown|]; reflexivity.
Qed.

Lemma modified_settings_agree (section_name : json)
    (base_settings compare_settings : pydict json) :
  modified_settings DeepDiff set_order "v10_upstream_vs_v10_custom"
    (fun section_name _ shown =>
       [Lit "Modified Dawn setting in "; Val section_name; Lit ": "; Val shown])
    section_name base_settings compare_settings compare_settings
  = AnalyzeJsonDiff.fmap (map wc)
      (AnalyzeJsonDiff.modified_settings DeepDiff set_order section_name
         base_settings compare_settings).
Proof.
  unfold modified_settings, AnalyzeJsonDiff.modified_settings.
  rewrite (mapM_fmap _
             (fun setting_id =>
                dawn_setting <- dict_index base_settings setting_id ;;
                current_setting <- dict_index compare_settings setting_id ;;
                match DeepDiff dawn_setting current_setting with
                | Some text =>
                    ty <- py_get current_setting "type" JNull ;;
                    label <- py_get current_setting "label" (JStr EmptyString) ;;
                    shown <- py_get current_setting "label" setting_id ;;
                    Ok [AnalyzeJsonDiff.SettingRecord setting_id section_name ty label
                          (Some text)
                          [Lit "Modified Dawn setting in "; Val section_name;
                           Lit ": "; Val shown]]
                | None => Ok []
                end) (map wc)).
  - destruct (mapM _ _) as [rs|]; cbn; [|reflexivity].
    now rewrite concat_map.
  - intros id _.
    destruct (dict_index base_settings id) as [old|]; cbn [bind]; [|reflexivity].
    destruct (dict_index compare_settings id) as [new|] eqn:E; cbn [bind];
      [|reflexivity].
    destruct (DeepDiff old new); [|reflexivity].
    cbn [bind].
    destruct (py_get new "type" JNull) as [ty|]; cbn [bind]; [|reflexivity].
    destruct (py_get new "label" (JStr EmptyString)) as [label|]; cbn [bind];
      [|reflexivity].
    destruct (py_get new "label" id) as [shown|]; reflexivity.
Qed.

Lemma fmap_ok {A B : Type} (g : A -> B) (c : result A) (b : B) :
  AnalyzeJsonDiff.fmap g c = Ok b -> exists a, c = Ok a /\ b = g a.
Proof.
  destruct c as [a|]; cbn; [|discriminate].
  intro H. injection H as <-. now exists a.
Qed.

Lemma common_section_agree (base_sections compare_sections : pydict json)
    (section_name : json) (y3 : list change_record * list change_record) :
  common_section DeepDiff set_order "v10_upstream_vs_v10_custom"
    (fun section_name _ shown =>
       [Lit "Custom setting in "; Val section_name; Lit ": "; Val shown])
    (fun section_name _ shown =>
       [Lit "Modified Dawn setting in "; Val section_name; Lit ": "; Val shown])
    true base_sections compare_sections section_name = Ok y3 ->
  exists y2,
    AnalyzeJsonDiff.common_section DeepDiff set_order base_sections compare_sections
      section_name = Ok y2
    /\ fst y3 = map wc (fst (fst y2))
    /\ snd y3 = map wc (snd y2).
Proof.
  unfold common_section, AnalyzeJsonDiff.common_section. intro H.
  apply bind_ok in H as (bs & E1 & H).
  apply bind_ok in H as (cs & E2 & H).
  apply bind_ok in H as (bmap & E3 & H).
  apply bind_ok in H as (cmap & E4 & H).
  apply bind_ok in H as (adds & E5 & H).
  apply bind_ok in H as (mods & E6 & H).
  injection H as <-.
  unfold settings_map, settings_of in E3, E4.
  apply bind_ok in E3 as (bentries & E3 & B3).
  apply bind_ok in E3 as (bv & G3 & I3).
  apply bind_ok in E4 as (centries & E4 & B4).
  apply bind_ok in E4 as (cv & G4 & I4).
  rewrite added_settings_agree in E5. apply fmap_ok in E5 as (adds2 & E5 & ->).
  rewrite modified_settings_agree in E6. apply fmap_ok in E6 as (mods2 & E6 & ->).
  assert (Sb : settings_inv bmap).
  { apply (settings_by_id_dicts bentries []); [constructor | exact B3]. }
  destruct (settings_only_in_returns "Removed Dawn setting from " section_name
              cmap bmap Sb) as [rems E7].
  rewrite E1; cbn [bind]. rewrite E2; cbn [bind].
  rewrite G3; cbn [bind]. rewrite G4; cbn [bind].
  rewrite I3; cbn [bind]. rewrite B3; cbn [bind].
  rewrite I4; cbn [bind]. rewrite B4; cbn [bind].
  rewrite E5; cbn [bind]. rewrite E7; cbn [bind]. rewrite E6; cbn [bind].
  eexists. split; [reflexivity|]. split; reflexivity.
Qed.

Lemma mapM_agree {A B C : Type} (R : C -> B -> Prop) (f3 : A -> result C)
    (f2 : A -> result B) (l : list A) :
  (forall x y3, f3 x = Ok y3 -> exists y2, f2 x = Ok y2 /\ R y3 y2) ->
  forall ys3, mapM f3 l = Ok ys3 ->
  exists ys2, mapM f2 l = Ok ys2 /\ Forall2 R ys3 ys2.
Proof.
  intro H. induction l as [|x l IH]; intros ys3 E.
  - injection E as <-. exists []. split; [reflexivity | constructor].
  - apply mapM_cons_ok in E as (y & ys0 & Hy & H0 & ->).
    destruct (H x y Hy) as (y2 & Hy2 & Ry).
    destruct (IH ys0 H0) as (ys2 & Hys2 & Rys).
    exists (y2 :: ys2). split; [now apply mapM_cons_intro | now constructor].
Qed.

Lemma common_lists_agree
    (rs3 : list (list change_record * list change_record))
    (rs2 : list (list AnalyzeJsonDiff.change_record
                 * list AnalyzeJsonDiff.change_record
                 * list AnalyzeJsonDiff.change_record)) :
  Forall2 (fun y3 y2 => fst y3 = map wc (fst (fst y2)) /\ snd y3 = map wc (snd y2))
          rs3 rs2 ->
  fst (concat_pairs rs3) = map wc (concat (map (fun r => fst (fst r)) rs2))
  /\ snd (concat_pairs rs3) = map wc (concat (map snd rs2)).
Proof.
  induction 1 as [|y3 y2 rs3 rs2 [A M] _ [IHa IHm]]; [split; reflexivity|].
  rewrite concat_pairs_cons. cbn [fst snd map concat].
  rewrite !map_app, A, M, IHa, IHm. split; reflexivity.
Qed.

(** With one iteration order for both scripts, the two-way comparator
    returns whenever the three-way comparator does, and the records of the
    first pair are its records with the ["comparison"] key. *)
Lemma schema_agree_same_order (dawn current dawn_v15 : list json)
    (three_way : schema_result) :
  analyze_settings_schema DeepDiff set_order dawn current dawn_v15 = Ok three_way ->
  exists two_way,
    AnalyzeJsonDiff.analyze_settings_schema DeepDiff set_order dawn current
    = Ok two_way
    /\ custom_sections three_way
       = map wc (AnalyzeJsonDiff.custom_sections two_way)
    /\ custom_additions three_way
       = map wc (AnalyzeJsonDiff.custom_additions two_way)
    /\ modifications three_way
       = map wc (AnalyzeJsonDiff.modifications two_way)
    /\ AnalyzeJsonDiff.theme_info_changes two_way
       = map (fun kv => ("theme_version", (tc_old (snd kv), tc_new (snd kv))))
             (filter (fun kv => String.eqb (fst kv) "v10_custom")
                     (theme_info_changes three_way)).
Proof.
  unfold analyze_settings_schema, AnalyzeJsonDiff.analyze_settings_schema. intro H.
  apply bind_ok in H as (t10 & E1 & H).
  apply bind_ok in H as (tcur & E2 & H).
  apply bind_ok in H as (t15 & E3 & H).
  apply bind_ok in H as (v10 & E4 & H).
  apply bind_ok in H as (vcur & E5 & H).
  apply bind_ok in H as (v15 & E6 & H).
  apply bind_ok in H as (s10 & E7 & H).
  apply bind_ok in H as (scur & E8 & H).
  apply bind_ok in H as (s15 & E9 & H).
  apply bind_ok in H as (new1 & E10 & H).
  apply bind_ok in H as (c1 & H1 & H).
  apply bind_ok in H as (c2 & H2 & H).
  apply bind_ok in H as (c3 & H3 & H).
  injection H as <-.
  assert (U : AnalyzeJsonDiff.dict_unique scur).
  { apply (sections_by_name_unique current []); [exact I | exact E8]. }
  rewrite (custom_sections_loop_agree s10 scur U) in E10.
  apply fmap_ok in E10 as (new2 & E10 & ->).
  unfold common_sections_loop in H1.
  apply bind_ok in H1 as (rs3 & H1 & C1). injection C1 as <-.
  destruct (mapM_agree _ _ _ _
              (fun x y3 => common_section_agree s10 scur x y3) rs3 H1)
    as (rs2 & H1' & F).
  destruct (common_lists_agree rs3 rs2 F) as [A M].
  rewrite E1; cbn [bind]. rewrite E2; cbn [bind].
  rewrite E4; cbn [bind]. rewrite E5; cbn [bind].
  rewrite E7; cbn [bind]. rewrite E8; cbn [bind].
  rewrite E10; cbn [bind]. rewrite H1'; cbn [bind].
  eexists. split; [reflexivity|].
  cbn [custom_sections custom_additions modifications theme_info_changes
       AnalyzeJsonDiff.custom_sections AnalyzeJsonDiff.custom_additions
       AnalyzeJsonDiff.modifications AnalyzeJsonDiff.theme_info_changes fst snd].
  split; [reflexivity|]. split; [now rewrite map_app, A|]. split; [exact M|].
  destruct (negb (py_eq v10 vcur)), (negb (py_eq v10 v15)); reflexivity.
Qed.

End TwoWaySchema.

Section TwoWaySchemaOrders.
Import PyStr Py PyNotations AnalyzeAllJsonDiffs.

Variable DeepDiff : json -> json -> option string.
Variables two_way_order three_way_order : list json -> list json.
Hypothesis two_way_order_valid : valid_order two_way_order.
Hypothesis three_way_order_valid : valid_order three_way_order.

(** X21. Whenever [analyze_settings_schema] of analyze-all-json-diffs.py
    returns, [analyze_settings_schema] of analyze-json-diff.py returns on
    the first two snapshots, and what it finds is what the first pair of
    the three-way result holds, the ["comparison"] key apart: the same
    custom sections in the same order, the same custom additions and the
    same modifications up to the iteration order of the sets, and a
    ["theme_version"] change exactly when the three-way result has the
    ["v10_custom"] change, with the same old and new version. *)
Theorem two_way_schema_agrees_with_first_pair (dawn current dawn_v15 : list json)
    (three_way : schema_result) :
  analyze_settings_schema DeepDiff three_way_order dawn current dawn_v15
  = Ok three_way ->
  let with_comparison :=
    AnalyzeJsonDiff.with_comparison "v10_upstream_vs_v10_custom" in
  exists two_way,
    AnalyzeJsonDiff.analyze_settings_schema DeepDiff two_way_order dawn current
    = Ok two_way
    /\ custom_sections three_way
       = map with_comparison (AnalyzeJsonDiff.custom_sections two_way)
    /\ Permutation (custom_additions three_way)
         (map with_comparison (AnalyzeJsonDiff.custom_additions two_way))
    /\ Permutation (modifications three_way)
         (map with_comparison (AnalyzeJsonDiff.modifications two_way))
    /\ AnalyzeJsonDiff.theme_info_changes two_way
       = map (fun kv => ("theme_version", (tc_old (snd kv), tc_new (snd kv))))
             (filter (fun kv => String.eqb (fst kv) "v10_custom")
                     (theme_info_changes three_way)).
Proof.
  intros H wc.
  destruct (analyze_settings_schema_orders DeepDiff three_way_order two_way_order
              three_way_order_valid two_way_order_valid _ _ _ _ H)
    as (r & Hr & S).
  destruct (schema_agree_same_order DeepDiff two_way_order _ _ _ _ Hr)
    as (two_way & E & Cs & Ca & Cm & Ct).
  destruct S as (S1 & S2 & _ & _ & _ & S6 & S7 & _).
  exists two_way. split; [exact E|].
  fold wc in Cs, Ca, Cm.
  rewrite S1, S2, <- Cs, <- Ca, <- Cm. repeat split; auto.
Qed.

End TwoWaySchemaOrders.

Section TwoWaySameSnapshot.
Import PyStr Py PyNotations AnalyzeAllJsonDiffs Reading.

Variable DeepDiff : json -> json -> option string.
Variable set_order : list json -> list json.
Hypothesis set_order_valid : valid_order set_order.
Hypothesis no_self_difference : forall x, DeepDiff x x = None.




End TwoWaySameSnapshot.

Section TwoWaySchemaWitness.
Import PyStr Py PyNotations AnalyzeAllJsonDiffs Reading.

Lemma two_way_schema_agrees_with_first_pair_witness :
  let dawn := [section_of "colors" ["bg"]] in
  let current := [section_of "colors" ["bg"; "fg"]; section_of "custom" ["x"]] in
  let with_comparison :=
    AnalyzeJsonDiff.with_comparison "v10_upstream_vs_v10_custom" in
  exists three_way two_way,
    analyze_settings_schema unused_diff (fun l => l) dawn current [] = Ok three_way
    /\ AnalyzeJsonDiff.analyze_settings_schema unused_diff (fun l => l) dawn current
       = Ok two_way
    /\ custom_sections three_way
       = map with_comparison (AnalyzeJsonDiff.custom_sections two_way)
    /\ Permutation (custom_additions three_way)
         (map with_comparison (AnalyzeJsonDiff.custom_additions two_way)).
Proof.
  intros dawn current with_comparison.
  destruct (two_way_schema_agrees_with_first_pair unused_diff
              (fun l => l) (fun l => l) identity_order_valid identity_order_valid
              dawn current [] _ eq_refl)
    as (two_way & E & Cs & Ca & _).
  eexists. exists two_way. split; [reflexivity|]. auto.
Defined.


End TwoWaySchemaWitness.

(** ** extract-dawn-files.py: what it needs from the configuration and
    what it writes *)

Section ExtractDawnFilesRun.
Import PyStr Py PyNotations VersionConfig ExtractDawnFiles.

Variable json_loads : string -> option json.
Variable git_show : json -> string -> option string.



(** A safe file name holds no path separator. *)
Lemma safe_filename_flat (filepath : string) :
  existsb (fun c => Ascii.eqb c "/" || Ascii.eqb c "\")
          (list_ascii_of_string (safe_filename filepath)) = false.
Proof.
  unfold safe_filename. induction filepath as [|c p IH]; [reflexivity|].
  cbn [replace_char list_ascii_of_string existsb]. rewrite IH.
  destruct (Ascii.eqb c "/") eqn:E1; [reflexivity|].
  destruct (Ascii.eqb c "\") eqn:E2; [reflexivity|].
  now rewrite E1, E2.
Qed.

Lemma nodup_map_filter {A B : Type} (g : A -> B) (p : A -> bool) (l : list A) :
  NoDup (map g l) -> NoDup (map g (filter p l)).
Proof.
  induction l as [|x l IH]; cbn [map filter]; intro N; [constructor|].
  inversion N as [|? ? Hx Hl]; subst.
  destruct (p x); cbn [map]; [|now apply IH].
  constructor; [|now apply IH].
  intro Hin. apply Hx. apply in_map_iff in Hin as (y & E & Hy).
  apply filter_In in Hy as [Hy _]. apply in_map_iff. now exists y.
Qed.

Lemma extract_all_files (dir : string) (git_ref : json) :
  let files := extract_all git_show dir git_ref in
  map (fun f => (directory f, filename f)) files
  = map (fun filepath => (dir, safe_filename filepath))
        (filter (fun filepath =>
                   match extract_file_from_git git_show git_ref filepath with
                   | Some _ => true
                   | None => false
                   end) files_to_extract)
  /\ forall f, In f files ->
       strip (content f) <> EmptyString
       /\ exists filepath,
            In filepath files_to_extract
            /\ filename f = safe_filename filepath
            /\ git_show git_ref filepath = Some (content f).
Proof.
  unfold extract_all. split.
  - induction files_to_extract as [|fp l IH]; [reflexivity|].
    cbn [flat_map filter]. rewrite map_app, IH.
    destruct (extract_file_from_git git_show git_ref fp); reflexivity.
  - intros f Hf. apply in_flat_map in Hf as (fp & Hfp & Hf).
    unfold extract_file_from_git in Hf.
    destruct (git_show git_ref fp) as [out|] eqn:G; [|contradiction].
    destruct (strip out) eqn:S; [contradiction|].
    destruct Hf as [<-|[]]. cbn [content filename]. split.
    + rewrite S. discriminate.
    + now exists fp.
Qed.

Lemma extract_all_nodup (dir : string) (git_ref : json) :
  NoDup (map (fun f => (directory f, filename f)) (extract_all git_show dir git_ref))
  /\ length (extract_all git_show dir git_ref) <= 4
  /\ forall f, In f (extract_all git_show dir git_ref) -> directory f = dir.
Proof.
  destruct (extract_all_files dir git_ref) as [E _]. cbv zeta in E.
  split; [|split].
  - rewrite E. apply nodup_map_filter. vm_compute.
    repeat (constructor; [simpl; intuition congruence|]). constructor.
  - rewrite <- (length_map (fun f => (directory f, filename f))), E, length_map.
    apply (filter_length_le _ files_to_extract).
  - intros f Hf.
    assert (I : In (directory f, filename f)
                   (map (fun f => (directory f, filename f))
                        (extract_all git_show dir git_ref))).
    { apply in_map_iff. now exists f. }
    rewrite E in I. apply in_map_iff in I as (fp & Efp & _). congruence.
Qed.

(** X24. What extract-dawn-files.py writes when [main] returns: the count
    it prints is the number of files written, at most eight; no file is
    written twice; every file is in one of the two directories, under the
    name of one of the four paths with the separators replaced, so the
    name holds no separator; its content is the output of [git show] for
    that path, and is not blank.  A run that returns 1 writes nothing. *)
Theorem extract_dawn_files_writes (config_file : option string) (status : Z)
    (files : list written) (extracted : nat) :
  main json_loads git_show config_file = Ok (status, files, extracted) ->
  extracted = length files
  /\ length files <= 8
  /\ NoDup (map (fun f => (directory f, filename f)) files)
  /\ (status = 1%Z -> files = [])
  /\ forall f, In f files ->
       (directory f = "dawn-comparison" \/ directory f = "dawn-destination")
       /\ strip (content f) <> EmptyString
       /\ existsb (fun c => Ascii.eqb c "/" || Ascii.eqb c "\")
                  (list_ascii_of_string (filename f)) = false
       /\ exists git_ref filepath,
            In filepath files_to_extract
            /\ filename f = safe_filename filepath
            /\ git_show git_ref filepath = Some (content f).
Proof.
  unfold main.
  destruct (refs <- get_git_refs json_loads config_file ;;
            info <- get_version_info json_loads config_file ;; Ok (refs, info))
    as [[refs info]|e].
  - destruct (dawn_versions info) as [v|]; cbn [bind]; [|discriminate].
    intro H. injection H as <- <- <-.
    destruct (extract_all_nodup "dawn-comparison" (comparison refs)) as (N1 & L1 & D1).
    destruct (extract_all_nodup "dawn-destination" (destination refs)) as (N2 & L2 & D2).
    split; [reflexivity|]. split; [rewrite length_app; lia|].
    split; [|split; [discriminate|]].
    + rewrite map_app. apply NoDup_app; auto.
      intros [d n] I1 I2.
      apply in_map_iff in I1 as (f1 & E1 & I1).
      apply in_map_iff in I2 as (f2 & E2 & I2).
      apply D1 in I1. apply D2 in I2. congruence.
    + intros f Hf. apply in_app_or in Hf as [Hf|Hf].
      * destruct (extract_all_files "dawn-comparison" (comparison refs)) as [_ F].
        destruct (F f Hf) as (S & fp & Hfp & En & G).
        split; [left; now apply D1|]. split; [exact S|]. split.
        -- rewrite En. apply safe_filename_flat.
        -- now exists (comparison refs), fp.
      * destruct (extract_all_files "dawn-destination" (destination refs)) as [_ F].
        destruct (F f Hf) as (S & fp & Hfp & En & G).
        split; [right; now apply D2|]. split; [exact S|]. split.
        -- rewrite En. apply safe_filename_flat.
        -- now exists (destination refs), fp.
  - destruct e; try discriminate.
    intro H. injection H as <- <- <-.
    split; [reflexivity|]. split; [cbn; lia|]. split; [constructor|].
    split; [reflexivity|]. intros f [].
Qed.

End ExtractDawnFilesRun.

Section ExtractDawnFilesWitness.
Import PyStr Py PyNotations Loader VersionConfig ExtractDawnFiles.


Lemma extract_dawn_files_writes_witness :
  let files :=
    [mkWritten "dawn-comparison" "config-settings_data.json" "{}";
     mkWritten "dawn-destination" "config-settings_data.json" "{}"] in
  2 = length files
  /\ length files <= 8
  /\ NoDup (map (fun f => (directory f, filename f)) files).
Proof.
  intro files.
  destruct (extract_dawn_files_writes
              (fun _ =>
                 Some (JDict [("comparison_version",
                               JDict [("dawn_base", JStr "10.0.0")]);
                              ("destination_version",
                               JDict [("dawn_base", JStr "15.4.0")])]))
              (fun _ filepath =>
                 if String.eqb filepath "config/settings_data.json"
                 then Some "{}" else None)
              (Some "version-config") 0%Z files 2 eq_refl) as (E & L & N & _).
  split; [exact E | split; [exact L | exact N]].
Defined.

End ExtractDawnFilesWitness.

(** ** generate-file-patches.py: which patch a file of the output
    directory holds *)

Section PatchFiles.
Import PyStr Py PyNotations VersionConfig CategorizeChanges GenerateFilePatches.

Variable git_diff : json -> json -> string -> option string.

Lemma lookup_dict_set {V : Type} (d : list (string * V)) (k name : string) (v : V) :
  lookup name (dict_set d k v)
  = if String.eqb k name then Some v else lookup name d.
Proof.
  induction d as [|[k' v'] d IH]; cbn [dict_set lookup]; [reflexivity|].
  destruct (String.eqb k' k) eqn:E; cbn [lookup].
  - apply String.eqb_eq in E. subst k'. now destruct (String.eqb k name).
  - rewrite IH. destruct (String.eqb k' name) eqn:E1; [|reflexivity].
    apply String.eqb_eq in E1. subst k'.
    rewrite String.eqb_sym in E. now rewrite E.
Qed.

Lemma lookup_app {V : Type} (a b : list (string * V)) (name : string) :
  lookup name (a ++ b)
  = match lookup name a with Some v => Some v | None => lookup name b end.
Proof.
  induction a as [|[k v] a IH]; cbn [app lookup]; [reflexivity|].
  now destruct (String.eqb k name).
Qed.

Lemma lookup_write_all (directory writes : list (string * string)) (name : string) :
  lookup name (write_all directory writes)
  = match lookup name (rev writes) with
    | Some text => Some text
    | None => lookup name directory
    end.
Proof.
  unfold write_all. revert directory.
  induction writes as [|[k v] writes IH]; intro directory; [reflexivity|].
  cbn [fold_left rev fst snd]. rewrite IH, lookup_app, lookup_dict_set.
  cbn [lookup]. destruct (lookup name (rev writes)); [reflexivity|].
  now destruct (String.eqb k name).
Qed.

Lemma lookup_absent {V : Type} (d : list (string * V)) (name : string) :
  (forall kv, In kv d -> fst kv <> name) -> lookup name d = None.
Proof.
  induction d as [|[k v] d IH]; intro H; [reflexivity|].
  cbn [lookup]. destruct (String.eqb k name) eqn:E.
  - apply String.eqb_eq in E. now contradiction (H (k, v) (or_introl eq_refl)).
  - apply IH. intros kv Hin. apply H. now right.
Qed.

Lemma patch_loop_names (base_ref compare_ref : json)
    (modified_files files : list string) (kv : string * string) :
  In kv (patch_loop git_diff base_ref compare_ref modified_files files) ->
  exists filepath, In filepath files /\ fst kv = patch_file filepath.
Proof.
  unfold patch_loop. intro H. apply in_flat_map in H as (f & Hf & H).
  destruct (existsb (String.eqb f) modified_files); [|contradiction].
  destruct (generate_patch_for_file git_diff f base_ref compare_ref); [|contradiction].
  destruct H as [<-|[]]. now exists f.
Qed.

Lemma replace_char_app (old new : ascii) (a b : string) :
  ExtractDawnFiles.replace_char old new (a ++ b)
  = (ExtractDawnFiles.replace_char old new a
     ++ ExtractDawnFiles.replace_char old new b)%string.
Proof. induction a as [|c a IH]; cbn; [reflexivity | now rewrite IH]. Qed.

(** Two paths that differ in a separator have the same patch file. *)
Lemma patch_file_collision (a b : string) :
  patch_file (a ++ "/" ++ b) = patch_file (a ++ "-" ++ b).
Proof.
  unfold patch_file, ExtractDawnFiles.safe_filename.
  now rewrite !replace_char_app.
Qed.

(** X25. After a run of generate-file-patches.py a file of the output
    directory holds the last text written under its name, or what it held
    before the run when nothing was written under that name; the two
    counts together count every write.  Paths that differ only in a
    separator, as [a/b] and [a-b], have the same patch file: when both are
    to be patched and the diff of the second is not blank, the file named
    for the first holds the diff of the second, however many patches are
    counted. *)
Theorem patch_file_holds_last_write (refs : git_refs)
    (files_to_revert files_to_patch modified_files : list string)
    (existing : list (string * string)) (a b text : string)
    (before between after : list string) :
  let first := (a ++ "/" ++ b)%string in
  let second := (a ++ "-" ++ b)%string in
  files_to_patch = before ++ first :: between ++ second :: after ->
  In second modified_files ->
  generate_patch_for_file git_diff second (comparison refs) (current refs)
  = Some text ->
  (forall filepath, In filepath after -> patch_file filepath <> patch_file second) ->
  let out := generate git_diff refs files_to_revert files_to_patch modified_files
               existing in
  let writes :=
    patch_loop git_diff (current refs) (destination refs) modified_files
      files_to_revert
    ++ patch_loop git_diff (comparison refs) (current refs) modified_files
         files_to_patch in
  generated_revert out + generated_patch out = length writes
  /\ (forall name,
        lookup name (output_dir out)
        = match lookup name (rev writes) with
          | Some t => Some t
          | None => lookup name existing
          end)
  /\ patch_file first = patch_file second
  /\ lookup (patch_file first) (output_dir out) = Some text.
Proof.
  intros first second Hl Hm Hg Ha out writes.
  subst first second.
  assert (W : forall name,
             lookup name (output_dir out)
             = match lookup name (rev writes) with
               | Some t => Some t
               | None => lookup name existing
               end).
  { intro name. apply lookup_write_all. }
  split; [subst out writes; cbn; now rewrite length_app|].
  split; [exact W|].
  split; [apply patch_file_collision|].
  rewrite W, (patch_file_collision a b).
  subst writes. rewrite Hl.
  unfold patch_loop at 2.
  rewrite flat_map_app. cbn [flat_map]. rewrite flat_map_app. cbn [flat_map].
  assert (E : existsb (String.eqb (a ++ "-" ++ b)) modified_files = true).
  { apply existsb_exists. exists (a ++ "-" ++ b)%string.
    split; [exact Hm | apply String.eqb_refl]. }
  rewrite E, Hg.
  rewrite !rev_app_distr. cbn [rev app].
  rewrite <- !app_assoc. cbn [app].
  rewrite lookup_app.
  rewrite lookup_absent.
  - cbn [lookup]. now rewrite String.eqb_refl.
  - intros kv Hin. apply in_rev in Hin.
    apply (patch_loop_names (comparison refs) (current refs) modified_files after)
      in Hin as (f & Hf & ->).
    now apply Ha.
Qed.

Lemma patch_loop_listed (base_ref compare_ref : json)
    (modified_files files : list string) :
  incl files modified_files ->
  patch_loop git_diff base_ref compare_ref modified_files files
  = flat_map
      (fun filepath =>
         match generate_patch_for_file git_diff filepath base_ref compare_ref with
         | Some text => [(patch_file filepath, text)]
         | None => []
         end) files.
Proof.
  unfold patch_loop. induction files as [|f files IH]; intro H; [reflexivity|].
  cbn [flat_map]. rewrite IH by (intros x Hx; apply H; now right).
  replace (existsb (String.eqb f) modified_files) with true; [reflexivity|].
  symmetry. apply existsb_exists. exists f.
  split; [apply H; now left | apply String.eqb_refl].
Qed.

(** X26. With the inventory categorize-changes.py writes,
    generate-file-patches.py skips no listed file: every path of
    [files_to_revert_to_clean] and of [files_to_patch_modified] is a key of
    [modified_dawn_files], so each of them gets its [git diff], the first
    from the current to the destination reference and the second from the
    comparison to the current reference, and the two counts are the
    numbers of listed files whose diff is not blank. *)
Theorem inventory_paths_are_never_skipped (changes : file_changes)
    (full_diff : option string) (d1 d2 d3 : option file_changes)
    (refs : git_refs) (existing : list (string * string)) :
  let c := categorize_files changes full_diff d1 d2 d3 in
  let r := combine_results c in
  let modified_files := map fst (modified_dawn_files c) in
  let diffed (base_ref compare_ref : json) (filepath : string) :=
    match generate_patch_for_file git_diff filepath base_ref compare_ref with
    | Some _ => true
    | None => false
    end in
  let out := generate git_diff refs (files_to_revert_to_clean r)
               (files_to_patch_modified r) modified_files existing in
  incl (files_to_revert_to_clean r) modified_files
  /\ incl (files_to_patch_modified r) modified_files
  /\ generated_revert out
     = length (filter (diffed (current refs) (destination refs))
                      (files_to_revert_to_clean r))
  /\ generated_patch out
     = length (filter (diffed (comparison refs) (current refs))
                      (files_to_patch_modified r)).
Proof.
  intros c r modified_files diffed out.
  assert (I : forall (p : string * modified_info -> bool),
             incl (map fst (filter p (modified_dawn_files c))) modified_files).
  { intros p f Hf. apply in_map_iff in Hf as (kv & <- & Hkv).
    apply filter_In in Hkv as [Hkv _]. now apply in_map. }
  assert (L : forall base_ref compare_ref files,
             incl files modified_files ->
             length (patch_loop git_diff base_ref compare_ref modified_files files)
             = length (filter (diffed base_ref compare_ref) files)).
  { intros base_ref compare_ref files H. rewrite patch_loop_listed by exact H.
    subst diffed. clear. induction files as [|f files IH]; [reflexivity|].
    cbn [flat_map filter]. rewrite length_app, IH.
    now destruct (generate_patch_for_file git_diff f base_ref compare_ref). }
  split; [apply I|]. split; [apply I|].
  split; apply L, I.
Qed.

End PatchFiles.

Section PatchFilesWitness.
Import PyStr Py PyNotations VersionConfig CategorizeChanges GenerateFilePatches.

Lemma patch_file_holds_last_write_witness :
  let refs := mkRefs (JStr "HEAD") (JStr "v10.0.0") (JStr "upstream/main")
                     (JStr "upstream") in
  let git_diff := fun (_ _ : json) (filepath : string) => Some filepath in
  let out := generate git_diff refs []
               ["snippets/price.liquid"; "snippets-price.liquid"]
               ["snippets/price.liquid"; "snippets-price.liquid"] [] in
  generated_revert out + generated_patch out = 2
  /\ output_dir out = [("snippets-price.liquid.patch", "snippets-price.liquid")].
Proof.
  intros refs git_diff out.
  destruct (patch_file_holds_last_write git_diff refs []
              ["snippets/price.liquid"; "snippets-price.liquid"]
              ["snippets/price.liquid"; "snippets-price.liquid"] []
              "snippets" "price.liquid" "snippets-price.liquid" [] [] [])
    as (C & _ & _ & _).
  - reflexivity.
  - right. left. reflexivity.
  - reflexivity.
  - intros filepath [].
  - split; [exact C | reflexivity].
Defined.

End PatchFilesWitness.

(** ** get_version_value *)

Section VersionValues.
Import PyStr Py PyNotations VersionConfig VersionValue.

Variable json_loads : string -> option json.

Lemma split_dot_nonempty (s : string) : split_dot s <> [].
Proof.
  destruct s as [|c s]; cbn [split_dot]; [discriminate|].
  destruct (Ascii.eqb c "."); [discriminate|].
  destruct (split_dot s); discriminate.
Qed.

Lemma split_dot_one (s a : string) :
  split_dot s = [a] -> s = a /\ no_dot a = true.
Proof.
  revert a. induction s as [|c s IH]; intro a; cbn [split_dot].
  - intro H. injection H as <-. now split.
  - destruct (Ascii.eqb c ".") eqn:E.
    + intro H. injection H as _ H. now contradiction (split_dot_nonempty s).
    + destruct (split_dot s) as [|p ps] eqn:S; [now contradiction (split_dot_nonempty s)|].
      intro H. injection H as <- ->.
      destruct (IH p eq_refl) as [-> N]. split; [reflexivity|].
      unfold no_dot in *. cbn [list_ascii_of_string forallb]. now rewrite E, N.
Qed.

Lemma split_dot_two (s a b : string) :
  split_dot s = [a; b] ->
  s = (a ++ "." ++ b)%string /\ no_dot a = true /\ no_dot b = true.
Proof.
  revert a. induction s as [|c s IH]; intro a; cbn [split_dot]; [discriminate|].
  destruct (Ascii.eqb c ".") eqn:E.
  - intro H. injection H as <- H. apply Ascii.eqb_eq in E. subst c.
    destruct (split_dot_one s b H) as [-> N]. now repeat split.
  - destruct (split_dot s) as [|p ps] eqn:S; [discriminate|].
    intro H. injection H as <- ->.
    destruct (IH p eq_refl) as (-> & Np & Nb). repeat split; auto.
    unfold no_dot in *. cbn [list_ascii_of_string forallb]. now rewrite E, Np.
Qed.

Lemma split_dot_no_dot (a : string) : no_dot a = true -> split_dot a = [a].
Proof.
  unfold no_dot. induction a as [|c a IH]; cbn [list_ascii_of_string forallb split_dot];
    [reflexivity|].
  intro H. apply Bool.andb_true_iff in H as [Hc Ha].
  apply Bool.negb_true_iff in Hc. now rewrite Hc, IH.
Qed.

Lemma split_dot_join (a b : string) :
  no_dot a = true -> no_dot b = true -> split_dot (a ++ "." ++ b) = [a; b].
Proof.
  intros Ha Hb. unfold no_dot in Ha.
  induction a as [|c a IH]; cbn [append split_dot].
  - cbn. now rewrite split_dot_no_dot.
  - cbn [list_ascii_of_string forallb] in Ha.
    apply Bool.andb_true_iff in Ha as [Hc Ha].
    apply Bool.negb_true_iff in Hc. rewrite Hc.
    cbn [append] in IH. now rewrite (IH Ha).
Qed.

Lemma found_in_version (version : json) (field : string) (v : json) :
  match contains version field with
  | Raise e => Raised e
  | Ok true =>
      match ExtractDawnFiles.subscript version field with
      | Ok x => Found x
      | Raise e => Raised e
      end
  | Ok false => UnknownKey
  end = Found v ->
  exists c, version = JDict c /\ lookup field c = Some v.
Proof.
  destruct version as [| | |s|l|c]; cbn [contains ExtractDawnFiles.subscript];
    try discriminate.
  - destruct (negb (find s field =? -1)%Z); discriminate.
  - destruct (existsb (fun x => py_eq x (JStr field)) l); discriminate.
  - destruct (lookup field c) as [w|] eqn:L; [|discriminate].
    intro H. injection H as <-. now exists c.
Qed.

Lemma section_of_config (config : list (string * json)) (section : string) :
  In section ["comparison"; "destination"; "current"] ->
  section_of
    (mkInfo match lookup "current_version" config with
            | Some v => v | None => JDict [] end
            match lookup "comparison_version" config with
            | Some v => v | None => JDict [] end
            match lookup "destination_version" config with
            | Some v => v | None => JDict [] end) section
  = match lookup (section ++ "_version") config with
    | Some v => v
    | None => JDict []
    end.
Proof. intros [<-|[<-|[<-|[]]]]; reflexivity. Qed.

(** X27. For a configuration that holds a JSON object, [get_version_value]
    returns the value of a key exactly when the key is [section.field]
    with a single dot, the section is [comparison], [destination] or
    [current], and the configuration holds an object under
    [section_version] with the field; the script called with the key then
    ends with status 0, and with status 1 for every other key. *)
Theorem get_version_value_found (text key : string)
    (config : list (string * json)) :
  json_loads text = Some (JDict config) ->
  (forall v,
     get_version_value json_loads key (Some text) = Found v
     <-> exists section field version,
           key = (section ++ "." ++ field)%string
           /\ no_dot section = true /\ no_dot field = true
           /\ In section ["comparison"; "destination"; "current"]
           /\ lookup (section ++ "_version") config = Some (JDict version)
           /\ lookup field version = Some v)
  /\ (exit_status json_loads key (Some text) = 0%Z
      <-> exists v, get_version_value json_loads key (Some text) = Found v).
Proof.
  intro H. split.
  - intro v. unfold get_version_value, get_version_info, load_version_config.
    rewrite H. cbn [bind py_get]. split.
    + destruct (split_dot key) as [|section [|field [|x rest]]] eqn:S; try discriminate.
      destruct (split_dot_two _ _ _ S) as (-> & Ns & Nf).
      destruct (existsb (String.eqb section) ["comparison"; "destination"; "current"])
        eqn:E; [|discriminate].
      apply existsb_exists in E as (x & Hin & Ex). apply String.eqb_eq in Ex. subst x.
      intro F. apply found_in_version in F as (c & F & Lf).
      rewrite (section_of_config config section Hin) in F.
      assert (K : exists version,
                 lookup (section ++ "_version") config = Some (JDict version)
                 /\ lookup field version = Some v).
      { destruct (lookup (section ++ "_version") config) as [x|].
        - subst x. now exists c.
        - injection F as <-. discriminate. }
      clear Lf.
      destruct K as (version & Lv & Lf).
      exists section, field, version. repeat split; auto.
    + intros (section & field & version & -> & Ns & Nf & Hin & Lv & Lf).
      rewrite (split_dot_join _ _ Ns Nf).
      replace (existsb (String.eqb section) ["comparison"; "destination"; "current"])
        with true.
      2:{ symmetry. apply existsb_exists. exists section.
          split; [exact Hin | apply String.eqb_refl]. }
      rewrite (section_of_config config section Hin), Lv.
      cbn [contains ExtractDawnFiles.subscript]. now rewrite Lf.
  - unfold exit_status. destruct (get_version_value json_loads key (Some text)).
    + split; [intros _; now exists v | reflexivity].
    + split; [discriminate | intros [v Hv]; discriminate].
    + split; [discriminate | intros [v Hv]; discriminate].
Qed.

End VersionValues.

Section VersionValuesWitness.
Import PyStr Py PyNotations VersionConfig VersionValue.

Lemma get_version_value_found_witness :
  get_version_value
    (fun _ => Some (JDict [("comparison_version",
                            JDict [("dawn_base", JStr "10.0.0")])]))
    "comparison.dawn_base" (Some "version-config")
  = Found (JStr "10.0.0").
Proof.
  apply (proj1 (get_version_value_found
                  (fun _ => Some (JDict [("comparison_version",
                                          JDict [("dawn_base", JStr "10.0.0")])]))
                  "version-config" "comparison.dawn_base"
                  [("comparison_version", JDict [("dawn_base", JStr "10.0.0")])]
                  eq_refl)).
  exists "comparison", "dawn_base", [("dawn_base", JStr "10.0.0")].
  repeat split; try reflexivity. left. reflexivity.
Defined.

End VersionValuesWitness.

(** ** The documentation of the removed files *)

Section RemovedDocumentation.
Import PyStr Py PyNotations CategorizeChanges DiffDocumentation.

Lemma select_removed (key : string) (keep : bool) (flag : removed_info -> bool)
    (l : list removed_info) :
  (forall f, py_get (removed_json f) key JNull = Ok (JBool (flag f))) ->
  select key keep (map removed_json l)
  = Ok (map removed_json (filter (fun f => Bool.eqb (flag f) keep) l)).
Proof.
  intro H. unfold select.
  assert (M : mapM (fun f =>
                      flag <- py_get f key JNull ;;
                      Ok (if Bool.eqb (truthy flag) keep then [f] else []))
                   (map removed_json l)
              = Ok (map (fun f => if Bool.eqb (flag f) keep
                                  then [removed_json f] else []) l)).
  { induction l as [|f l IH]; [reflexivity|].
    cbn [map mapM]. rewrite H, IH. reflexivity. }
  rewrite M. cbn [bind]. f_equal. clear M.
  induction l as [|f l IH]; [reflexivity|].
  cbn [map concat filter]. rewrite IH.
  now destruct (Bool.eqb (flag f) keep).
Qed.

Lemma listed_removed (idx : nat) (with_description : bool) (l : list removed_info) :
  exists items,
    listed idx with_description (map removed_json l) = Ok items
    /\ listed_paths items = map (fun f => JStr (r_path f)) l
    /\ length items = length l.
Proof.
  revert idx. induction l as [|f l IH]; intro idx.
  - now exists [].
  - destruct (IH (S idx)) as (items & E & P & L).
    cbn [map listed]. unfold removed_json at 1.
    cbn [ExtractDawnFiles.subscript lookup String.eqb Ascii.eqb Bool.eqb bind].
    destruct with_description.
    + unfold removed_json at 1. cbn [py_get lookup String.eqb Ascii.eqb Bool.eqb bind].
      rewrite E. cbn [bind]. eexists. split; [reflexivity|].
      cbn [listed_paths flat_map app length]. fold (listed_paths items).
      now rewrite P, L.
    + cbn [bind]. rewrite E. cbn [bind]. eexists. split; [reflexivity|].
      cbn [listed_paths flat_map app length]. fold (listed_paths items).
      now rewrite P, L.
Qed.

Lemma listed_paths_app (a b : list doc_line) :
  listed_paths (a ++ b) = listed_paths a ++ listed_paths b.
Proof. unfold listed_paths. apply flat_map_app. Qed.

(** The items of one block: nothing for an empty list, else the given
    lines around the list. *)
Lemma block_removed (with_description : bool) (before after : list doc_line)
    (l : list removed_info) :
  listed_paths before = [] -> listed_paths after = [] ->
  exists lines,
    match map removed_json l with
    | [] => Ok []
    | _ =>
        items <- listed 1 with_description (map removed_json l) ;;
        Ok (before ++ items ++ after)
    end = Ok lines
    /\ listed_paths lines = map (fun f => JStr (r_path f)) l.
Proof.
  intros Hb Ha. destruct l as [|f l]; [now exists []|].
  destruct (listed_removed 1 with_description (f :: l)) as (items & E & P & _).
  cbn [map] in E |- *. rewrite E. cbn [bind]. eexists. split; [reflexivity|].
  rewrite !listed_paths_app, Hb, Ha, app_nil_r. exact P.
Qed.

Lemma block_removed_open (with_description : bool) (before : list doc_line)
    (l : list removed_info) :
  listed_paths before = [] ->
  exists lines,
    match map removed_json l with
    | [] => Ok []
    | _ =>
        items <- listed 1 with_description (map removed_json l) ;;
        Ok (before ++ items)
    end = Ok lines
    /\ listed_paths lines = map (fun f => JStr (r_path f)) l.
Proof.
  intros Hb. destruct l as [|f l]; [now exists []|].
  destruct (listed_removed 1 with_description (f :: l)) as (items & E & P & _).
  cbn [map] in E |- *. rewrite E. cbn [bind]. eexists. split; [reflexivity|].
  rewrite !listed_paths_app, Hb. exact P.
Qed.

Lemma three_way_partition {A : Type} (p q : A -> bool) (l : list A) :
  Permutation
    (filter (fun x => negb (p x)) l
     ++ filter (fun x => q x) (filter p l)
     ++ filter (fun x => negb (q x)) (filter p l))
    l.
Proof.
  induction l as [|x l IH]; [constructor|].
  cbn [filter]. destruct (p x); cbn [negb filter].
  - destruct (q x); cbn [negb app].
    + apply Permutation_sym, Permutation_cons_app, Permutation_sym. exact IH.
    + apply Permutation_sym.
      rewrite app_assoc. apply Permutation_cons_app.
      rewrite <- app_assoc. apply Permutation_sym. exact IH.
  - cbn [app]. now constructor.
Qed.

Lemma filter_filter {A : Type} (p q : A -> bool) (l : list A) :
  filter q (filter p l) = filter (fun x => p x && q x) l.
Proof.
  induction l as [|x l IH]; [reflexivity|].
  cbn [filter]. destruct (p x); cbn [filter andb]; [|exact IH].
  destruct (q x); now rewrite IH.
Qed.

Lemma eqb_true_flag {A : Type} (flag : A -> bool) (l : list A) :
  filter (fun f => Bool.eqb (flag f) true) l = filter flag l.
Proof. apply filter_ext. intro f. now destruct (flag f). Qed.

Lemma eqb_false_flag {A : Type} (flag : A -> bool) (l : list A) :
  filter (fun f => Bool.eqb (flag f) false) l = filter (fun f => negb (flag f)) l.
Proof. apply filter_ext. intro f. now destruct (flag f). Qed.

Lemma format_removed_lines (removed : list removed_info)
    (inventory : list (string * json)) :
  lookup "removed_dawn_files" inventory = Some (JList (map removed_json removed)) ->
  exists lines,
    format_removed_files (JDict inventory) = Ok lines
    /\ listed_paths lines
       = map (fun f => JStr (r_path f))
             (filter should_restore removed
              ++ filter (fun f => accept_dawn_15_4 f && has_customizations f) removed
              ++ filter (fun f => accept_dawn_15_4 f && negb (has_customizations f))
                        removed).
Proof.
  intro H.
  unfold format_removed_files. cbn [py_get]. rewrite H. cbn [bind].
  destruct removed as [|f0 rest].
  - cbn [map truthy]. eexists. split; reflexivity.
  - change (truthy (JList (map removed_json (f0 :: rest)))) with true.
    remember (f0 :: rest) as removed eqn:R. clear R H.
    cbn [py_iter bind].
    rewrite (select_removed "should_restore" true should_restore) by reflexivity.
    cbn [bind].
    rewrite (select_removed "accept_dawn_15_4" true accept_dawn_15_4) by reflexivity.
    cbn [bind]. rewrite !eqb_true_flag.
    destruct (block_removed false
                [Line "### Files to Restore (moved to separate section below)"]
                [Line EmptyString] (filter should_restore removed) eq_refl eq_refl)
      as (restore_lines & -> & Pr).
    cbn [bind].
    set (accepted := filter accept_dawn_15_4 removed).
    destruct (block_removed true
                [Line "### Files to Patch with Customizations";
                 Line "These dev/config files had customizations before deletion.";
                 heading "Accept Dawn 15.4.0 version and patch in customizations from diff."]
                [Line EmptyString] (filter has_customizations accepted)
                eq_refl eq_refl) as (patch_lines & Ep & Pp).
    destruct (block_removed_open true
                [Line "### Files to Accept from Dawn 15.4.0 (no customizations)";
                 heading "These dev/config files can accept Dawn 15.4.0 versions as-is."]
                (filter (fun f => negb (has_customizations f)) accepted)
                eq_refl) as (clean_lines & Ec & Pc).
    destruct accepted as [|a accepted'] eqn:Ea.
    + cbn [map bind]. eexists. split; [reflexivity|].
      rewrite !listed_paths_app, Pr. cbn [listed_paths flat_map heading app].
      rewrite <- !filter_filter. fold accepted. rewrite Ea.
      cbn [filter]. now rewrite !app_nil_r.
    + change (map removed_json (a :: accepted'))
        with (removed_json a :: map removed_json accepted') at 1.
      cbv beta iota.
      rewrite (select_removed "has_customizations" true has_customizations)
        by reflexivity.
      cbn [bind].
      rewrite (select_removed "has_customizations" false has_customizations)
        by reflexivity.
      cbn [bind]. rewrite eqb_true_flag, eqb_false_flag.
      rewrite Ep. cbn [bind]. rewrite Ec. cbn [bind].
      eexists. split; [reflexivity|].
      rewrite !listed_paths_app, Pr, Pp, Pc.
      cbn [listed_paths flat_map heading app].
      rewrite <- !filter_filter. fold accepted. rewrite Ea.
      now rewrite !map_app.
Qed.

(** X28. The section that generate-diff-documentation.py writes about the
    removed files, from the inventory of categorize-changes.py:
    [format_removed_files] returns, and its list items name first the
    files to restore, then the development and configuration files with
    customizations, then those without, each in the order of the
    inventory; every deleted path is listed exactly as often as the input
    of categorize-changes.py lists it, so none is left out and none is in
    two blocks. *)
Theorem removed_files_listed_once (changes : file_changes)
    (full_diff : option string) (d1 d2 d3 : option file_changes)
    (inventory : list (string * json)) :
  let removed := removed_dawn_files (categorize_files changes full_diff d1 d2 d3) in
  lookup "removed_dawn_files" inventory = Some (JList (map removed_json removed)) ->
  exists lines,
    format_removed_files (JDict inventory) = Ok lines
    /\ listed_paths lines
       = map (fun f => JStr (r_path f))
             (filter should_restore removed
              ++ filter (fun f => accept_dawn_15_4 f && has_customizations f) removed
              ++ filter (fun f => accept_dawn_15_4 f && negb (has_customizations f))
                        removed)
    /\ Permutation (listed_paths lines) (map JStr (deleted changes)).
Proof.
  intros removed H.
  destruct (format_removed_lines removed inventory H) as (lines & E & L).
  exists lines. split; [exact E|]. split; [exact L|]. rewrite L.
  replace (map JStr (deleted changes))
    with (map (fun f => JStr (r_path f)) removed).
  2:{ subst removed. unfold categorize_files. cbn [removed_dawn_files].
      rewrite map_map. cbn [removed_entry r_path]. reflexivity. }
  apply Permutation_map.
  rewrite <- !filter_filter.
  replace (filter should_restore removed)
    with (filter (fun f => negb (accept_dawn_15_4 f)) removed).
  - apply three_way_partition.
  - apply filter_ext_in. intros f Hf. subst removed.
    unfold categorize_files in Hf. cbn [removed_dawn_files] in Hf.
    apply in_map_iff in Hf as (p & <- & _). reflexivity.
Qed.

End RemovedDocumentation.

Section RemovedDocumentationWitness.
Import PyStr Py PyNotations CategorizeChanges DiffDocumentation.

Lemma removed_files_listed_once_witness :
  let changes := mkChanges [] [] ["LICENSE.md"; "snippets/price.liquid"] in
  let removed := removed_dawn_files (categorize_files changes None None None None) in
  exists lines,
    format_removed_files (JDict [("removed_dawn_files",
                                  JList (map removed_json removed))])
    = Ok lines
    /\ Permutation (listed_paths lines) (map JStr (deleted changes)).
Proof.
  intros changes removed.
  destruct (removed_files_listed_once changes None None None None
              [("removed_dawn_files", JList (map removed_json removed))] eq_refl)
    as (lines & E & _ & P).
  now exists lines.
Defined.

End RemovedDocumentationWitness.
